(** * The streaming recognition pipeline of the sign-language interpreter

    A shallow embedding of
      - [src/recognition/confidence_filter.py]  ([ConfidenceFilter]),
      - [src/recognition/gesture_smoother.py]   ([GestureSmoother]),
      - [src/vision/temporal_buffer.py]         ([TemporalBuffer]),
      - [src/recognition/classifier.py]         ([GestureClassifier]),
      - [src/vision/camera.py]                  ([CameraManager._adapt_frame_rate]),
      - [src/server.py]                         ([process_frame], the [/ws]
                                                 loop, [update_config],
                                                 [ConnectionManager]),
      - [src/vision/landmark_extractor.py]      ([LandmarkExtractor]),
      - [src/utils/performance.py]              ([PerformanceMonitor]),
      - [src/training/capture.py]               ([CaptureManager], in memory),
      - [src/utils/config.py]                   ([_deep_merge]).

    Conventions.  Python floats are read as exact rationals ([Q]); the
    comparisons and the arithmetic are those of the source, without rounding.
    A Python object is a record, a method is a function from the object (and
    its arguments) to the updated object and the returned value.  [None] is
    [Datatypes.None].  A call that may raise returns an [outcome].  The clock
    read by [time.time()] is an explicit argument. *)

From Stdlib Require Import String List QArith Qabs Qround ZArith Lia Lqa Bool Arith.
From Stdlib Require Import Sorting.Sorted Sorting.Permutation.
Import ListNotations.

Open Scope Q_scope.

(** ** Python values shared by the modules *)

Module Py.

(** The exceptions the modelled code can raise. *)
Inductive exn : Type :=
| RuntimeError (msg : string)
| ZeroDivisionError
| IndexError
| ValueError
| OverflowError
| TypeError
| cv2_error.

(** The result of a call: it returns a value or raises. *)
Inductive outcome (A : Type) : Type :=
| Returned (a : A)
| Raised (e : exn).
Arguments Returned {A} a.
Arguments Raised {A} e.

Definition bind {A B : Type} (m : outcome A) (k : A -> outcome B) : outcome B :=
  match m with
  | Returned a => k a
  | Raised e => Raised e
  end.

(** [x < y] on floats. *)
Definition ltb (x y : Q) : bool := negb (Qle_bool y x).

(** [a == b] on [Optional[str]] against a [str]. *)
Definition opt_str_eqb (a : option string) (b : string) : bool :=
  match a with
  | Some s => String.eqb s b
  | None => false
  end.

(** Built-in [min(a, b)] and [max(a, b)]: the first argument wins ties. *)
Definition min (a b : Q) : Q := if ltb b a then b else a.
Definition max (a b : Q) : Q := if ltb a b then b else a.

(** [a / b] on floats: division by zero raises. *)
Definition div (a b : Q) : outcome Q :=
  if Qeq_bool b 0 then Raised ZeroDivisionError else Returned (a / b).

(** [collections.deque(maxlen=n).append(x)]: append on the right, then
    discard from the left whatever exceeds [maxlen]. *)
Definition deque_append {A : Type} (maxlen : nat) (d : list A) (x : A) : list A :=
  let d' := d ++ [x] in skipn (length d' - maxlen) d'.

(** [l[-n:]] for a positive [n]. *)
Definition last_n {A : Type} (n : nat) (l : list A) : list A :=
  skipn (length l - n) l.

(** [a[-k:]] for a Python integer [k]: the last [k] entries when [k > 0],
    the whole of [a] when [k = 0] (as [-0 = 0]), and [a[|k|:]] when
    [k < 0]. *)
Definition slice_from_neg {A : Type} (k : Z) (a : list A) : list A :=
  if (0 <? k)%Z then last_n (Z.to_nat k) a
  else skipn (Z.to_nat (- k)) a.

(** [d[-1]] when [d] is not empty. *)
Definition peek_last {A : Type} (d : list A) : option A :=
  match rev d with
  | [] => None
  | x :: _ => Some x
  end.

End Py.

Notation "x <- m ;; k" := (Py.bind m (fun x => k))
  (at level 61, m at next level, right associativity).

(** ** [ConfidenceFilter] *)

Module ConfidenceFilter.

Record t : Type := mk {
  threshold : Q;
  smoothing : Q;
  history : list (string * Q);
  last_prediction : option string;
  last_confidence : Q
}.

(** [__init__] *)
Definition init (threshold smoothing : Q) : t :=
  mk threshold smoothing [] None 0.

(** [_smooth_confidence] *)
Definition _smooth_confidence (self : t) (prediction : string) (confidence : Q) : Q :=
  if Py.opt_str_eqb (last_prediction self) prediction
  then smoothing self * confidence + (1 - smoothing self) * last_confidence self
  else confidence.

(** [sum(1 for p, _ in recent if p == prediction)] *)
Definition count_label (prediction : string) (recent : list (string * Q)) : nat :=
  length (filter (fun e => String.eqb (fst e) prediction) recent).

(** [_is_stable] *)
Definition _is_stable (self : t) (prediction : string) : bool :=
  if length (history self) <? 3 then true
  else
    let recent := Py.last_n 3 (history self) in
    2 <=? count_label prediction recent.

(** [filter]: the updated filter and the returned [Optional[str]]. *)
Definition filter (self : t) (prediction : string) (confidence : Q)
  : t * option string :=
  let smoothed_confidence := _smooth_confidence self prediction confidence in
  let self1 :=
    mk (threshold self) (smoothing self)
       (Py.deque_append 5 (history self) (prediction, smoothed_confidence))
       (last_prediction self) (last_confidence self) in
  if Py.ltb smoothed_confidence (threshold self1) then (self1, None)
  else if negb (_is_stable self1 prediction) then (self1, None)
  else
    (mk (threshold self1) (smoothing self1) (history self1)
        (Some prediction) smoothed_confidence,
     Some prediction).

(** [reset] *)
Definition reset (self : t) : t :=
  mk (threshold self) (smoothing self) [] None 0.

(** The filter after consecutive calls that all carry the label [p], with
    the confidences [cs]. *)
Definition filter_repeat (self : t) (p : string) (cs : list Q) : t :=
  fold_left (fun f c => fst (filter f p c)) cs self.

(** The filter after a sequence of calls, each with its label and its
    confidence. *)
Definition filter_calls (self : t) (calls : list (string * Q)) : t :=
  fold_left (fun f pc => fst (filter f (fst pc) (snd pc))) calls self.

End ConfidenceFilter.

(** ** [GestureSmoother] *)

Module GestureSmoother.

(** An entry of [output_history]: [(prediction, confidence, current_time)]. *)
Definition entry : Type := (string * Q * Q)%type.

Record t : Type := mk {
  min_duration : Q;
  cooldown : Q;
  current_gesture : option string;
  gesture_start_time : Q;
  last_output_time : Q;
  output_history : list entry
}.

(** [__init__] *)
Definition init (min_duration cooldown : Q) : t :=
  mk min_duration cooldown None 0 0 [].

(** [self.output_history and self.output_history[-1][0] == prediction] *)
Definition last_output_is (h : list entry) (prediction : string) : bool :=
  match Py.peek_last h with
  | None => false
  | Some e => String.eqb (fst (fst e)) prediction
  end.

(** [update], with the value [time.time()] returns as [current_time]. *)
Definition update (self : t) (prediction : string) (confidence : Q)
           (current_time : Q) : t * option (string * Q) :=
  if negb (Py.opt_str_eqb (current_gesture self) prediction) then
    (mk (min_duration self) (cooldown self) (Some prediction) current_time
        (last_output_time self) (output_history self),
     None)
  else
    let duration := current_time - gesture_start_time self in
    if Py.ltb duration (min_duration self) then (self, None)
    else if Py.ltb (current_time - last_output_time self) (cooldown self)
    then (self, None)
    else if last_output_is (output_history self) prediction then (self, None)
    else
      (mk (min_duration self) (cooldown self) (current_gesture self)
          (gesture_start_time self) current_time
          (Py.deque_append 10 (output_history self)
                           (prediction, confidence, current_time)),
       Some (prediction, confidence)).

(** [reset] *)
Definition reset (self : t) : t :=
  mk (min_duration self) (cooldown self) None 0
     (last_output_time self) [].

(** One call of [update]: its arguments and the clock at the call. *)
Record call : Type := Call {
  label : string;
  conf : Q;
  time : Q
}.

Definition step (self : t) (c : call) : t * option (string * Q) :=
  update self (label c) (conf c) (time c).

(** The outcomes of a call: it opens an episode, is held back, or emits. *)
Inductive step_case (s : t) (c : call) : Prop :=
| opens :
    current_gesture s <> Some (label c) ->
    step s c =
      (mk (min_duration s) (cooldown s) (Some (label c)) (time c)
          (last_output_time s) (output_history s), None) ->
    step_case s c
| held_back :
    current_gesture s = Some (label c) ->
    step s c = (s, None) ->
    step_case s c
| emits :
    current_gesture s = Some (label c) ->
    min_duration s <= time c - gesture_start_time s ->
    cooldown s <= time c - last_output_time s ->
    last_output_is (output_history s) (label c) = false ->
    step s c =
      (mk (min_duration s) (cooldown s) (current_gesture s)
          (gesture_start_time s) (time c)
          (Py.deque_append 10 (output_history s) (label c, conf c, time c)),
       Some (label c, conf c)) ->
    step_case s c.

(** The smoother after a sequence of calls of [update]. *)
Definition run (self : t) (calls : list call) : t :=
  fold_left (fun s c => fst (step s c)) calls self.

(** What the call [c] returns after the calls [pre]. *)
Definition output_after (self : t) (pre : list call) (c : call)
  : option (string * Q) :=
  snd (step (run self pre) c).

(** The clock never goes back along the calls: each time is at most every
    later one. *)
Fixpoint nondecreasing (ts : list Q) : bool :=
  match ts with
  | [] => true
  | t0 :: rest => forallb (Qle_bool t0) rest && nondecreasing rest
  end.

(** What the calls of a sequence return, one after the other. *)
Fixpoint outputs (self : t) (calls : list call) : list (option (string * Q)) :=
  match calls with
  | [] => []
  | c :: rest => snd (step self c) :: outputs (fst (step self c)) rest
  end.

(** The events the calls of a sequence emit, as [update] appends them to
    [output_history]. *)
Fixpoint emissions (self : t) (calls : list call) : list entry :=
  match calls with
  | [] => []
  | c :: rest =>
      match snd (step self c) with
      | Some _ => (label c, conf c, time c) :: emissions (fst (step self c)) rest
      | None => emissions (fst (step self c)) rest
      end
  end.

(** The calls [pre] end with an episode of the label [l] that started at
    [start]: a call [x] at that time and then calls [mid], all with the label
    [l], the call before [x], if any, with another label. *)
Definition episode (pre : list call) (l : string) (start : Q) : Prop :=
  exists pre1 x mid,
    pre = pre1 ++ x :: mid /\
    label x = l /\ time x = start /\
    Forall (fun y => label y = l) mid /\
    (pre1 = [] \/ exists pre0 w, pre1 = pre0 ++ [w] /\ label w <> l).

End GestureSmoother.

(** ** [TemporalBuffer] *)

Module TemporalBuffer.

(** A landmark vector ([np.ndarray] of shape [(feature_size,)]). *)
Definition landmarks : Type := list Q.

(** [window_size] is the [maxlen] of the deque, a natural number
    ([deque] refuses a negative [maxlen]). *)
Record t : Type := mk {
  window_size : nat;
  buffer : list landmarks;
  feature_size : option nat
}.

(** [__init__] *)
Definition init (window_size : nat) : t := mk window_size [] None.

(** [add]: there is no [raise] on its path. *)
Definition add (self : t) (l : landmarks) : Py.outcome t :=
  let feature_size' :=
    match feature_size self with
    | None => Some (length l)
    | Some n => Some n
    end in
  Py.Returned
    (mk (window_size self)
        (Py.deque_append (window_size self) (buffer self) l)
        feature_size').

(** [np.array(rows)] on a list of vectors: rows of unequal lengths are
    refused (NumPy 1.24 and later raise [ValueError]). *)
Definition np_array (rows : list landmarks) : Py.outcome (list landmarks) :=
  match rows with
  | [] => Py.Returned []
  | r :: _ =>
      if forallb (fun r' => length r' =? length r)%nat rows
      then Py.Returned rows
      else Py.Raised Py.ValueError
  end.

(** [get_sequence]: the buffer after the call and what the call gives. *)
Definition get_sequence (self : t) : t * Py.outcome (option (list landmarks)) :=
  if (length (buffer self) <? window_size self)%nat
  then (self, Py.Returned None)
  else (self, seq <- np_array (buffer self) ;; Py.Returned (Some seq)).

(** [clear] *)
Definition clear (self : t) : t :=
  mk (window_size self) [] (feature_size self).

(** [resize]: a new deque of the new size, filled with the items of
    [old_data[-new_size:]] one by one. *)
Definition resize (self : t) (new_size : nat) : t :=
  let old_data := buffer self in
  mk new_size
     (fold_left (Py.deque_append new_size)
                (Py.slice_from_neg (Z.of_nat new_size) old_data) [])
     (feature_size self).

(** [is_ready] *)
Definition is_ready (self : t) : bool :=
  (window_size self <=? length (buffer self))%nat.

(** A sequence of [add] calls. *)
Fixpoint pushes (self : t) (vs : list landmarks) : Py.outcome t :=
  match vs with
  | [] => Py.Returned self
  | v :: rest => self' <- add self v ;; pushes self' rest
  end.

(** [__len__] *)
Definition len (self : t) : nat := length (buffer self).

(** The loop of [get_partial_sequence],
    [while len(sequence) < self.window_size: sequence.insert(0, sequence[0])],
    run for at most [fuel] tests of its condition; [None] when the fuel does
    not reach the end of the loop. *)
Fixpoint pad_loop (fuel : nat) (window_size : nat) (sequence : list landmarks)
  : option (Py.outcome (list landmarks)) :=
  match fuel with
  | O => None
  | S fuel' =>
      if (length sequence <? window_size)%nat then
        match sequence with
        | [] => Some (Py.Raised Py.IndexError)
        | first :: _ => pad_loop fuel' window_size (first :: sequence)
        end
      else Some (Py.Returned sequence)
  end.

(** [get_partial_sequence] *)
Definition get_partial_sequence (fuel : nat) (self : t)
  : option (Py.outcome (option (list landmarks))) :=
  if (length (buffer self) =? 0)%nat then Some (Py.Returned None)
  else
    match pad_loop fuel (window_size self) (buffer self) with
    | None => None
    | Some padded =>
        Some (sequence <- padded ;;
              seq <- np_array sequence ;;
              Py.Returned (Some seq))
    end.

(** The feature size after some pushes: the one there was, or the length of
    the first vector pushed. *)
Definition feature_size_after (fs : option nat) (vs : list landmarks) : option nat :=
  match fs, vs with
  | Some n, _ => Some n
  | None, v :: _ => Some (length v)
  | None, [] => None
  end.

End TemporalBuffer.

(** ** [GestureClassifier] *)

Module GestureClassifier.

Definition window : Type := list TemporalBuffer.landmarks.

(** The ONNX session is the external inference backend: what matters of it
    is [session.run(None, {input_name: input_data})[0][0]], the raw output
    vector for a window. *)
Definition session_t : Type := window -> list Q.

Record t : Type := mk {
  session : option session_t;
  labels : list string;
  current_model : string
}.

(** [np.sum] *)
Definition np_sum (x : list Q) : Q := fold_left Qplus x 0.

(** [np.isclose(a, b)] with the default tolerances:
    [|a - b| <= atol + rtol * |b|], [rtol = 1e-05], [atol = 1e-08]. *)
Definition np_isclose (a b : Q) : bool :=
  Qle_bool (Qabs (a - b)) ((1 # 100000000) + (1 # 100000) * Qabs b).

(** [np.argmax]: the first index of the greatest entry; an empty vector
    raises. *)
Fixpoint argmax_from (i best : nat) (best_value : Q) (x : list Q) : nat :=
  match x with
  | [] => best
  | v :: rest =>
      if Py.ltb best_value v
      then argmax_from (S i) i v rest
      else argmax_from (S i) best best_value rest
  end.

Definition np_argmax (x : list Q) : Py.outcome nat :=
  match x with
  | [] => Py.Raised Py.ValueError
  | v :: rest => Py.Returned (argmax_from 1 0 v rest)
  end.

(** [np.argsort]: the indices that sort the vector in ascending order.
    NumPy's default sort kind does not fix the order of equal entries; here
    they keep their index order, as they do on the vectors of up to 16
    entries NumPy sorts by insertion.  Of the order of equal probabilities,
    the theorems on [predict_top_k] assert what holds of every ascending
    order only. *)
Fixpoint insert_index (probs : list Q) (i : nat) (sorted : list nat) : list nat :=
  match sorted with
  | [] => [i]
  | j :: rest =>
      if Qle_bool (nth i probs 0) (nth j probs 0)
      then i :: sorted
      else j :: insert_index probs i rest
  end.

Definition np_argsort (probs : list Q) : list nat :=
  fold_right (insert_index probs) [] (seq 0 (length probs)).

(** [self.labels[i]] *)
Definition label_at (self : t) (i : nat) : Py.outcome string :=
  match nth_error (labels self) i with
  | Some l => Py.Returned l
  | None => Py.Raised Py.IndexError
  end.

Section Softmax.

(** [_softmax] goes through [np.exp], which leaves the rationals: the
    static method is a parameter, for the non-empty vectors.  On an empty
    vector its [np.max(x)] raises [ValueError]. *)
Variable _softmax : list Q -> list Q.

(** The probability vector both [predict] and [predict_top_k] work on.  An
    empty output has the sum 0.0, which [np.isclose] does not take for 1.0,
    so that [_softmax] is called and raises: this case is the empty vector
    here, on which [predict] and [predict_top_k] raise that [ValueError]. *)
Definition probabilities (run : session_t) (sequence : window) : list Q :=
  let probs := run sequence in
  match probs with
  | [] => []
  | _ :: _ =>
      if negb (np_isclose (np_sum probs) 1) then _softmax probs else probs
  end.

(** [predict] *)
Definition predict (self : t) (sequence : window) : Py.outcome (string * Q) :=
  match session self with
  | None => Py.Raised (Py.RuntimeError "No model loaded")
  | Some run =>
      let probs := probabilities run sequence in
      match probs with
      | [] => Py.Raised Py.ValueError
      | _ :: _ =>
          pred_idx <- np_argmax probs ;;
          let confidence := nth pred_idx probs 0 in
          l <- label_at self pred_idx ;;
          Py.Returned (l, confidence)
      end
  end.

(** [[(self.labels[i], float(probs[i])) for i in top_indices]] *)
Fixpoint label_all (self : t) (probs : list Q) (top_indices : list nat)
  : Py.outcome (list (string * Q)) :=
  match top_indices with
  | [] => Py.Returned []
  | i :: rest =>
      l <- label_at self i ;;
      tl <- label_all self probs rest ;;
      Py.Returned ((l, nth i probs 0) :: tl)
  end.

(** [np.argsort(probs)[-k:][::-1]] *)
Definition top_indices (probs : list Q) (k : Z) : list nat :=
  rev (Py.slice_from_neg k (np_argsort probs)).

(** [predict_top_k] *)
Definition predict_top_k (self : t) (sequence : window) (k : Z)
  : Py.outcome (list (string * Q)) :=
  match session self with
  | None => Py.Raised (Py.RuntimeError "No model loaded")
  | Some run =>
      let probs := probabilities run sequence in
      match probs with
      | [] => Py.Raised Py.ValueError
      | _ :: _ => label_all self probs (top_indices probs k)
      end
  end.

End Softmax.

(** The order [np_argsort] leaves the indices in: by ascending probability,
    equal probabilities by ascending index. *)
Definition argsort_order (probs : list Q) (i j : nat) : Prop :=
  nth i probs 0 < nth j probs 0 \/
  (nth i probs 0 == nth j probs 0 /\ (i < j)%nat).

(** The order of the indices behind the result of [predict_top_k]: by
    descending probability, equal probabilities by descending index. *)
Definition top_k_order (probs : list Q) (i j : nat) : Prop :=
  nth j probs 0 < nth i probs 0 \/
  (nth j probs 0 == nth i probs 0 /\ (j < i)%nat).

(** The order the specification words ask of these indices: by descending
    probability, equal probabilities by ascending index. *)
Definition spec_top_k_order (probs : list Q) (i j : nat) : Prop :=
  nth j probs 0 < nth i probs 0 \/
  (nth j probs 0 == nth i probs 0 /\ (i < j)%nat).

End GestureClassifier.

(** ** [CameraManager]: the adaptive frame rate *)

Module CameraManager.

Record t : Type := mk {
  target_fps : Q;
  adaptive_sampling : bool;
  min_fps : Q;
  current_fps : Q
}.

(** [_adapt_frame_rate] *)
Definition _adapt_frame_rate (self : t) (current_interval : Q) : Py.outcome Q :=
  if Py.ltb (current_fps self) (min_fps self) then
    ceiling <- Py.div 1 (min_fps self) ;;
    Py.Returned (Py.min (current_interval * (11 # 10)) ceiling)
  else if Py.ltb (target_fps self * (95 # 100)) (current_fps self) then
    floor <- Py.div 1 (target_fps self) ;;
    Py.Returned (Py.max (current_interval * (95 # 100)) floor)
  else Py.Returned current_interval.

(** [_update_fps], with the value [time.perf_counter()] returns as
    [current_time].  The list [self._frame_times] is kept beside the record:
    the manager and the list after the call. *)
Definition _update_fps (self : t) (_frame_times : list Q) (current_time : Q)
  : t * list Q :=
  let appended := _frame_times ++ [current_time] in
  let cutoff := current_time - 1 in
  let kept := filter (fun t0 => Py.ltb cutoff t0) appended in
  (mk (target_fps self) (adaptive_sampling self) (min_fps self)
      (inject_Z (Z.of_nat (length kept))),
   kept).

(** Calls of [_update_fps] at the clock values [clock]. *)
Definition update_fps_many (self : t) (_frame_times : list Q) (clock : list Q)
  : t * list Q :=
  fold_left (fun st now => _update_fps (fst st) (snd st) now)
            clock (self, _frame_times).

(** One turn of the loop of [_capture_loop] on a frame that was read, for
    what bears on the rate: the manager, [_frame_times] and [frame_interval]
    after [_update_fps] and, with adaptive sampling, [_adapt_frame_rate]. *)
Definition capture_turn (self : t) (_frame_times : list Q) (frame_interval : Q)
           (now : Q) : Py.outcome (t * list Q * Q) :=
  let (self1, times1) := _update_fps self _frame_times now in
  if adaptive_sampling self1 then
    interval1 <- _adapt_frame_rate self1 frame_interval ;;
    Py.Returned (self1, times1, interval1)
  else Py.Returned (self1, times1, frame_interval).

Fixpoint capture_turns (self : t) (_frame_times : list Q) (frame_interval : Q)
         (clock : list Q) : Py.outcome (t * list Q * Q) :=
  match clock with
  | [] => Py.Returned (self, _frame_times, frame_interval)
  | now :: rest =>
      st <- capture_turn self _frame_times frame_interval now ;;
      capture_turns (fst (fst st)) (snd (fst st)) (snd st) rest
  end.

(** [_capture_loop] over the frames that were read, [clock] giving the time
    of [_update_fps] for each: [frame_interval] starts at
    [1.0 / self.target_fps]. *)
Definition _capture_loop (self : t) (_frame_times : list Q) (clock : list Q)
  : Py.outcome (t * list Q * Q) :=
  frame_interval <- Py.div 1 (target_fps self) ;;
  capture_turns self _frame_times frame_interval clock.

End CameraManager.

(** ** [server.py]: the frame-processing path *)

Module Server.

(** The JSON messages [process_frame] returns. *)
Inductive message : Type :=
| no_detection
| buffering
| low_confidence (landmarks : TemporalBuffer.landmarks)
| recognition (sign : string) (confidence : Q)
              (landmarks : TemporalBuffer.landmarks).

(** The components of [app.state] the path goes through. *)
Record app_state : Type := mk {
  temporal_buffer : TemporalBuffer.t;
  classifier : GestureClassifier.t;
  confidence_filter : ConfidenceFilter.t
}.

Section Collaborators.

(** The decoded image, [base64.b64decode] followed by [cv2.imdecode]
    ([None] when the bytes are no image), [LandmarkExtractor.extract] and
    the classifier's softmax are external. *)
Variable frame_t : Type.
Variable imdecode : string -> option frame_t.
Variable extract : frame_t -> option TemporalBuffer.landmarks.
Variable _softmax : list Q -> list Q.

(** [process_frame]: [app.state] after the call and the returned
    [Optional[dict]], or the exception that leaves the call. *)
Definition process_frame (app : app_state) (frame_data : string)
  : app_state * Py.outcome (option message) :=
  match imdecode frame_data with
  | None => (app, Py.Returned None)
  | Some frame =>
  match extract frame with
  | None => (app, Py.Returned (Some no_detection))
  | Some landmarks =>
  match TemporalBuffer.add (temporal_buffer app) landmarks with
  | Py.Raised e => (app, Py.Raised e)
  | Py.Returned buf1 =>
  let (buf2, got) := TemporalBuffer.get_sequence buf1 in
  let app1 := mk buf2 (classifier app) (confidence_filter app) in
  match got with
  | Py.Raised e => (app1, Py.Raised e)
  | Py.Returned None => (app1, Py.Returned (Some buffering))
  | Py.Returned (Some sequence) =>
  match GestureClassifier.predict _softmax (classifier app1) sequence with
  | Py.Raised e => (app1, Py.Raised e)
  | Py.Returned (prediction, confidence) =>
  let (filter1, filtered_prediction) :=
    ConfidenceFilter.filter (confidence_filter app1) prediction confidence in
  let app2 := mk (temporal_buffer app1) (classifier app1) filter1 in
  match filtered_prediction with
  | None => (app2, Py.Returned (Some (low_confidence landmarks)))
  | Some sign =>
      (app2, Py.Returned (Some (recognition sign confidence landmarks)))
  end end end end end end.

(** The [/ws] loop on a sequence of ["frame"] messages, each with the
    time it arrives at: a result that is not [None] is sent to the
    client ([websocket.send_json]); an exception ends the connection. *)
Fixpoint serve (app : app_state) (frames : list (Q * string))
  : list (Q * message) :=
  match frames with
  | [] => []
  | (arrival, frame_data) :: rest =>
      match process_frame app frame_data with
      | (_, Py.Raised _) => []
      | (app', Py.Returned None) => serve app' rest
      | (app', Py.Returned (Some m)) => (arrival, m) :: serve app' rest
      end
  end.

(** Whether a frame reaches the temporal buffer: it decodes and landmarks
    are found in it. *)
Definition detected (frame_data : string) : bool :=
  match imdecode frame_data with
  | None => false
  | Some frame =>
      match extract frame with
      | None => false
      | Some _ => true
      end
  end.

(** The decoding of a frame can raise before [imdecode] answers:
    [base64.b64decode] raises [binascii.Error], a [ValueError], on a string
    that is no base64, and [cv2.imdecode] raises [cv2.error] on no bytes at
    all.  [decode_error] gives the exception of a string on which one is
    raised; [imdecode] is asked on the other strings only. *)
Variable decode_error : string -> option Py.exn.

(** [process_frame] on the ["frame"] field of a message, [None] when the
    message has none ([data.get("frame")]): [base64.b64decode(None)] raises
    [TypeError]. *)
Definition process_frame_field (app : app_state) (field : option string)
  : app_state * Py.outcome (option message) :=
  match field with
  | None => (app, Py.Raised Py.TypeError)
  | Some frame_data =>
      match decode_error frame_data with
      | Some e => (app, Py.Raised e)
      | None => process_frame app frame_data
      end
  end.

(** The [/ws] loop on the ["frame"] messages of a connection, each with the
    time it arrives at and its ["frame"] field: a result that is not [None]
    is sent; an exception leaves the loop, the connection is dropped and the
    messages after it are not read. *)
Fixpoint websocket_frames (app : app_state) (fields : list (Q * option string))
  : list (Q * message) :=
  match fields with
  | [] => []
  | (arrival, field) :: rest =>
      match process_frame_field app field with
      | (_, Py.Raised _) => []
      | (app', Py.Returned None) => websocket_frames app' rest
      | (app', Py.Returned (Some m)) => (arrival, m) :: websocket_frames app' rest
      end
  end.

(** Whether the decoding of a field raises. *)
Definition field_raises (field : option string) : bool :=
  match field with
  | None => true
  | Some frame_data =>
      match decode_error frame_data with
      | Some _ => true
      | None => false
      end
  end.

(** Whether a field carries a frame that reaches the temporal buffer. *)
Definition field_detected (field : option string) : bool :=
  match field with
  | None => false
  | Some frame_data => detected frame_data
  end.

End Collaborators.

(** [int(value)] on a float: the fraction is dropped, towards zero. *)
Definition py_int (value : Q) : Z :=
  if Qle_bool 0 value then Qfloor value else Qceiling value.

Section Builtins.

(** [float(value)] on a finite number: the number itself when it is a
    [float]; the nearest float when it is an [int], which is the [int] itself
    up to a magnitude of [2**53]; [OverflowError] on an [int] beyond the range
    of the floats. *)
Variable py_float : Q -> Py.outcome Q.

(** [update_config], for a finite numeric [value].  With the key
    ["temporal_window"], [resize] assigns [window_size] and then builds
    [deque(maxlen=new_size)], which raises [OverflowError] on a size that is
    no C [ssize_t] (64 bits) and [ValueError] on a negative one: the state
    these exceptions leave is not part of this model. *)
Definition update_config (app : app_state) (key : string) (value : Q)
  : Py.outcome app_state :=
  if String.eqb key "confidence_threshold" then
    match py_float value with
    | Py.Raised e => Py.Raised e
    | Py.Returned threshold =>
        Py.Returned
          (mk (temporal_buffer app) (classifier app)
              (ConfidenceFilter.mk
                 threshold
                 (ConfidenceFilter.smoothing (confidence_filter app))
                 (ConfidenceFilter.history (confidence_filter app))
                 (ConfidenceFilter.last_prediction (confidence_filter app))
                 (ConfidenceFilter.last_confidence (confidence_filter app))))
    end
  else if String.eqb key "smoothing_factor" then
    match py_float value with
    | Py.Raised e => Py.Raised e
    | Py.Returned smoothing =>
        Py.Returned
          (mk (temporal_buffer app) (classifier app)
              (ConfidenceFilter.mk
                 (ConfidenceFilter.threshold (confidence_filter app))
                 smoothing
                 (ConfidenceFilter.history (confidence_filter app))
                 (ConfidenceFilter.last_prediction (confidence_filter app))
                 (ConfidenceFilter.last_confidence (confidence_filter app))))
    end
  else if String.eqb key "temporal_window" then
    let new_size := py_int value in
    if ((new_size <? - 2 ^ 63) || (2 ^ 63 - 1 <? new_size))%Z
    then Py.Raised Py.OverflowError
    else if (new_size <? 0)%Z then Py.Raised Py.ValueError
    else
      Py.Returned
        (mk (TemporalBuffer.resize (temporal_buffer app) (Z.to_nat new_size))
            (classifier app) (confidence_filter app))
  else Py.Returned app.

End Builtins.

(** The recognition events among the sent messages. *)
Definition recognitions (sent : list (Q * message)) : list (Q * string) :=
  flat_map (fun tm =>
              match snd tm with
              | recognition sign _ _ => [(fst tm, sign)]
              | _ => []
              end) sent.

(** What C3 asks of the recognition events sent: two in a row with one
    label are at least [cooldown] apart. *)
Fixpoint spec_debounced (cooldown : Q) (events : list (Q * string)) : bool :=
  match events with
  | [] => true
  | (t1, l1) :: rest =>
      match rest with
      | [] => true
      | (t2, l2) :: _ =>
          (negb (String.eqb l1 l2) || Qle_bool cooldown (t2 - t1))
          && spec_debounced cooldown rest
      end
  end.

End Server.

(** ** [LandmarkExtractor]: from the detections to the feature vector *)

Module LandmarkExtractor.

(** A MediaPipe landmark. *)
Record landmark : Type := Landmark {
  x : Q;
  y : Q;
  z : Q;
  visibility : Q
}.

Definition HAND_LANDMARKS : nat := 21.
Definition POSE_LANDMARKS : nat := 33.
Definition FACE_LANDMARKS : nat := 468.

(** The detectors [self.pose] and [self.face] are there exactly when
    [enable_pose] and [enable_face] are set. *)
Record t : Type := mk {
  enable_pose : bool;
  enable_face : bool
}.

(** What the MediaPipe detectors give for a frame:
    [multi_hand_landmarks] (a list of hands, each the list [hand.landmark],
    or [None]), [pose_landmarks] (the list [pose_landmarks.landmark], or
    [None]) and [multi_face_landmarks] (a list of faces, or [None]). *)
Record detections : Type := Detections {
  multi_hand_landmarks : option (list (list landmark));
  pose_landmarks : option (list landmark);
  multi_face_landmarks : option (list (list landmark))
}.

(** [[0.0] * n] *)
Definition zeros (n : nat) : list Q := repeat 0 n.

(** [_extract_hands] *)
Definition _extract_hands (result : detections) : list Q :=
  flat_map
    (fun i =>
       match multi_hand_landmarks result with
       | None => zeros (HAND_LANDMARKS * 3)
       | Some hands =>
           match nth_error hands i with
           | Some hand => flat_map (fun l => [x l; y l; z l]) hand
           | None => zeros (HAND_LANDMARKS * 3)
           end
       end)
    [0; 1]%nat.

(** [_extract_pose] *)
Definition _extract_pose (result : detections) : list Q :=
  match pose_landmarks result with
  | Some landmarks =>
      flat_map (fun l => [x l; y l; z l; visibility l]) (firstn 25 landmarks)
  | None => zeros (25 * 4)
  end.

Definition KEY_POINTS : list nat := [33; 133; 362; 263; 1; 61; 291; 199]%nat.

(** The loop of [_extract_face] over the key points: [face.landmark[idx]]
    raises when the face has no such landmark. *)
Fixpoint face_points (face : list landmark) (idxs : list nat)
  : Py.outcome (list Q) :=
  match idxs with
  | [] => Py.Returned []
  | idx :: rest =>
      match nth_error face idx with
      | None => Py.Raised Py.IndexError
      | Some l =>
          tl <- face_points face rest ;;
          Py.Returned ([x l; y l; z l] ++ tl)
      end
  end.

(** [_extract_face] *)
Definition _extract_face (result : detections) : Py.outcome (list Q) :=
  match multi_face_landmarks result with
  | Some (face :: _) => face_points face KEY_POINTS
  | _ => Py.Returned (zeros (length KEY_POINTS * 3))
  end.

(** [extract], on what the detectors find in the frame. *)
Definition extract (self : t) (result : detections)
  : Py.outcome (option (list Q)) :=
  match multi_hand_landmarks result with
  | None | Some [] => Py.Returned None
  | Some (_ :: _) =>
      let hand_data := _extract_hands result in
      let pose_data := if enable_pose self then _extract_pose result else [] in
      if enable_face self then
        face_data <- _extract_face result ;;
        Py.Returned (Some (hand_data ++ pose_data ++ face_data))
      else Py.Returned (Some (hand_data ++ pose_data ++ []))
  end.

(** [get_feature_size] *)
Definition get_feature_size (self : t) : nat :=
  let size := (2 * HAND_LANDMARKS * 3)%nat in
  let size := if enable_pose self then (size + 25 * 4)%nat else size in
  let size := if enable_face self then (size + 8 * 3)%nat else size in
  size.

(** The detections MediaPipe gives: 21 landmarks a hand, 33 for the pose and
    468 a face. *)
Definition well_formed (result : detections) : Prop :=
  (forall hands, multi_hand_landmarks result = Some hands ->
                 Forall (fun hand => length hand = HAND_LANDMARKS) hands) /\
  (forall pose, pose_landmarks result = Some pose ->
                length pose = POSE_LANDMARKS) /\
  (forall faces, multi_face_landmarks result = Some faces ->
                 Forall (fun face => length face = FACE_LANDMARKS) faces).

End LandmarkExtractor.

(** ** Python dictionaries with string keys *)

Module PyDict.

Section Dict.

Variable V : Type.

(** The items of the dictionary in insertion order, each key once. *)
Definition t : Type := list (string * V).

(** [d.get(k)] *)
Fixpoint get (d : t) (k : string) : option V :=
  match d with
  | [] => None
  | (k', v) :: rest => if String.eqb k' k then Some v else get rest k
  end.

(** [k in d] *)
Definition contains (d : t) (k : string) : bool :=
  match get d k with
  | Some _ => true
  | None => false
  end.

(** [d[k] = v]: the value of a key that is there is replaced in place, a new
    key goes to the end. *)
Fixpoint set (d : t) (k : string) (v : V) : t :=
  match d with
  | [] => [(k, v)]
  | (k', v') :: rest =>
      if String.eqb k' k then (k, v) :: rest else (k', v') :: set rest k v
  end.

(** [del d[k]] for a key that is in [d]: its item goes. *)
Definition del (d : t) (k : string) : t :=
  filter (fun item => negb (String.eqb (fst item) k)) d.

End Dict.

Arguments get {V} d k.
Arguments contains {V} d k.
Arguments set {V} d k v.
Arguments del {V} d k.

End PyDict.

(** ** [PerformanceMonitor] *)

Module PerformanceMonitor.

Record t : Type := mk {
  window_size : nat;
  _timings : PyDict.t (list Q);
  _counters : PyDict.t Z;
  _start_times : PyDict.t Q
}.

(** [__init__] *)
Definition init (window_size : nat) : t := mk window_size [] [] [].

(** [start_timer], with the value of [time.perf_counter()]. *)
Definition start_timer (self : t) (name : string) (now : Q) : t :=
  mk (window_size self) (_timings self) (_counters self)
     (PyDict.set (_start_times self) name now).

(** [stop_timer], with the value of [time.perf_counter()]: the monitor after
    the call and the returned [Optional[float]]. *)
Definition stop_timer (self : t) (name : string) (now : Q) : t * option Q :=
  match PyDict.get (_start_times self) name with
  | None => (self, None)
  | Some started =>
      let duration := now - started in
      let start_times1 := PyDict.del (_start_times self) name in
      let timings1 :=
        if negb (PyDict.contains (_timings self) name)
        then PyDict.set (_timings self) name []
        else _timings self in
      let timings2 :=
        match PyDict.get timings1 name with
        | Some deque =>
            PyDict.set timings1 name
                       (Py.deque_append (window_size self) deque duration)
        | None => timings1
        end in
      (mk (window_size self) timings2 (_counters self) start_times1,
       Some duration)
  end.

(** [increment_counter] *)
Definition increment_counter (self : t) (name : string) (amount : Z) : t :=
  let counters1 :=
    if negb (PyDict.contains (_counters self) name)
    then PyDict.set (_counters self) name 0%Z
    else _counters self in
  let counters2 :=
    match PyDict.get counters1 name with
    | Some c => PyDict.set counters1 name (c + amount)%Z
    | None => counters1
    end in
  mk (window_size self) (_timings self) counters2 (_start_times self).

(** [sum(timings)] *)
Definition sum (timings : list Q) : Q := fold_left Qplus timings 0.

(** [get_average] *)
Definition get_average (self : t) (name : string) : Py.outcome (option Q) :=
  match PyDict.get (_timings self) name with
  | None => Py.Returned None
  | Some timings =>
      if (length timings =? 0)%nat then Py.Returned None
      else
        avg <- Py.div (sum timings) (inject_Z (Z.of_nat (length timings))) ;;
        Py.Returned (Some avg)
  end.

(** [get_fps] *)
Definition get_fps (self : t) (name : string) : Py.outcome (option Q) :=
  avg <- get_average self name ;;
  match avg with
  | None => Py.Returned None
  | Some a =>
      if Qeq_bool a 0 then Py.Returned None
      else fps <- Py.div 1 a ;; Py.Returned (Some fps)
  end.

(** [get_counter] *)
Definition get_counter (self : t) (name : string) : Z :=
  match PyDict.get (_counters self) name with
  | Some c => c
  | None => 0%Z
  end.

(** [reset] *)
Definition reset (self : t) : t := mk (window_size self) [] [] [].

(** The calls that change a monitor. *)
Inductive call : Type :=
| StartTimer (name : string) (now : Q)
| StopTimer (name : string) (now : Q)
| IncrementCounter (name : string) (amount : Z)
| Reset.

Definition step (self : t) (c : call) : t :=
  match c with
  | StartTimer name now => start_timer self name now
  | StopTimer name now => fst (stop_timer self name now)
  | IncrementCounter name amount => increment_counter self name amount
  | Reset => reset self
  end.

Definition run (self : t) (calls : list call) : t := fold_left step calls self.

(** What the calls make of the counter [name], from the value [acc]: an
    increment of that counter adds its amount, a reset gives 0, the other
    calls leave it. *)
Fixpoint counted (name : string) (calls : list call) (acc : Z) : Z :=
  match calls with
  | [] => acc
  | IncrementCounter n amount :: rest =>
      counted name rest (if String.eqb n name then acc + amount else acc)%Z
  | Reset :: rest => counted name rest 0%Z
  | _ :: rest => counted name rest acc
  end.

End PerformanceMonitor.

(** ** [CaptureManager]: the samples in memory *)

Module CaptureManager.

(** The metadata of a sign: ["created"] and ["category"]. *)
Definition meta : Type := (Q * string)%type.

Record t : Type := mk {
  samples : PyDict.t (list TemporalBuffer.landmarks);
  metadata : PyDict.t meta
}.

(** [__init__], for what is kept in memory. *)
Definition init : t := mk [] [].

(** [add_sample], with the value of [time.time()]. *)
Definition add_sample (self : t) (sign_name : string)
           (landmarks : TemporalBuffer.landmarks) (now : Q) : t :=
  let self1 :=
    if negb (PyDict.contains (samples self) sign_name)
    then mk (PyDict.set (samples self) sign_name [])
            (PyDict.set (metadata self) sign_name (now, "custom"%string))
    else self in
  match PyDict.get (samples self1) sign_name with
  | Some l => mk (PyDict.set (samples self1) sign_name (l ++ [landmarks]))
                 (metadata self1)
  | None => self1
  end.

(** [get_samples] *)
Definition get_samples (self : t) (sign_name : string)
  : list TemporalBuffer.landmarks :=
  match PyDict.get (samples self) sign_name with
  | Some l => l
  | None => []
  end.

(** [get_sample_count] *)
Definition get_sample_count (self : t) (sign_name : string) : nat :=
  length (get_samples self sign_name).

(** [clear_samples]: [None] stands for the [KeyError] of
    [del self.metadata[sign_name]] on a sign without metadata. *)
Definition clear_samples (self : t) (sign_name : string) : option t :=
  if PyDict.contains (samples self) sign_name then
    if PyDict.contains (metadata self) sign_name
    then Some (mk (PyDict.del (samples self) sign_name)
                  (PyDict.del (metadata self) sign_name))
    else None
  else Some self.

(** The calls that change what is in memory. *)
Inductive call : Type :=
| AddSample (sign_name : string) (landmarks : TemporalBuffer.landmarks) (now : Q)
| ClearSamples (sign_name : string).

Definition step (self : t) (c : call) : option t :=
  match c with
  | AddSample sign_name landmarks now =>
      Some (add_sample self sign_name landmarks now)
  | ClearSamples sign_name => clear_samples self sign_name
  end.

Fixpoint run (self : t) (calls : list call) : option t :=
  match calls with
  | [] => Some self
  | c :: rest =>
      match step self c with
      | Some self' => run self' rest
      | None => None
      end
  end.

End CaptureManager.

(** ** [utils/config.py]: the deep merge of configurations *)

Module Config.

(** A configuration value: a dictionary, or any other value (a number, a
    string, a list), known by its text. *)
#[warnings="-register-all"]
Inductive value : Type :=
| VDict (items : list (string * value))
| VOther (repr : string).

(** What [_deep_merge] stores under a key that [result] has: the merge of
    the two values when both are dictionaries ([_deep_merge(result[key],
    value)], the loop of the inner call being the inner [fix]), the new value
    otherwise. *)
Fixpoint merge_value (value_ : value) (old : value) {struct value_} : value :=
  match value_, old with
  | VDict override, VDict base =>
      VDict
        ((fix loop (override : list (string * value))
                   (result : list (string * value)) {struct override} :=
            match override with
            | [] => result
            | (key, v) :: rest =>
                loop rest
                     (PyDict.set result key
                        (match PyDict.get result key with
                         | Some old_v => merge_value v old_v
                         | None => v
                         end))
            end) override base)
  | _, _ => value_
  end.

(** [_deep_merge]: [result = base.copy()], then the loop over
    [override.items()]. *)
Definition _deep_merge (base override : list (string * value))
  : list (string * value) :=
  fold_left
    (fun result item =>
       PyDict.set result (fst item)
         (match PyDict.get result (fst item) with
          | Some old_v => merge_value (snd item) old_v
          | None => snd item
          end))
    override base.

End Config.

(** ** [server.py]: [ConnectionManager] *)

Module ConnectionManager.

(** A WebSocket is known by its identity. *)
Definition websocket : Type := nat.

Record t : Type := mk {
  active_connections : list websocket
}.

(** [__init__] *)
Definition init : t := mk [].

(** [list.remove(x)]: the first item equal to [x] goes; [ValueError] when
    there is none. *)
Fixpoint list_remove (x : websocket) (l : list websocket)
  : Py.outcome (list websocket) :=
  match l with
  | [] => Py.Raised Py.ValueError
  | y :: rest =>
      if (y =? x)%nat then Py.Returned rest
      else rest' <- list_remove x rest ;; Py.Returned (y :: rest')
  end.

(** [connect], after [websocket.accept()]. *)
Definition connect (self : t) (ws : websocket) : t :=
  mk (active_connections self ++ [ws]).

(** [disconnect] *)
Definition disconnect (self : t) (ws : websocket) : Py.outcome t :=
  l <- list_remove ws (active_connections self) ;; Py.Returned (mk l).

(** [broadcast]: the connections the message reaches, [send_json] failing on
    those where [send_fails] holds; the exception is logged and the loop goes
    on. *)
Definition broadcast (self : t) (send_fails : websocket -> bool) : list websocket :=
  filter (fun c => negb (send_fails c)) (active_connections self).

End ConnectionManager.

(** ** Facts on the Python helpers *)

Lemma ltb_lt (x y : Q) : Py.ltb x y = true <-> x < y.
Proof.
  unfold Py.ltb. rewrite negb_true_iff.
  split; intro H.
  - apply Qnot_le_lt. intro Hle. apply Qle_bool_iff in Hle. congruence.
  - destruct (Qle_bool y x) eqn:E; [|reflexivity].
    apply Qle_bool_iff in E. apply Qle_not_lt in E. contradiction.
Qed.

Lemma ltb_ge (x y : Q) : Py.ltb x y = false <-> y <= x.
Proof.
  unfold Py.ltb. rewrite negb_false_iff. apply Qle_bool_iff.
Qed.

Lemma deque_append_length {A : Type} (n : nat) (d : list A) (x : A) :
  length (Py.deque_append n d x) = Nat.min (S (length d)) n.
Proof.
  unfold Py.deque_append. rewrite length_skipn, length_app. cbn [length]. lia.
Qed.

Lemma deque_append_bounded {A : Type} (n : nat) (d : list A) (x : A) :
  (length (Py.deque_append n d x) <= n)%nat.
Proof. rewrite deque_append_length. lia. Qed.

Lemma deque_append_room {A : Type} (n : nat) (d : list A) (x : A) :
  (length d < n)%nat -> Py.deque_append n d x = d ++ [x].
Proof.
  intro H. unfold Py.deque_append.
  replace (length (d ++ [x]) - n)%nat with 0%nat; [reflexivity|].
  rewrite length_app. simpl. lia.
Qed.

Lemma deque_append_last {A : Type} (n : nat) (d : list A) (x : A) :
  (0 < n)%nat -> exists d', Py.deque_append n d x = d' ++ [x].
Proof.
  intro H. unfold Py.deque_append.
  exists (skipn (length (d ++ [x]) - n) d).
  rewrite skipn_app.
  replace (length (d ++ [x]) - n - length d)%nat with 0%nat
    by (rewrite length_app; simpl; lia).
  reflexivity.
Qed.

Lemma deque_append_tail {A : Type} (n : nat) (d tl : list A) (x : A) :
  (length tl < n)%nat ->
  Py.deque_append n (d ++ tl) x =
  skipn (length d + length tl + 1 - n) d ++ tl ++ [x].
Proof.
  intro H. unfold Py.deque_append.
  rewrite <- app_assoc, skipn_app, !length_app. cbn [length].
  replace (length d + (length tl + 1) - n - length d)%nat with 0%nat by lia.
  replace (length d + (length tl + 1) - n)%nat
    with (length d + length tl + 1 - n)%nat by lia.
  reflexivity.
Qed.

Lemma last_n_tail {A : Type} (d tl : list A) :
  Py.last_n (length tl) (d ++ tl) = tl.
Proof.
  unfold Py.last_n. rewrite skipn_app, length_app.
  replace (length d + length tl - length tl)%nat with (length d) by lia.
  rewrite skipn_all, Nat.sub_diag. reflexivity.
Qed.

Lemma peek_last_snoc {A : Type} (d : list A) (x : A) :
  Py.peek_last (d ++ [x]) = Some x.
Proof. unfold Py.peek_last. rewrite rev_unit. reflexivity. Qed.

(** ** [ConfidenceFilter]: the threshold and the stability rule *)

Section FilterFacts.

Import ConfidenceFilter.

Variable self : ConfidenceFilter.t.
Variable prediction : string.
Variable confidence : Q.

Local Abbreviation smoothed := (_smooth_confidence self prediction confidence).
Local Abbreviation history1 :=
  (Py.deque_append 5 (history self) (prediction, smoothed)).

(** Accepted or not, the call appends its entry to the history and keeps
    the two settings. *)
Lemma filter_history :
  history (fst (filter self prediction confidence)) = history1.
Proof.
  unfold filter. cbn [threshold history].
  destruct (Py.ltb _ _); [reflexivity|].
  destruct (negb _); reflexivity.
Qed.

Lemma filter_settings :
  threshold (fst (filter self prediction confidence)) = threshold self /\
  smoothing (fst (filter self prediction confidence)) = smoothing self.
Proof.
  unfold filter. cbn [threshold history smoothing].
  destruct (Py.ltb _ _); [split; reflexivity|].
  destruct (negb _); split; reflexivity.
Qed.

(** The call gives back its own label or nothing. *)
Lemma filter_result :
  snd (filter self prediction confidence) =
  if Py.ltb smoothed (threshold self) then None
  else if (length history1 <? 3)%nat then Some prediction
  else if (2 <=? count_label prediction (Py.last_n 3 history1))%nat
       then Some prediction
       else None.
Proof.
  unfold filter, _is_stable. cbn [threshold history].
  fold smoothed. fold history1.
  destruct (Py.ltb smoothed (threshold self)); [reflexivity|].
  destruct (length history1 <? 3)%nat; [reflexivity|].
  destruct (2 <=? count_label prediction (Py.last_n 3 history1))%nat;
    reflexivity.
Qed.

(** A label that differs from the last accepted one is not smoothed. *)
Lemma smooth_confidence_new_label :
  last_prediction self <> Some prediction -> smoothed = confidence.
Proof.
  intro H. unfold smoothed, _smooth_confidence.
  destruct (last_prediction self) as [s|]; cbn; [|reflexivity].
  destruct (String.eqb_spec s prediction); [subst; congruence|reflexivity].
Qed.

End FilterFacts.

(** Two calls in a row with one label leave that label in the last two
    entries of the history, whatever the filter held before. *)
Lemma filter_twice_history (self : ConfidenceFilter.t) (p : string) (c1 c2 : Q) :
  exists d s1 s2,
    ConfidenceFilter.history
      (fst (ConfidenceFilter.filter
              (fst (ConfidenceFilter.filter self p c1)) p c2))
    = d ++ [(p, s1); (p, s2)].
Proof.
  rewrite filter_history.
  set (f1 := fst (ConfidenceFilter.filter self p c1)).
  assert (H1 : exists d s1, ConfidenceFilter.history f1 = d ++ [(p, s1)]).
  { unfold f1. rewrite filter_history.
    destruct (deque_append_last 5 (ConfidenceFilter.history self)
                (p, ConfidenceFilter._smooth_confidence self p c1))
      as [d Hd]; [lia|].
    eauto. }
  destruct H1 as (d & s1 & Hd). rewrite Hd.
  rewrite deque_append_tail by (cbn; lia).
  eexists _, s1, _. reflexivity.
Qed.

Lemma filter_repeat_history (self : ConfidenceFilter.t) (p : string) (cs : list Q) :
  (2 <= length cs)%nat ->
  exists d s1 s2,
    ConfidenceFilter.history (ConfidenceFilter.filter_repeat self p cs) = d ++ [(p, s1); (p, s2)].
Proof.
  intro Hlen.
  destruct (rev cs) as [|c2 [|c1 r]] eqn:E.
  - apply (f_equal (@length Q)) in E. rewrite length_rev in E. cbn in E. lia.
  - apply (f_equal (@length Q)) in E. rewrite length_rev in E. cbn in E. lia.
  - assert (Hcs : cs = rev r ++ [c1; c2]).
    { rewrite <- (rev_involutive cs), E. cbn. rewrite <- app_assoc. reflexivity. }
    rewrite Hcs. unfold ConfidenceFilter.filter_repeat. rewrite fold_left_app. cbn [fold_left].
    apply filter_twice_history.
Qed.

(** The filter that has accepted ["yes"] at confidence 0.95, with the default
    threshold 0.7 and smoothing 0.3. *)
Example filter_after_yes_state :
  let f := fst (ConfidenceFilter.filter (ConfidenceFilter.init (7 # 10) (3 # 10))
                                        "yes" (95 # 100)) in
  ConfidenceFilter.last_prediction f = Some "yes"%string /\
  ConfidenceFilter.last_confidence f == 95 # 100 /\
  ConfidenceFilter.threshold f == 7 # 10.
Proof. cbn. repeat split. Qed.

(** C1, as stated, fails: a confidence of 0.6, below the threshold 0.7, is
    accepted when the label was last accepted at 0.95, as the smoothed value
    0.3 * 0.6 + 0.7 * 0.95 = 0.845 is what the threshold is compared with. *)
Lemma filter_raw_below_threshold_accepted :
  ~ (forall (self : ConfidenceFilter.t) (p : string) (c : Q),
        c < ConfidenceFilter.threshold self ->
        snd (ConfidenceFilter.filter self p c) = None).
Proof.
  intro H.
  specialize
    (H (fst (ConfidenceFilter.filter (ConfidenceFilter.init (7 # 10) (3 # 10))
                                     "yes" (95 # 100)))
       "yes"%string (6 # 10)).
  assert (Hlt : 6 # 10 <
                ConfidenceFilter.threshold
                  (fst (ConfidenceFilter.filter
                          (ConfidenceFilter.init (7 # 10) (3 # 10))
                          "yes" (95 # 100)))) by reflexivity.
  specialize (H Hlt). vm_compute in H. discriminate H.
Qed.

(** C1, amended: a call whose smoothed confidence is below the threshold
    returns [None], whatever the history and the last accepted state. *)
Theorem filter_rejects_below_threshold
        (self : ConfidenceFilter.t) (p : string) (c : Q) :
  ConfidenceFilter._smooth_confidence self p c < ConfidenceFilter.threshold self ->
  snd (ConfidenceFilter.filter self p c) = None.
Proof.
  intro H. rewrite filter_result.
  apply ltb_lt in H. rewrite H. reflexivity.
Qed.

Lemma filter_rejects_below_threshold_witness :
  ConfidenceFilter._smooth_confidence
    (ConfidenceFilter.init (7 # 10) (3 # 10)) "yes" (6 # 10) < 7 # 10 /\
  snd (ConfidenceFilter.filter (ConfidenceFilter.init (7 # 10) (3 # 10))
                               "yes" (6 # 10)) = None.
Proof.
  split; [reflexivity|].
  apply (filter_rejects_below_threshold
           (ConfidenceFilter.init (7 # 10) (3 # 10)) "yes" (6 # 10)).
  reflexivity.
Defined.

(** With a label other than the last accepted one, the raw confidence is the
    smoothed one, and below the threshold it is rejected. *)
Lemma filter_rejects_raw_new_label
      (self : ConfidenceFilter.t) (p : string) (c : Q) :
  ConfidenceFilter.last_prediction self <> Some p ->
  c < ConfidenceFilter.threshold self ->
  snd (ConfidenceFilter.filter self p c) = None.
Proof.
  intros Hnew Hlt. rewrite filter_result.
  rewrite smooth_confidence_new_label by exact Hnew.
  apply ltb_lt in Hlt. rewrite Hlt. reflexivity.
Qed.

(** C8: the stability rule, on the entries of the history.  A call whose
    entry makes fewer than 3 history entries (the history held fewer than 2)
    passes the rule: it returns its label exactly when its smoothed
    confidence reaches the threshold.  A call on a history that ends with the
    entries [e1] and [e2] leaves a history that ends with [e1], [e2] and the
    entry of the call, and returns its label exactly when the smoothed
    confidence reaches the threshold and at least 2 of these 3 entries carry
    the label; otherwise it returns [None].  After two or more calls with a
    label, the next call with that label returns it as soon as its smoothed
    confidence reaches the threshold: the 3rd call of a run, and each later
    one. *)
Theorem filter_stability_rule :
  (forall (self : ConfidenceFilter.t) (p : string) (c : Q),
      let smoothed := ConfidenceFilter._smooth_confidence self p c in
      (snd (ConfidenceFilter.filter self p c) = Some p \/
       snd (ConfidenceFilter.filter self p c) = None) /\
      ((length (ConfidenceFilter.history self) < 2)%nat ->
       (snd (ConfidenceFilter.filter self p c) = Some p <->
        ConfidenceFilter.threshold self <= smoothed)) /\
      (forall d e1 e2,
          ConfidenceFilter.history self = d ++ [e1; e2] ->
          let e3 := (p, smoothed) in
          (exists d',
              ConfidenceFilter.history (fst (ConfidenceFilter.filter self p c)) =
              d' ++ [e1; e2; e3]) /\
          (snd (ConfidenceFilter.filter self p c) = Some p <->
           ConfidenceFilter.threshold self <= smoothed /\
           ((fst e1 = p /\ fst e2 = p) \/
            (fst e1 = p /\ fst e3 = p) \/
            (fst e2 = p /\ fst e3 = p))))) /\
  (forall (self : ConfidenceFilter.t) (p : string) (cs : list Q) (c : Q),
      (2 <= length cs)%nat ->
      let f := ConfidenceFilter.filter_repeat self p cs in
      ConfidenceFilter.threshold f <= ConfidenceFilter._smooth_confidence f p c ->
      snd (ConfidenceFilter.filter f p c) = Some p).
Proof.
  split.
  - intros self p c smoothed.
    assert (Hres : snd (ConfidenceFilter.filter self p c) =
                   if Py.ltb smoothed (ConfidenceFilter.threshold self) then None
                   else if (length (Py.deque_append
                                      5 (ConfidenceFilter.history self)
                                      (p, smoothed)) <? 3)%nat
                        then Some p
                        else if (2 <=? ConfidenceFilter.count_label
                                         p (Py.last_n 3
                                              (Py.deque_append
                                                 5 (ConfidenceFilter.history self)
                                                 (p, smoothed))))%nat
                             then Some p else None)
      by apply filter_result.
    split; [|split].
    + rewrite Hres.
      destruct (Py.ltb _ _); [right; reflexivity|].
      destruct (_ <? 3)%nat; [left; reflexivity|].
      destruct (2 <=? _)%nat; [left|right]; reflexivity.
    + intro Hshort. rewrite Hres.
      rewrite deque_append_room by lia.
      replace (length (ConfidenceFilter.history self ++ [(p, smoothed)]) <? 3)%nat
        with true
        by (symmetry; apply Nat.ltb_lt; rewrite length_app; cbn [length]; lia).
      destruct (Py.ltb smoothed (ConfidenceFilter.threshold self)) eqn:Et.
      * apply ltb_lt in Et. split; [discriminate|]. intro Hge.
        apply Qle_not_lt in Hge. contradiction.
      * apply ltb_ge in Et. split; [intros _; exact Et|reflexivity].
    + intros d e1 e2 Hh e3.
      assert (Hh1 : Py.deque_append 5 (ConfidenceFilter.history self) e3 =
                    skipn (length d + 2 + 1 - 5) d ++ [e1; e2; e3]).
      { rewrite Hh. apply (deque_append_tail 5 d [e1; e2] e3). cbn. lia. }
      split.
      { exists (skipn (length d + 2 + 1 - 5) d).
        rewrite filter_history. exact Hh1. }
      rewrite Hres. fold e3. rewrite Hh1.
      replace (length (skipn (length d + 2 + 1 - 5) d ++ [e1; e2; e3]) <? 3)%nat
        with false
        by (symmetry; apply Nat.ltb_ge; rewrite length_app; cbn [length]; lia).
      change (Py.last_n 3 (skipn (length d + 2 + 1 - 5) d ++ [e1; e2; e3]))
        with (Py.last_n (length [e1; e2; e3])
                        (skipn (length d + 2 + 1 - 5) d ++ [e1; e2; e3])).
      rewrite last_n_tail.
      unfold ConfidenceFilter.count_label. cbn [filter fst e3].
      rewrite String.eqb_refl.
      destruct (Py.ltb smoothed (ConfidenceFilter.threshold self)) eqn:Et.
      { apply ltb_lt in Et. split; [discriminate|]. intros [Hge _].
        apply Qle_not_lt in Hge. contradiction. }
      apply ltb_ge in Et.
      destruct (String.eqb_spec (fst e1) p) as [H1|H1];
        destruct (String.eqb_spec (fst e2) p) as [H2|H2]; cbn.
      * split; [intros _; split; [exact Et|left; split; assumption]|reflexivity].
      * split; [intros _; split; [exact Et|right; left; split; [assumption|reflexivity]]
               |reflexivity].
      * split; [intros _; split; [exact Et|right; right; split; [assumption|reflexivity]]
               |reflexivity].
      * split; [discriminate|].
        intros [_ [[H _]|[[H _]|[H _]]]]; contradiction.
  - intros self p cs c Hlen f Hge.
    rewrite filter_result.
    apply ltb_ge in Hge. rewrite Hge.
    destruct (filter_repeat_history self p cs Hlen) as (d & s1 & s2 & Hd).
    fold f in Hd. rewrite Hd.
    rewrite deque_append_tail by (cbn; lia).
    destruct (length _ <? 3)%nat; [reflexivity|].
    cbn [app].
    match goal with
    | |- context [Py.last_n 3 (?a ++ ?b)] =>
        change (Py.last_n 3 (a ++ b)) with (Py.last_n (length b) (a ++ b))
    end.
    rewrite last_n_tail.
    unfold ConfidenceFilter.count_label. cbn [filter fst].
    rewrite String.eqb_refl. reflexivity.
Qed.

Lemma filter_stability_rule_witness :
  let fresh := ConfidenceFilter.init (7 # 10) (3 # 10) in
  let f := ConfidenceFilter.filter_repeat fresh "yes" [95 # 100; 95 # 100] in
  snd (ConfidenceFilter.filter f "yes" (95 # 100)) = Some "yes"%string /\
  (snd (ConfidenceFilter.filter fresh "yes" (95 # 100)) = Some "yes"%string <->
   7 # 10 <= 95 # 100) /\
  (snd (ConfidenceFilter.filter f "no" (99 # 100)) = Some "no"%string <->
   7 # 10 <= 99 # 100 /\
   (("yes" = "no" /\ "yes" = "no") \/
    ("yes" = "no" /\ "no" = "no") \/
    ("yes" = "no" /\ "no" = "no"))%string).
Proof.
  intros fresh f. split; [|split].
  - apply (proj2 filter_stability_rule fresh "yes"%string
                 [95 # 100; 95 # 100] (95 # 100)).
    + cbn. lia.
    + vm_compute. discriminate.
  - apply (proj1 (proj2 (proj1 filter_stability_rule fresh "yes"%string (95 # 100)))).
    cbn. lia.
  - refine (proj2 (proj2 (proj2 (proj1 filter_stability_rule f "no"%string (99 # 100)))
                         [] ("yes"%string, _) ("yes"%string, _) _)).
    cbv. reflexivity.
Defined.

(** C10: a call that returns [None] leaves [last_prediction] and
    [last_confidence] as they were, and still appends the label with its
    smoothed confidence to the bounded history. *)
Theorem filter_rejection_frame
        (self : ConfidenceFilter.t) (p : string) (c : Q) :
  snd (ConfidenceFilter.filter self p c) = None ->
  let self' := fst (ConfidenceFilter.filter self p c) in
  ConfidenceFilter.last_prediction self' = ConfidenceFilter.last_prediction self /\
  ConfidenceFilter.last_confidence self' = ConfidenceFilter.last_confidence self /\
  ConfidenceFilter.history self' =
    Py.deque_append 5 (ConfidenceFilter.history self)
                    (p, ConfidenceFilter._smooth_confidence self p c) /\
  (length (ConfidenceFilter.history self') <= 5)%nat /\
  ConfidenceFilter.threshold self' = ConfidenceFilter.threshold self /\
  ConfidenceFilter.smoothing self' = ConfidenceFilter.smoothing self.
Proof.
  intros Hnone self'.
  assert (Hh := filter_history self p c). fold self' in Hh.
  destruct (filter_settings self p c) as [Ht Hs]. fold self' in Ht, Hs.
  repeat split; try assumption.
  - revert Hnone. unfold self', ConfidenceFilter.filter.
    destruct (Py.ltb _ _); [reflexivity|].
    destruct (negb _); [reflexivity|discriminate].
  - revert Hnone. unfold self', ConfidenceFilter.filter.
    destruct (Py.ltb _ _); [reflexivity|].
    destruct (negb _); [reflexivity|discriminate].
  - rewrite Hh. apply deque_append_bounded.
Qed.

Lemma filter_rejection_frame_witness :
  let self := fst (ConfidenceFilter.filter
                     (ConfidenceFilter.init (7 # 10) (3 # 10)) "yes" (95 # 100)) in
  let self' := fst (ConfidenceFilter.filter self "no" (5 # 10)) in
  ConfidenceFilter.last_prediction self' = Some "yes"%string /\
  ConfidenceFilter.history self' = [("yes"%string, 95 # 100); ("no"%string, 5 # 10)].
Proof.
  intros self self'.
  destruct (filter_rejection_frame self "no" (5 # 10)) as (Hp & _ & Hh & _).
  - reflexivity.
  - split; [exact Hp | exact Hh].
Defined.

(** ** [GestureSmoother]: the three outcomes of a call *)

Lemma opt_str_eqb_eq (a : option string) (b : string) :
  Py.opt_str_eqb a b = true <-> a = Some b.
Proof.
  destruct a as [s|]; cbn.
  - rewrite String.eqb_eq. split; congruence.
  - split; discriminate.
Qed.

Section SmootherStep.

Import GestureSmoother.

Variable s : GestureSmoother.t.
Variable c : call.

Lemma step_cases : step_case s c.
Proof.
  destruct (Py.opt_str_eqb (current_gesture s) (label c)) eqn:Eg.
  - assert (Hg : current_gesture s = Some (label c))
      by (apply opt_str_eqb_eq; exact Eg).
    destruct (Py.ltb (time c - gesture_start_time s) (min_duration s)) eqn:Ed.
    { apply held_back; [exact Hg|]. unfold step, update. rewrite Eg, Ed. reflexivity. }
    destruct (Py.ltb (time c - last_output_time s) (cooldown s)) eqn:Ec.
    { apply held_back; [exact Hg|]. unfold step, update. rewrite Eg, Ed, Ec. reflexivity. }
    destruct (last_output_is (output_history s) (label c)) eqn:El.
    { apply held_back; [exact Hg|]. unfold step, update. rewrite Eg, Ed, Ec, El. reflexivity. }
    apply emits; try assumption.
    + apply ltb_ge; exact Ed.
    + apply ltb_ge; exact Ec.
    + unfold step, update. rewrite Eg, Ed, Ec, El. reflexivity.
  - apply opens.
    + intro Hg. apply opt_str_eqb_eq in Hg. congruence.
    + unfold step, update. rewrite Eg. reflexivity.
Qed.

(** What an emitting call tells about the smoother it was made on. *)
Lemma step_emits (e : string * Q) :
  snd (step s c) = Some e ->
  e = (label c, conf c) /\
  current_gesture s = Some (label c) /\
  min_duration s <= time c - gesture_start_time s /\
  cooldown s <= time c - last_output_time s /\
  last_output_is (output_history s) (label c) = false /\
  last_output_time (fst (step s c)) = time c /\
  last_output_is (output_history (fst (step s c))) (label c) = true.
Proof.
  intro He. destruct step_cases as [_ E|_ E|Hg Hd Hc Hl E];
    rewrite E in *; cbn [fst snd] in *; try discriminate.
  injection He as <-. repeat split; try assumption.
  cbn [output_history]. unfold last_output_is.
  destruct (deque_append_last 10 (output_history s) (label c, conf c, time c))
    as [d Hd']; [lia|].
  rewrite Hd', peek_last_snoc. cbn. apply String.eqb_refl.
Qed.

(** The settings never change. *)
Lemma step_settings :
  min_duration (fst (step s c)) = min_duration s /\
  cooldown (fst (step s c)) = cooldown s.
Proof.
  destruct step_cases as [_ E|_ E|_ _ _ _ E]; rewrite E; split; reflexivity.
Qed.

(** After the call, the current gesture is the label of the call. *)
Lemma step_current :
  current_gesture (fst (step s c)) = Some (label c).
Proof.
  destruct step_cases as [_ E|Hg E|Hg _ _ _ E]; rewrite E; cbn; congruence.
Qed.

(** A call with the current gesture keeps the start of the episode. *)
Lemma step_same_start :
  current_gesture s = Some (label c) ->
  gesture_start_time (fst (step s c)) = gesture_start_time s.
Proof.
  intro Hg.
  destruct step_cases as [Hn E|_ E|_ _ _ _ E]; rewrite E; cbn;
    [contradiction|reflexivity|reflexivity].
Qed.

(** A call with another label opens an episode at the time of the call. *)
Lemma step_new_start :
  current_gesture s <> Some (label c) ->
  gesture_start_time (fst (step s c)) = time c.
Proof.
  intro Hn.
  destruct step_cases as [_ E|Hg E|Hg _ _ _ E]; rewrite E; cbn;
    [reflexivity|contradiction|contradiction].
Qed.

(** The time of the last output is kept, or it is the time of the call. *)
Lemma step_last_output_time :
  last_output_time (fst (step s c)) = last_output_time s \/
  last_output_time (fst (step s c)) = time c.
Proof.
  destruct step_cases as [_ E|_ E|_ _ _ _ E]; rewrite E; cbn; auto.
Qed.

(** While the last output carries the label of the call, the call is held
    back and the output history stays. *)
Lemma step_repeat_blocked :
  last_output_is (output_history s) (label c) = true ->
  snd (step s c) = None /\
  output_history (fst (step s c)) = output_history s.
Proof.
  intro Hl.
  destruct step_cases as [_ E|_ E|_ _ _ Hl' E]; rewrite E; cbn;
    [split; reflexivity|split; reflexivity|congruence].
Qed.

End SmootherStep.

(** ** [GestureSmoother]: sequences of calls *)

Section SmootherRun.

Import GestureSmoother.

Lemma run_snoc (s : GestureSmoother.t) (pre : list call) (c : call) :
  run s (pre ++ [c]) = fst (step (run s pre) c).
Proof. unfold run. rewrite fold_left_app. reflexivity. Qed.

Lemma run_app (s : GestureSmoother.t) (a b : list call) :
  run s (a ++ b) = run (run s a) b.
Proof. unfold run. apply fold_left_app. Qed.

Lemma run_cons (s : GestureSmoother.t) (c : call) (rest : list call) :
  run s (c :: rest) = run (fst (step s c)) rest.
Proof. reflexivity. Qed.

Lemma run_settings (calls : list call) (s : GestureSmoother.t) :
  min_duration (run s calls) = min_duration s /\
  cooldown (run s calls) = cooldown s.
Proof.
  revert s. induction calls as [|c rest IH]; intro s.
  - split; reflexivity.
  - rewrite run_cons. destruct (IH (fst (step s c))) as [Hm Hc].
    destruct (step_settings s c) as [Hm' Hc']. split; congruence.
Qed.

(** The last call of an episode carries its label. *)
Lemma episode_last (pre : list call) (l : string) (start : Q) :
  episode pre l start ->
  exists pre0 w, pre = pre0 ++ [w] /\ label w = l.
Proof.
  intros (pre1 & x & mid & Hpre & Hx & _ & Hmid & _).
  destruct (rev mid) as [|w r] eqn:E.
  - assert (mid = []) by (rewrite <- (rev_involutive mid), E; reflexivity).
    subst mid. exists pre1, x. split; [exact Hpre|exact Hx].
  - assert (Hm : mid = rev r ++ [w])
      by (rewrite <- (rev_involutive mid), E; reflexivity).
    exists (pre1 ++ x :: rev r), w. split.
    + rewrite Hpre, Hm, <- app_assoc. reflexivity.
    + rewrite Hm in Hmid. apply Forall_app in Hmid.
      destruct Hmid as [_ Hw]. inversion Hw; assumption.
Qed.

(** From a fresh smoother, the current gesture and the start of its episode
    are those of the calls made. *)
Lemma run_episode (md cd : Q) (pre : list call) :
  pre <> [] ->
  exists l,
    current_gesture (run (init md cd) pre) = Some l /\
    episode pre l (gesture_start_time (run (init md cd) pre)).
Proof.
  induction pre as [|c pre' IH] using rev_ind; [congruence|]. intros _.
  rewrite run_snoc. exists (label c). split; [apply step_current|].
  destruct pre' as [|c0 pre''].
  - cbn [run fold_left].
    rewrite step_new_start by (cbn; discriminate).
    exists [], c, []. repeat split; auto.
  - destruct IH as (l & Hl & Hep); [discriminate|].
    set (pre' := c0 :: pre'') in *.
    destruct (string_dec l (label c)) as [Heq|Hne].
    + rewrite step_same_start by congruence.
      destruct Hep as (pre1 & x & mid & Hpre & Hx & Ht & Hmid & Hb).
      exists pre1, x, (mid ++ [c]). repeat split.
      * rewrite Hpre, <- app_assoc. reflexivity.
      * congruence.
      * exact Ht.
      * apply Forall_app. split.
        -- eapply Forall_impl; [|exact Hmid]. cbn. intros; congruence.
        -- constructor; [reflexivity|constructor].
      * destruct Hb as [Hb|(pre0 & w & Hb & Hw)]; [left; exact Hb|].
        right. exists pre0, w. split; [exact Hb|congruence].
    + rewrite step_new_start by congruence.
      destruct (episode_last _ _ _ Hep) as (pre0 & w & Hpre & Hw).
      exists pre', c, []. repeat split.
      * constructor.
      * right. exists pre0, w. split; [exact Hpre|congruence].
Qed.

(** While the calls carry the label of the last output, the output history
    stays. *)
Lemma run_repeat_blocked (l : string) (mid : list call) (s : GestureSmoother.t) :
  last_output_is (output_history s) l = true ->
  Forall (fun z => label z = l) mid ->
  output_history (run s mid) = output_history s.
Proof.
  revert s. induction mid as [|c rest IH]; intros s Hl Hall; [reflexivity|].
  inversion Hall as [|? ? Hc Hrest]; subst.
  rewrite run_cons.
  destruct (step_repeat_blocked s c Hl) as [_ Hh].
  rewrite IH; [exact Hh| rewrite Hh; exact Hl | exact Hrest].
Qed.

(** The time of the last output is the one before the calls or the time of
    one of them. *)
Lemma run_last_output_time (mid : list call) (s : GestureSmoother.t) :
  last_output_time (run s mid) = last_output_time s \/
  exists z, In z mid /\ last_output_time (run s mid) = time z.
Proof.
  revert s. induction mid as [|c rest IH]; intro s; [left; reflexivity|].
  rewrite run_cons.
  destruct (IH (fst (step s c))) as [H|(z & Hin & H)].
  - destruct (step_last_output_time s c) as [H'|H'].
    + left. congruence.
    + right. exists c. split; [left; reflexivity|congruence].
  - right. exists z. split; [right; exact Hin|exact H].
Qed.

Lemma nondecreasing_app_r (a b : list Q) :
  nondecreasing (a ++ b) = true -> nondecreasing b = true.
Proof.
  induction a as [|t a IH]; cbn; [auto|].
  intro H. apply andb_prop in H. apply IH, H.
Qed.

Lemma nondecreasing_head (t : Q) (l : list Q) (u : Q) :
  nondecreasing (t :: l) = true -> In u l -> t <= u.
Proof.
  cbn. intros H Hin. apply andb_prop in H. destruct H as [H _].
  rewrite forallb_forall in H. apply Qle_bool_iff, H, Hin.
Qed.

End SmootherRun.

(** C6: from a fresh smoother and along calls whose times never decrease,
    (1) a call emits its label only at the end of an episode of that label,
    started at least [min_duration] earlier and held since on every call;
    (2) two emissions are at least [cooldown] apart, and
    (3) between two emissions of one label there is a call with another
    label. *)
Theorem smoother_guarantees (md cd : Q) (calls : list GestureSmoother.call) :
  GestureSmoother.nondecreasing (map GestureSmoother.time calls) = true ->
  let s0 := GestureSmoother.init md cd in
  (forall pre c post e,
      calls = pre ++ c :: post ->
      GestureSmoother.output_after s0 pre c = Some e ->
      e = (GestureSmoother.label c, GestureSmoother.conf c) /\
      exists start,
        GestureSmoother.episode pre (GestureSmoother.label c) start /\
        md <= GestureSmoother.time c - start) /\
  (forall pre x mid y post ex ey,
      calls = pre ++ x :: mid ++ y :: post ->
      GestureSmoother.output_after s0 pre x = Some ex ->
      GestureSmoother.output_after s0 (pre ++ x :: mid) y = Some ey ->
      cd <= GestureSmoother.time y - GestureSmoother.time x /\
      (GestureSmoother.label y = GestureSmoother.label x ->
       Exists (fun z => GestureSmoother.label z <> GestureSmoother.label x) mid)).
Proof.
  intros Hmono s0. split.
  - intros pre c post e _ He.
    unfold GestureSmoother.output_after in He.
    apply step_emits in He.
    destruct He as (-> & Hg & Hd & _).
    split; [reflexivity|].
    destruct (run_settings pre s0) as [Hmd _]. cbn in Hmd.
    destruct pre as [|c0 pre'].
    + cbn in Hg. discriminate.
    + destruct (run_episode md cd (c0 :: pre')) as (l & Hl & Hep); [discriminate|].
      fold s0 in Hl, Hep.
      exists (GestureSmoother.gesture_start_time
                (GestureSmoother.run s0 (c0 :: pre'))).
      split.
      * replace (GestureSmoother.label c) with l by congruence. exact Hep.
      * rewrite <- Hmd. exact Hd.
  - intros pre x mid y post ex ey Hcalls Hx Hy.
    unfold GestureSmoother.output_after in Hx, Hy.
    replace (pre ++ x :: mid) with ((pre ++ [x]) ++ mid) in Hy
      by (rewrite <- app_assoc; reflexivity).
    rewrite run_app, run_snoc in Hy.
    set (s := GestureSmoother.run s0 pre) in *.
    set (s1 := fst (GestureSmoother.step s x)) in *.
    apply step_emits in Hx. fold s1 in Hx.
    destruct Hx as (_ & _ & _ & _ & _ & Hlast & Hrep).
    apply step_emits in Hy.
    destruct Hy as (_ & _ & _ & Hcool & Hnorep & _).
    assert (Hcd : GestureSmoother.cooldown (GestureSmoother.run s1 mid) = cd).
    { destruct (run_settings mid s1) as [_ ->]. unfold s1.
      destruct (step_settings s x) as [_ ->]. unfold s.
      destruct (run_settings pre s0) as [_ ->]. reflexivity. }
    rewrite Hcd in Hcool.
    split.
    + destruct (run_last_output_time mid s1) as [H|(z & Hin & H)];
        rewrite H in Hcool.
      * rewrite Hlast in Hcool. exact Hcool.
      * assert (Hle : GestureSmoother.time x <= GestureSmoother.time z).
        { rewrite Hcalls, map_app in Hmono.
          apply nondecreasing_app_r in Hmono.
          cbn [map] in Hmono.
          eapply nondecreasing_head; [exact Hmono|].
          rewrite map_app. apply in_or_app. left.
          apply in_map. exact Hin. }
        lra.
    + intro Hlab.
      destruct (Forall_Exists_dec
                  (fun z => GestureSmoother.label z = GestureSmoother.label x)
                  (fun z => string_dec (GestureSmoother.label z)
                                       (GestureSmoother.label x)) mid)
        as [Hall|Hex]; [|exact Hex].
      exfalso.
      rewrite (run_repeat_blocked (GestureSmoother.label x) mid s1 Hrep Hall)
        in Hnorep.
      rewrite Hlab in Hnorep. congruence.
Qed.

Lemma smoother_guarantees_witness :
  let c1 := GestureSmoother.Call "hello" (9 # 10) 0 in
  let c2 := GestureSmoother.Call "hello" (9 # 10) (5 # 10) in
  let c3 := GestureSmoother.Call "yes" (9 # 10) (6 # 10) in
  let c4 := GestureSmoother.Call "yes" (9 # 10) 1 in
  let c5 := GestureSmoother.Call "hello" (9 # 10) (11 # 10) in
  let c6 := GestureSmoother.Call "hello" (9 # 10) (16 # 10) in
  (exists start,
      GestureSmoother.episode [c1] "hello" start /\ 3 # 10 <= (5 # 10) - start) /\
  5 # 10 <= (16 # 10) - (5 # 10) /\
  Exists (fun z => GestureSmoother.label z <> "hello"%string) [c3; c4; c5].
Proof.
  intros c1 c2 c3 c4 c5 c6.
  destruct (smoother_guarantees (3 # 10) (5 # 10) [c1; c2; c3; c4; c5; c6])
    as [Hheld Hapart]; [reflexivity|].
  split.
  - eapply (Hheld [c1] c2 [c3; c4; c5; c6]); reflexivity.
  - destruct (Hapart [c1] c2 [c3; c4; c5] c6 []
                     ("hello"%string, 9 # 10) ("hello"%string, 9 # 10))
      as [Hcd Hlabel]; try reflexivity.
    split; [exact Hcd|]. apply Hlabel. reflexivity.
Defined.

(** C2 fails on the code: [reset] clears the current gesture, the start of
    the episode and the output history, and keeps [last_output_time].  A
    smoother that emitted at 100.5 and is reset holds back, at 100.9375, the
    gesture a fresh smoother emits on the same calls: the emission made
    before the reset still counts for the cooldown.  (The times are binary
    fractions: the doubles the code computes with are these numbers.) *)
Theorem smoother_reset_keeps_last_output_time :
  (forall s : GestureSmoother.t,
      GestureSmoother.last_output_time (GestureSmoother.reset s) =
      GestureSmoother.last_output_time s) /\
  let fresh := GestureSmoother.init (3 # 10) (5 # 10) in
  let used :=
    GestureSmoother.run fresh
      [GestureSmoother.Call "hello" (9 # 10) 100;
       GestureSmoother.Call "hello" (9 # 10) (201 # 2)] in
  let after_reset := GestureSmoother.reset used in
  let first := GestureSmoother.Call "yes" (9 # 10) (1609 # 16) in
  let second := GestureSmoother.Call "yes" (9 # 10) (1615 # 16) in
  GestureSmoother.output_after fresh
    [GestureSmoother.Call "hello" (9 # 10) 100]
    (GestureSmoother.Call "hello" (9 # 10) (201 # 2))
    = Some ("hello"%string, 9 # 10) /\
  GestureSmoother.last_output_time after_reset = 201 # 2 /\
  GestureSmoother.last_output_time fresh = 0 /\
  GestureSmoother.current_gesture after_reset = None /\
  GestureSmoother.gesture_start_time after_reset = 0 /\
  GestureSmoother.output_history after_reset = [] /\
  GestureSmoother.output_after after_reset [] first = None /\
  GestureSmoother.output_after fresh [] first = None /\
  GestureSmoother.output_after after_reset [first] second = None /\
  GestureSmoother.output_after fresh [first] second = Some ("yes"%string, 9 # 10).
Proof.
  split; [reflexivity|].
  cbv zeta. repeat split; reflexivity.
Qed.

(** ** [TemporalBuffer]: pushes and the full window *)

Lemma last_n_length {A : Type} (n : nat) (l : list A) :
  length (Py.last_n n l) = Nat.min (length l) n.
Proof. unfold Py.last_n. rewrite length_skipn. lia. Qed.

(** Appending to the last [n] entries of [l] gives the last [n] entries of
    [l] with the new entry. *)
Lemma deque_append_last_n {A : Type} (n : nat) (l : list A) (x : A) :
  Py.deque_append n (Py.last_n n l) x = Py.last_n n (l ++ [x]).
Proof.
  unfold Py.deque_append, Py.last_n.
  set (k := (length l - n)%nat).
  assert (Hk : skipn k (l ++ [x]) = skipn k l ++ [x]).
  { rewrite skipn_app. replace (k - length l)%nat with 0%nat by (unfold k; lia).
    reflexivity. }
  rewrite <- Hk, skipn_skipn. f_equal.
  rewrite length_skipn, !length_app. cbn [length]. unfold k. lia.
Qed.

Lemma Forall_skipn {A : Type} (P : A -> Prop) (n : nat) (l : list A) :
  Forall P l -> Forall P (skipn n l).
Proof.
  revert l. induction n as [|n IH]; intros l H; [exact H|].
  destruct l as [|x l]; [constructor|].
  cbn. apply IH. inversion H; assumption.
Qed.

Section BufferFacts.

Import TemporalBuffer.

(** What a call of [add] does: it returns, with the vector in the deque and
    [feature_size] set by the first vector only. *)
Lemma add_returns (self : TemporalBuffer.t) (v : landmarks) :
  add self v =
  Py.Returned
    (mk (window_size self)
        (Py.deque_append (window_size self) (buffer self) v)
        (match feature_size self with
         | None => Some (length v)
         | Some n => Some n
         end)).
Proof. reflexivity. Qed.

Lemma pushes_last_n (w : nat) (vs l : list landmarks) (fs : option nat) :
  pushes (mk w (Py.last_n w l) fs) vs =
  Py.Returned (mk w (Py.last_n w (l ++ vs)) (feature_size_after fs vs)).
Proof.
  revert l fs. induction vs as [|v rest IH]; intros l fs.
  - rewrite app_nil_r. destruct fs; reflexivity.
  - cbn [pushes]. rewrite add_returns. cbn [Py.bind window_size buffer feature_size].
    rewrite deque_append_last_n, IH, <- app_assoc.
    destruct fs; reflexivity.
Qed.

(** A fresh buffer after the pushes [vs] holds the last [window_size] of
    them. *)
Lemma pushes_init (w : nat) (vs : list landmarks) :
  pushes (init w) vs =
  Py.Returned (mk w (Py.last_n w vs) (feature_size_after None vs)).
Proof.
  change (init w) with (mk w (Py.last_n w []) None).
  rewrite pushes_last_n. reflexivity.
Qed.

Lemma np_array_consistent (n : nat) (rows : list landmarks) :
  Forall (fun r => length r = n) rows -> np_array rows = Py.Returned rows.
Proof.
  intro H. destruct rows as [|r rest]; [reflexivity|].
  unfold np_array.
  replace (forallb (fun r' => (length r' =? length r)%nat) (r :: rest)) with true;
    [reflexivity|].
  symmetry. apply forallb_forall. intros r' Hin.
  rewrite Forall_forall in H.
  rewrite (H r' Hin), (H r (or_introl eq_refl)). apply Nat.eqb_refl.
Qed.

End BufferFacts.

(** C4, as stated, fails: a buffer that recorded the feature size 2 from its
    first vector takes a vector of length 3: the call returns, the vector is
    in the buffer, and the recorded size is still 2. *)
Lemma add_accepts_other_length :
  let v2 : TemporalBuffer.landmarks := [1; 2] in
  let v3 : TemporalBuffer.landmarks := [1; 2; 3] in
  let b1 := TemporalBuffer.mk 15 [v2] (Some 2%nat) in
  TemporalBuffer.add (TemporalBuffer.init 15) v2 = Py.Returned b1 /\
  length v3 <> 2%nat /\
  TemporalBuffer.add b1 v3 =
    Py.Returned (TemporalBuffer.mk 15 [v2; v3] (Some 2%nat)) /\
  (forall e, TemporalBuffer.add b1 v3 <> Py.Raised e).
Proof.
  cbv zeta. repeat split; try reflexivity; cbn; discriminate.
Qed.

(** C4, amended: [add] records [feature_size] from the first vector pushed;
    every later vector, of that length or not, is appended to the deque and
    the call returns, [feature_size] staying the length of the first. *)
Theorem add_records_first_feature_size :
  (forall (w : nat) (v : TemporalBuffer.landmarks)
          (vs : list TemporalBuffer.landmarks),
      TemporalBuffer.pushes (TemporalBuffer.init w) (v :: vs) =
      Py.Returned
        (TemporalBuffer.mk w (Py.last_n w (v :: vs)) (Some (length v)))) /\
  (forall (self : TemporalBuffer.t) (v : TemporalBuffer.landmarks),
      exists self',
        TemporalBuffer.add self v = Py.Returned self' /\
        TemporalBuffer.buffer self' =
          Py.deque_append (TemporalBuffer.window_size self)
                          (TemporalBuffer.buffer self) v /\
        TemporalBuffer.feature_size self' =
          match TemporalBuffer.feature_size self with
          | None => Some (length v)
          | Some n => Some n
          end).
Proof.
  split.
  - intros w v vs. rewrite pushes_init. reflexivity.
  - intros self v. eexists. rewrite add_returns.
    split; [reflexivity|]. split; reflexivity.
Qed.

(** C7: after any pushes into a fresh buffer the deque holds at most
    [window_size] vectors; [get_sequence] gives [None] while fewer than
    [window_size] vectors were pushed, and from then on, the vectors being of
    one length, the last [window_size] of them; the call leaves the buffer
    as it was. *)
Theorem buffer_full_window (w : nat) (vs : list TemporalBuffer.landmarks) :
  exists b,
    TemporalBuffer.pushes (TemporalBuffer.init w) vs = Py.Returned b /\
    TemporalBuffer.buffer b = Py.last_n w vs /\
    (length (TemporalBuffer.buffer b) <= w)%nat /\
    fst (TemporalBuffer.get_sequence b) = b /\
    ((length vs < w)%nat ->
     snd (TemporalBuffer.get_sequence b) = Py.Returned None) /\
    (forall n,
        (w <= length vs)%nat ->
        Forall (fun v => length v = n) vs ->
        snd (TemporalBuffer.get_sequence b) =
          Py.Returned (Some (Py.last_n w vs)) /\
        length (Py.last_n w vs) = w).
Proof.
  eexists. split; [apply pushes_init|].
  cbn [TemporalBuffer.buffer].
  split; [reflexivity|].
  split; [rewrite last_n_length; lia|].
  unfold TemporalBuffer.get_sequence.
  cbn [TemporalBuffer.buffer TemporalBuffer.window_size].
  rewrite last_n_length.
  split; [destruct (_ <? _)%nat; reflexivity|].
  split.
  - intro Hlt.
    replace (Nat.min (length vs) w <? w)%nat with true; [reflexivity|].
    symmetry. apply Nat.ltb_lt. lia.
  - intros n Hge Hall.
    replace (Nat.min (length vs) w <? w)%nat with false
      by (symmetry; apply Nat.ltb_ge; lia).
    cbn [snd]. split; [|lia].
    rewrite (np_array_consistent n); [reflexivity|].
    unfold Py.last_n. apply Forall_skipn. exact Hall.
Qed.

Lemma buffer_full_window_witness :
  let v : TemporalBuffer.landmarks := [1 # 2; 1 # 4] in
  exists b,
    TemporalBuffer.pushes (TemporalBuffer.init 3) [v; v; v; v] = Py.Returned b /\
    snd (TemporalBuffer.get_sequence b) = Py.Returned (Some [v; v; v]).
Proof.
  intro v.
  destruct (buffer_full_window 3 [v; v; v; v])
    as (b & Hb & _ & _ & _ & _ & Hfull).
  exists b. split; [exact Hb|].
  apply (Hfull 2%nat).
  - cbn. lia.
  - repeat constructor.
Defined.

(** ** [CameraManager]: one step of the adaptive rate *)

Lemma div_positive (a b : Q) : 0 < b -> Py.div a b = Py.Returned (a / b).
Proof.
  intro H. unfold Py.div.
  destruct (Qeq_bool b 0) eqn:E; [|reflexivity].
  apply Qeq_bool_iff in E. rewrite E in H. discriminate H.
Qed.

Lemma inverse_positive (b : Q) : 0 < b -> 0 < 1 / b.
Proof.
  intro H. unfold Qdiv. rewrite Qmult_1_l. apply Qinv_lt_0_compat. exact H.
Qed.

Lemma min_cases (a b : Q) :
  (b < a /\ Py.min a b = b) \/ (a <= b /\ Py.min a b = a).
Proof.
  unfold Py.min. destruct (Py.ltb b a) eqn:E.
  - left. split; [apply ltb_lt; exact E|reflexivity].
  - right. split; [apply ltb_ge; exact E|reflexivity].
Qed.

Lemma max_cases (a b : Q) :
  (a < b /\ Py.max a b = b) \/ (b <= a /\ Py.max a b = a).
Proof.
  unfold Py.max. destruct (Py.ltb a b) eqn:E.
  - left. split; [apply ltb_lt; exact E|reflexivity].
  - right. split; [apply ltb_ge; exact E|reflexivity].
Qed.

(** C9: with positive rates, a step from an interval in
    [[1/target_fps, 1/min_fps]] returns an interval in that range; while
    [current_fps < min_fps] the new interval is the old one times 1.1, capped
    at [1/min_fps], and is not below the old one. *)
Theorem adapt_frame_rate_keeps_range
        (self : CameraManager.t) (current_interval : Q) :
  0 < CameraManager.target_fps self ->
  0 < CameraManager.min_fps self ->
  1 / CameraManager.target_fps self <= current_interval ->
  current_interval <= 1 / CameraManager.min_fps self ->
  exists interval',
    CameraManager._adapt_frame_rate self current_interval = Py.Returned interval' /\
    1 / CameraManager.target_fps self <= interval' /\
    interval' <= 1 / CameraManager.min_fps self /\
    (CameraManager.current_fps self < CameraManager.min_fps self ->
     interval' = Py.min (current_interval * (11 # 10))
                        (1 / CameraManager.min_fps self) /\
     current_interval <= interval').
Proof.
  intros Ht Hm Hlo Hhi.
  assert (Hpos := inverse_positive _ Ht).
  unfold CameraManager._adapt_frame_rate.
  set (lo := 1 / CameraManager.target_fps self) in *.
  destruct (Py.ltb (CameraManager.current_fps self) (CameraManager.min_fps self))
    eqn:Eslow.
  - rewrite (div_positive _ _ Hm). cbn [Py.bind].
    set (hi := 1 / CameraManager.min_fps self) in *.
    eexists. split; [reflexivity|].
    destruct (min_cases (current_interval * (11 # 10)) hi) as [[Hc ->]|[Hc ->]].
    + repeat split; try reflexivity; lra.
    + repeat split; try reflexivity; lra.
  - apply ltb_ge in Eslow.
    set (hi := 1 / CameraManager.min_fps self) in *.
    destruct (Py.ltb _ _).
    + rewrite (div_positive _ _ Ht). cbn [Py.bind]. fold lo.
      eexists. split; [reflexivity|].
      destruct (max_cases (current_interval * (95 # 100)) lo) as [[Hc ->]|[Hc ->]].
      * repeat split; intros; lra.
      * repeat split; intros; lra.
    + eexists. split; [reflexivity|].
      repeat split; intros; lra.
Qed.

Lemma adapt_frame_rate_keeps_range_witness :
  let cam := CameraManager.mk 30 true 15 10 in
  exists interval',
    CameraManager._adapt_frame_rate cam (1 # 30) = Py.Returned interval' /\
    1 # 30 <= interval' /\ interval' <= 1 # 15.
Proof.
  intro cam.
  destruct (adapt_frame_rate_keeps_range cam (1 # 30))
    as (i & Hi & Hlo & Hhi & _).
  - reflexivity.
  - reflexivity.
  - cbn. discriminate.
  - cbn. discriminate.
  - exists i. split; [exact Hi|]. split; [exact Hlo|exact Hhi].
Defined.

(** ** [GestureClassifier]: the order of the top-k result *)

Lemma StronglySorted_skipn {A : Type} (R : A -> A -> Prop) (n : nat) (l : list A) :
  StronglySorted R l -> StronglySorted R (skipn n l).
Proof.
  revert l. induction n as [|n IH]; intros l H; [exact H|].
  destruct l as [|x l]; [constructor|].
  cbn. apply IH. apply StronglySorted_inv in H. apply H.
Qed.

Lemma StronglySorted_snoc {A : Type} (R : A -> A -> Prop) (l : list A) (a : A) :
  StronglySorted R l -> Forall (fun x => R x a) l -> StronglySorted R (l ++ [a]).
Proof.
  induction l as [|x l IH]; intros Hs Hall; cbn.
  - constructor; constructor.
  - apply StronglySorted_inv in Hs. destruct Hs as [Hs Hx].
    inversion Hall as [|? ? Hxa Hla]; subst.
    constructor; [apply IH; assumption|].
    apply Forall_app. split; [exact Hx|constructor; [exact Hxa|constructor]].
Qed.

Lemma StronglySorted_rev {A : Type} (R : A -> A -> Prop) (l : list A) :
  StronglySorted R l -> StronglySorted (fun a b => R b a) (rev l).
Proof.
  induction l as [|x l IH]; intro Hs; cbn; [constructor|].
  apply StronglySorted_inv in Hs. destruct Hs as [Hs Hx].
  apply StronglySorted_snoc; [apply IH; exact Hs|].
  apply Forall_rev. exact Hx.
Qed.

Lemma StronglySorted_map {A B : Type} (R : A -> A -> Prop) (R' : B -> B -> Prop)
      (f : A -> B) (l : list A) :
  (forall a b, R a b -> R' (f a) (f b)) ->
  StronglySorted R l -> StronglySorted R' (map f l).
Proof.
  intros Himp Hs. induction Hs as [|a l Hs IH Ha]; cbn; constructor.
  - exact IH.
  - apply Forall_map. eapply Forall_impl; [|exact Ha]. intros b. apply Himp.
Qed.

Section ArgsortFacts.

Import GestureClassifier.

Variable probs : list Q.

Local Abbreviation ascending := (argsort_order probs).

Lemma ascending_trans (i j k : nat) :
  ascending i j -> ascending j k -> ascending i k.
Proof.
  unfold argsort_order. intros [H1|[H1 L1]] [H2|[H2 L2]].
  - left. lra.
  - left. lra.
  - left. lra.
  - right. split; [lra|lia].
Qed.

Lemma insert_index_perm (i : nat) (l : list nat) :
  Permutation (insert_index probs i l) (i :: l).
Proof.
  induction l as [|j rest IH]; cbn; [reflexivity|].
  destruct (Qle_bool _ _); [reflexivity|].
  rewrite IH. apply perm_swap.
Qed.

Lemma insert_index_sorted (i : nat) (l : list nat) :
  StronglySorted ascending l ->
  Forall (fun j => (i < j)%nat) l ->
  StronglySorted ascending (insert_index probs i l).
Proof.
  induction l as [|j rest IH]; intros Hs Hlt; cbn.
  - constructor; constructor.
  - apply StronglySorted_inv in Hs. destruct Hs as [Hs Hj].
    inversion Hlt as [|? ? Hij Hrest]; subst.
    destruct (Qle_bool (nth i probs 0) (nth j probs 0)) eqn:E.
    + apply Qle_bool_iff in E.
      assert (Hasc : ascending i j).
      { unfold argsort_order. destruct (Qlt_le_dec (nth i probs 0) (nth j probs 0)).
        - left; assumption.
        - right. split; [lra|exact Hij]. }
      constructor; [constructor; assumption|].
      constructor; [exact Hasc|].
      eapply Forall_impl; [|exact Hj].
      intros k Hk. eapply ascending_trans; eassumption.
    + assert (Hji : nth j probs 0 < nth i probs 0).
      { apply Qnot_le_lt. intro Hle. apply Qle_bool_iff in Hle. congruence. }
      constructor; [apply IH; assumption|].
      eapply Permutation_Forall; [symmetry; apply insert_index_perm|].
      constructor; [left; exact Hji|exact Hj].
Qed.

Lemma argsort_fold (a n : nat) :
  Permutation (fold_right (insert_index probs) [] (seq a n)) (seq a n) /\
  StronglySorted ascending (fold_right (insert_index probs) [] (seq a n)).
Proof.
  revert a. induction n as [|n IH]; intro a; cbn.
  - split; constructor.
  - destruct (IH (S a)) as [Hp Hs]. split.
    + rewrite insert_index_perm. constructor. exact Hp.
    + apply insert_index_sorted; [exact Hs|].
      eapply Permutation_Forall; [symmetry; exact Hp|].
      apply Forall_forall. intros j Hj. apply in_seq in Hj. lia.
Qed.

Lemma argsort_perm : Permutation (np_argsort probs) (seq 0 (length probs)).
Proof. apply argsort_fold. Qed.

Lemma argsort_sorted : StronglySorted ascending (np_argsort probs).
Proof. apply argsort_fold. Qed.

(** The indices [predict_top_k] keeps, for a positive [k]. *)
Lemma top_indices_positive (k : Z) :
  (0 < k)%Z ->
  length (top_indices probs k) = Nat.min (Z.to_nat k) (length probs) /\
  Forall (fun i => (i < length probs)%nat) (top_indices probs k) /\
  StronglySorted (top_k_order probs) (top_indices probs k).
Proof.
  intro Hk. unfold top_indices, Py.slice_from_neg.
  replace (0 <? k)%Z with true by (symmetry; apply Z.ltb_lt; exact Hk).
  repeat split.
  - rewrite length_rev, last_n_length, (Permutation_length argsort_perm), length_seq.
    lia.
  - apply Forall_rev. unfold Py.last_n. apply Forall_skipn.
    eapply Permutation_Forall; [symmetry; apply argsort_perm|].
    apply Forall_forall. intros i Hi. apply in_seq in Hi. lia.
  - apply (StronglySorted_rev ascending).
    unfold Py.last_n. apply StronglySorted_skipn. apply argsort_sorted.
Qed.

End ArgsortFacts.

Lemma label_all_in_range (self : GestureClassifier.t) (probs : list Q)
      (idx : list nat) :
  Forall (fun i => (i < length (GestureClassifier.labels self))%nat) idx ->
  GestureClassifier.label_all self probs idx =
  Py.Returned
    (map (fun i => (nth i (GestureClassifier.labels self) ""%string,
                    nth i probs 0)) idx).
Proof.
  induction 1 as [|i rest Hi _ IH]; cbn; [reflexivity|].
  unfold GestureClassifier.label_at.
  rewrite (nth_error_nth' _ ""%string Hi). cbn. rewrite IH. reflexivity.
Qed.

(** C5, as stated, fails twice.  On the vector [[0.5; 0.5]] and [k = 2] the
    ascending argsort [[0; 1]] is reversed into [[1; 0]]: of two equal
    probabilities the one with the greater index comes first.  On [k = 0]
    the slice [[-0:]] is the whole vector, and two pairs are returned. *)
Lemma predict_top_k_ties_descending_index :
  let probs := [1 # 2; 1 # 2] in
  let clf := GestureClassifier.mk (Some (fun _ => probs)) ["a"; "b"]%string
                                  "asl_base" in
  GestureClassifier.np_isclose (GestureClassifier.np_sum probs) 1 = true /\
  GestureClassifier.top_indices probs 2 = [1; 0]%nat /\
  ~ StronglySorted (GestureClassifier.spec_top_k_order probs)
                   (GestureClassifier.top_indices probs 2) /\
  GestureClassifier.predict_top_k (fun x => x) clf [] 2 =
    Py.Returned [("b"%string, 1 # 2); ("a"%string, 1 # 2)] /\
  GestureClassifier.predict_top_k (fun x => x) clf [] 0 =
    Py.Returned [("b"%string, 1 # 2); ("a"%string, 1 # 2)].
Proof.
  cbv zeta. repeat split; try reflexivity.
  intro Hs. apply StronglySorted_inv in Hs. destruct Hs as [_ Hs].
  inversion Hs as [|? ? H _]; subst.
  destruct H as [H|[_ H]].
  - vm_compute in H. discriminate H.
  - lia.
Qed.

(** On a non-empty vector [predict_top_k] goes on to the labels of the top
    indices. *)
Lemma predict_top_k_nonempty
      (_softmax : list Q -> list Q) (self : GestureClassifier.t)
      (run : GestureClassifier.session_t)
      (sequence : GestureClassifier.window) (k : Z) :
  GestureClassifier.session self = Some run ->
  GestureClassifier.probabilities _softmax run sequence <> [] ->
  GestureClassifier.predict_top_k _softmax self sequence k =
  GestureClassifier.label_all
    self (GestureClassifier.probabilities _softmax run sequence)
    (GestureClassifier.top_indices
       (GestureClassifier.probabilities _softmax run sequence) k).
Proof.
  intros Hs Hne. unfold GestureClassifier.predict_top_k. rewrite Hs.
  destruct (GestureClassifier.probabilities _softmax run sequence);
    [congruence|reflexivity].
Qed.

Lemma NoDup_skipn {A : Type} (n : nat) (l : list A) :
  NoDup l -> NoDup (skipn n l).
Proof.
  intro H. rewrite <- (firstn_skipn n l) in H.
  apply NoDup_app_remove_l in H. exact H.
Qed.

(** The indices [predict_top_k] keeps are distinct, whatever [k]. *)
Lemma top_indices_distinct (probs : list Q) (k : Z) :
  NoDup (GestureClassifier.top_indices probs k).
Proof.
  assert (Hnd : NoDup (GestureClassifier.np_argsort probs)).
  { eapply Permutation_NoDup; [symmetry; apply argsort_perm|apply seq_NoDup]. }
  unfold GestureClassifier.top_indices, Py.slice_from_neg, Py.last_n.
  apply NoDup_rev. destruct (0 <? k)%Z; apply NoDup_skipn; exact Hnd.
Qed.

(** C5, amended: with a model loaded whose output vector is not empty, a
    label for every class and [k >= 1], [predict_top_k] returns [min k n]
    pairs, [n] the number of classes, so at most [k]: the labels of distinct
    classes, each with the probability of its class, in descending order of
    probability.  Nothing is said of the order of equal probabilities. *)
Theorem predict_top_k_order
        (_softmax : list Q -> list Q) (self : GestureClassifier.t)
        (run : GestureClassifier.session_t)
        (sequence : GestureClassifier.window) (k : Z) :
  GestureClassifier.session self = Some run ->
  (1 <= k)%Z ->
  let probs := GestureClassifier.probabilities _softmax run sequence in
  probs <> [] ->
  (length probs <= length (GestureClassifier.labels self))%nat ->
  exists idx result,
    GestureClassifier.predict_top_k _softmax self sequence k = Py.Returned result /\
    result = map (fun i => (nth i (GestureClassifier.labels self) ""%string,
                            nth i probs 0)) idx /\
    NoDup idx /\
    Forall (fun i => (i < length probs)%nat) idx /\
    length result = Nat.min (Z.to_nat k) (length probs) /\
    (Z.of_nat (length result) <= k)%Z /\
    StronglySorted (fun a b => snd b <= snd a) result.
Proof.
  intros Hsession Hk probs Hne Hlabels.
  destruct (top_indices_positive probs k) as (Hlen & Hrange & Hsorted); [lia|].
  exists (GestureClassifier.top_indices probs k). eexists.
  split.
  { rewrite (predict_top_k_nonempty _ _ run) by assumption. fold probs.
    apply label_all_in_range.
    eapply Forall_impl; [|exact Hrange]. cbn. intros; lia. }
  split; [reflexivity|].
  split; [apply top_indices_distinct|].
  split; [exact Hrange|].
  rewrite length_map, Hlen.
  repeat split.
  - lia.
  - eapply StronglySorted_map; [|exact Hsorted].
    intros i j [H|[H _]]; cbn; lra.
Qed.

Lemma predict_top_k_order_witness :
  let probs := [2 # 10; 5 # 10; 3 # 10] in
  let clf := GestureClassifier.mk (Some (fun _ => probs)) ["a"; "b"; "c"]%string
                                  "asl_base" in
  exists result,
    GestureClassifier.predict_top_k (fun x => x) clf [] 2 = Py.Returned result /\
    length result = 2%nat /\
    StronglySorted (fun a b => snd b <= snd a) result.
Proof.
  intros probs clf.
  destruct (predict_top_k_order (fun x => x) clf (fun _ => probs) [] 2)
    as (idx & result & Hr & _ & _ & _ & Hlen & _ & Hdesc).
  - reflexivity.
  - lia.
  - cbn. discriminate.
  - cbn. lia.
  - exists result. split; [exact Hr|]. split; [exact Hlen|exact Hdesc].
Defined.

(** ** [process_frame]: from the filter to the transport *)

(** C3, as stated, fails: [process_frame] hands what the confidence filter
    accepts to the transport; no [GestureSmoother] is part of [app.state].
    With a window of 2, three frames 50 ms apart on which the classifier
    gives ["yes"] at 0.95 yield [buffering] and then two [recognition]
    events for ["yes"], 50 ms apart, inside the smoother's default cooldown
    of 0.5 s. *)
Lemma process_frame_repeats_recognition :
  let lm : TemporalBuffer.landmarks := [1 # 2] in
  let clf := GestureClassifier.mk (Some (fun _ => [5 # 100; 95 # 100]))
                                  ["no"; "yes"]%string "asl_base" in
  let app := Server.mk (TemporalBuffer.init 2) clf
                       (ConfidenceFilter.init (7 # 10) (3 # 10)) in
  let sent :=
    Server.serve unit (fun _ => Some tt) (fun _ => Some lm) (fun x => x) app
                 [(0, "f0"%string); (1 # 20, "f1"%string); (2 # 20, "f2"%string)] in
  sent = [(0, Server.buffering);
          (1 # 20, Server.recognition "yes" (95 # 100) lm);
          (2 # 20, Server.recognition "yes" (95 # 100) lm)] /\
  Server.recognitions sent = [(1 # 20, "yes"%string); (2 # 20, "yes"%string)] /\
  (2 # 20) - (1 # 20) <
    GestureSmoother.cooldown (GestureSmoother.init (3 # 10) (5 # 10)) /\
  Server.spec_debounced (5 # 10) (Server.recognitions sent) = false.
Proof.
  cbv zeta. repeat split; reflexivity.
Qed.

(** [get_sequence] gives the buffer back as it got it. *)
Lemma get_sequence_pure (b : TemporalBuffer.t) :
  fst (TemporalBuffer.get_sequence b) = b.
Proof.
  unfold TemporalBuffer.get_sequence. destruct (_ <? _)%nat; reflexivity.
Qed.

(** C3, amended: [process_frame] returns a [recognition] event exactly when
    the frame decodes, landmarks are found, the buffer with these landmarks is
    full, and the confidence filter accepts the classifier's prediction; the
    event carries the accepted label and the classifier's confidence, and the
    state after the call differs in the buffer and the filter only.  Nothing
    else stands between the filter and the transport. *)
Theorem process_frame_recognition
        (frame_t : Type) (imdecode : string -> option frame_t)
        (extract : frame_t -> option TemporalBuffer.landmarks)
        (_softmax : list Q -> list Q)
        (app app' : Server.app_state) (frame_data : string)
        (sign : string) (confidence : Q) (landmarks : TemporalBuffer.landmarks) :
  Server.process_frame frame_t imdecode extract _softmax app frame_data =
    (app', Py.Returned (Some (Server.recognition sign confidence landmarks)))
  <->
  exists frame buf1 sequence prediction filter1,
    imdecode frame_data = Some frame /\
    extract frame = Some landmarks /\
    TemporalBuffer.add (Server.temporal_buffer app) landmarks = Py.Returned buf1 /\
    TemporalBuffer.get_sequence buf1 = (buf1, Py.Returned (Some sequence)) /\
    GestureClassifier.predict _softmax (Server.classifier app) sequence =
      Py.Returned (prediction, confidence) /\
    ConfidenceFilter.filter (Server.confidence_filter app) prediction confidence =
      (filter1, Some sign) /\
    app' = Server.mk buf1 (Server.classifier app) filter1.
Proof.
  unfold Server.process_frame. split.
  - destruct (imdecode frame_data) as [frame|] eqn:Edec; [|discriminate].
    destruct (extract frame) as [lm|] eqn:Eext; [|discriminate].
    destruct (TemporalBuffer.add (Server.temporal_buffer app) lm)
      as [buf1|e] eqn:Eadd; [|discriminate].
    assert (Hpure := get_sequence_pure buf1).
    destruct (TemporalBuffer.get_sequence buf1) as [buf2 got] eqn:Eget.
    cbn [fst] in Hpure. subst buf2.
    destruct got as [[sequence|]|e]; [|discriminate|discriminate].
    cbn [Server.classifier Server.confidence_filter Server.temporal_buffer].
    destruct (GestureClassifier.predict _softmax (Server.classifier app) sequence)
      as [[prediction c]|e] eqn:Epred; [|discriminate].
    destruct (ConfidenceFilter.filter (Server.confidence_filter app) prediction c)
      as [filter1 [s|]] eqn:Efilter; [|discriminate].
    intro H. injection H as <- <- <- <-.
    exists frame, buf1, sequence, prediction, filter1.
    repeat split; first [reflexivity | assumption].
  - intros (frame & buf1 & sequence & prediction & filter1 &
            Hdec & Hext & Hadd & Hget & Hpred & Hfilter & ->).
    rewrite Hdec, Hext, Hadd, Hget.
    cbn [Server.classifier Server.confidence_filter Server.temporal_buffer].
    rewrite Hpred, Hfilter. reflexivity.
Qed.

(** * Further properties of the modelled code *)

(** ** [TemporalBuffer]: [resize], [clear] and [get_partial_sequence] *)

Lemma last_n_all {A : Type} (n : nat) (l : list A) :
  (length l <= n)%nat -> Py.last_n n l = l.
Proof.
  intro H. unfold Py.last_n.
  replace (length l - n)%nat with 0%nat by lia. reflexivity.
Qed.

Lemma last_n_idempotent {A : Type} (n : nat) (l : list A) :
  Py.last_n n (Py.last_n n l) = Py.last_n n l.
Proof. apply last_n_all. rewrite last_n_length. lia. Qed.

Lemma last_n_nil {A : Type} (n : nat) : Py.last_n n (@nil A) = [].
Proof. unfold Py.last_n. apply skipn_nil. Qed.

(** Appending to a bounded deque one by one keeps the most recent entries. *)
Lemma fold_deque_append {A : Type} (n : nat) (xs l : list A) :
  fold_left (Py.deque_append n) xs (Py.last_n n l) = Py.last_n n (l ++ xs).
Proof.
  revert l. induction xs as [|x xs IH]; intro l; cbn [fold_left].
  - rewrite app_nil_r. reflexivity.
  - rewrite deque_append_last_n, IH, <- app_assoc. reflexivity.
Qed.

Lemma resize_buffer (self : TemporalBuffer.t) (new_size : nat) :
  TemporalBuffer.buffer (TemporalBuffer.resize self new_size) =
  Py.last_n new_size (TemporalBuffer.buffer self).
Proof.
  unfold TemporalBuffer.resize. cbn [TemporalBuffer.buffer].
  rewrite <- (last_n_nil new_size) at 1.
  rewrite fold_deque_append. cbn [app].
  unfold Py.slice_from_neg.
  destruct (0 <? Z.of_nat new_size)%Z eqn:E.
  - rewrite Nat2Z.id. apply last_n_idempotent.
  - apply Z.ltb_ge in E. assert (new_size = 0%nat) by lia. subst new_size.
    cbn. unfold Py.last_n. rewrite !Nat.sub_0_r, !skipn_all. reflexivity.
Qed.

(** X1: [resize] sets the window size, keeps the feature size and retains
    the most recent [min new_size count] vectors of the buffer, in their
    order, the oldest going first. *)
Theorem resize_keeps_most_recent (self : TemporalBuffer.t) (new_size : nat) :
  let self' := TemporalBuffer.resize self new_size in
  TemporalBuffer.window_size self' = new_size /\
  TemporalBuffer.feature_size self' = TemporalBuffer.feature_size self /\
  TemporalBuffer.buffer self' =
    skipn (length (TemporalBuffer.buffer self) - new_size)
          (TemporalBuffer.buffer self) /\
  length (TemporalBuffer.buffer self') =
    Nat.min new_size (length (TemporalBuffer.buffer self)) /\
  exists dropped,
    TemporalBuffer.buffer self = dropped ++ TemporalBuffer.buffer self'.
Proof.
  cbv zeta. rewrite resize_buffer.
  split; [reflexivity|]. split; [reflexivity|]. split; [reflexivity|].
  split; [rewrite last_n_length; lia|].
  exists (firstn (length (TemporalBuffer.buffer self) - new_size)
                 (TemporalBuffer.buffer self)).
  unfold Py.last_n. symmetry. apply firstn_skipn.
Qed.



(** X3: [clear] empties the buffer and keeps the recorded feature size: the
    pushes after it fill the buffer from empty, and a feature size recorded
    before the [clear] is not recorded again. *)
Theorem clear_then_pushes (self : TemporalBuffer.t)
        (vs : list TemporalBuffer.landmarks) :
  TemporalBuffer.len (TemporalBuffer.clear self) = 0%nat /\
  TemporalBuffer.pushes (TemporalBuffer.clear self) vs =
  Py.Returned
    (TemporalBuffer.mk (TemporalBuffer.window_size self)
       (Py.last_n (TemporalBuffer.window_size self) vs)
       (match TemporalBuffer.feature_size self with
        | Some n => Some n
        | None => TemporalBuffer.feature_size_after None vs
        end)).
Proof.
  split; [reflexivity|].
  unfold TemporalBuffer.clear.
  rewrite <- (last_n_nil (TemporalBuffer.window_size self)) at 1.
  rewrite pushes_last_n. cbn [app].
  destruct (TemporalBuffer.feature_size self); reflexivity.
Qed.

Lemma repeat_shift {A : Type} (a : A) (k : nat) (l : list A) :
  repeat a k ++ a :: l = a :: repeat a k ++ l.
Proof. induction k as [|k IH]; cbn; [reflexivity|]. rewrite IH. reflexivity. Qed.

(** With fuel beyond the missing vectors, the padding loop ends, with the
    first vector repeated in front. *)
Lemma pad_loop_enough (fuel w : nat) (first : TemporalBuffer.landmarks)
      (rest : list TemporalBuffer.landmarks) :
  (w - length (first :: rest) < fuel)%nat ->
  TemporalBuffer.pad_loop fuel w (first :: rest) =
  Some (Py.Returned (repeat first (w - length (first :: rest)) ++ first :: rest)).
Proof.
  revert rest. induction fuel as [|fuel IH]; intros rest Hfuel; [lia|].
  cbn [TemporalBuffer.pad_loop].
  destruct (length (first :: rest) <? w)%nat eqn:E.
  - apply Nat.ltb_lt in E.
    rewrite (IH (first :: rest)) by (cbn [length] in *; lia).
    replace (w - length (first :: rest))%nat
      with (S (w - length (first :: first :: rest)))
      by (cbn [length] in *; lia).
    cbn [repeat]. rewrite repeat_shift. reflexivity.
  - apply Nat.ltb_ge in E.
    replace (w - length (first :: rest))%nat with 0%nat by lia.
    reflexivity.
Qed.

(** X4: [get_partial_sequence] gives [None] on an empty buffer, whatever the
    fuel.  On a buffer that holds vectors of one length, as soon as the fuel
    exceeds the number of missing vectors, it gives the buffer with its first
    vector repeated in front up to [window_size] entries. *)
Theorem partial_sequence_pads_front :
  (forall fuel w fs,
      TemporalBuffer.get_partial_sequence fuel (TemporalBuffer.mk w [] fs) =
      Some (Py.Returned None)) /\
  (forall fuel w fs first rest n,
      Forall (fun v => length v = n) (first :: rest) ->
      (w - length (first :: rest) < fuel)%nat ->
      let padded := repeat first (w - length (first :: rest)) ++ first :: rest in
      TemporalBuffer.get_partial_sequence
        fuel (TemporalBuffer.mk w (first :: rest) fs) =
      Some (Py.Returned (Some padded)) /\
      length padded = Nat.max w (length (first :: rest))).
Proof.
  split; [reflexivity|].
  intros fuel w fs first rest n Hall Hfuel padded.
  unfold TemporalBuffer.get_partial_sequence.
  cbn [TemporalBuffer.buffer TemporalBuffer.window_size].
  replace (length (first :: rest) =? 0)%nat with false by reflexivity.
  rewrite pad_loop_enough by exact Hfuel. fold padded. cbn [Py.bind].
  split.
  - rewrite (np_array_consistent n); [reflexivity|].
    unfold padded. apply Forall_app. split; [|exact Hall].
    apply Forall_forall. intros v Hv. apply repeat_spec in Hv. subst v.
    inversion Hall; assumption.
  - unfold padded. rewrite length_app, repeat_length. lia.
Qed.

Lemma partial_sequence_pads_front_witness :
  let a : TemporalBuffer.landmarks := [1 # 2] in
  let b : TemporalBuffer.landmarks := [1 # 3] in
  TemporalBuffer.get_partial_sequence 3 (TemporalBuffer.mk 4 [a; b] (Some 1%nat)) =
  Some (Py.Returned (Some [a; a; a; b])).
Proof.
  intros a b.
  apply (proj2 partial_sequence_pads_front 3%nat 4%nat (Some 1%nat) a [b] 1%nat).
  - repeat constructor.
  - cbn. lia.
Defined.

(** ** [ConfidenceFilter]: the baseline of the smoothing, blips and [reset] *)

Section FilterBaseline.

Import ConfidenceFilter.

(** What every filter reached from a fresh one satisfies: a label was never
    accepted, or it was accepted with a confidence that reached the
    threshold. *)
Lemma filter_keeps_baseline (thr : Q) (f : ConfidenceFilter.t) (p : string) (c : Q) :
  threshold f = thr /\
  (last_prediction f = None \/ thr <= last_confidence f) ->
  threshold (fst (filter f p c)) = thr /\
  (last_prediction (fst (filter f p c)) = None \/
   thr <= last_confidence (fst (filter f p c))).
Proof.
  intros [Ht Hb]. unfold filter. cbn [threshold history].
  destruct (Py.ltb (_smooth_confidence f p c) (threshold f)) eqn:E;
    [split; assumption|].
  destruct (negb _); [split; assumption|].
  cbn. split; [exact Ht|]. right. apply ltb_ge in E. rewrite <- Ht. exact E.
Qed.

Lemma filter_calls_baseline (thr : Q) (calls : list (string * Q)) (f : ConfidenceFilter.t) :
  threshold f = thr /\
  (last_prediction f = None \/ thr <= last_confidence f) ->
  (threshold (filter_calls f calls) = thr /\
   (last_prediction (filter_calls f calls) = None \/
    thr <= last_confidence (filter_calls f calls))) /\
  smoothing (filter_calls f calls) = smoothing f.
Proof.
  revert f. induction calls as [|[p c] rest IH]; intros f Hf; [split; [exact Hf|reflexivity]|].
  cbn [filter_calls fold_left fst snd].
  destruct (IH (fst (filter f p c)) (filter_keeps_baseline thr f p c Hf))
    as [Hb Hs].
  split; [exact Hb|].
  unfold filter_calls in Hs. rewrite Hs.
  apply (filter_settings f p c).
Qed.

End FilterBaseline.

(** X5: on a filter reached from a fresh one by any sequence of calls, the
    threshold and the smoothing factor are those of the constructor, and the
    stored pair is the one of the latest accepted call: no label is stored,
    or the stored confidence passed the comparison with the threshold.  The
    smoothing of a repeated label so blends the new confidence only with a
    confidence that had reached the threshold. *)
Theorem filter_stored_confidence_reaches_threshold
        (thr sm : Q) (calls : list (string * Q)) :
  let f := ConfidenceFilter.filter_calls (ConfidenceFilter.init thr sm) calls in
  ConfidenceFilter.threshold f = thr /\
  ConfidenceFilter.smoothing f = sm /\
  (ConfidenceFilter.last_prediction f = None \/
   thr <= ConfidenceFilter.last_confidence f).
Proof.
  intro f.
  destruct (filter_calls_baseline thr calls (ConfidenceFilter.init thr sm))
    as [[Ht Hb] Hs]; [split; [reflexivity|left; reflexivity]|].
  fold f in Ht, Hb, Hs. cbn in Hs.
  split; [exact Ht|]. split; [exact Hs|exact Hb].
Qed.

(** X6: a label that differs from the labels of the two latest history
    entries is rejected, however high its confidence; on any filter, the
    second call in a row with a label passes the stability rule, and returns
    the label as soon as its smoothed confidence reaches the threshold. *)
Theorem filter_blip_rejected_then_held :
  (forall (self : ConfidenceFilter.t) (p : string) (c : Q) d e1 e2,
      ConfidenceFilter.history self = d ++ [e1; e2] ->
      fst e1 <> p -> fst e2 <> p ->
      snd (ConfidenceFilter.filter self p c) = None) /\
  (forall (self : ConfidenceFilter.t) (p : string) (c1 c2 : Q),
      let f := fst (ConfidenceFilter.filter self p c1) in
      ConfidenceFilter.threshold f <= ConfidenceFilter._smooth_confidence f p c2 ->
      snd (ConfidenceFilter.filter f p c2) = Some p).
Proof.
  split.
  - intros self p c d e1 e2 Hh H1 H2.
    rewrite filter_result, Hh.
    destruct (Py.ltb _ _); [reflexivity|].
    rewrite deque_append_tail by (cbn; lia).
    replace (length _ <? 3)%nat with false.
    2:{ symmetry. apply Nat.ltb_ge. rewrite !length_app. cbn. lia. }
    cbn [app].
    match goal with
    | |- context [Py.last_n 3 (?a ++ ?b)] =>
        change (Py.last_n 3 (a ++ b)) with (Py.last_n (length b) (a ++ b))
    end.
    rewrite last_n_tail.
    unfold ConfidenceFilter.count_label. cbn [filter fst].
    rewrite String.eqb_refl.
    replace (fst e1 =? p)%string with false
      by (symmetry; apply String.eqb_neq; exact H1).
    replace (fst e2 =? p)%string with false
      by (symmetry; apply String.eqb_neq; exact H2).
    reflexivity.
  - intros self p c1 c2 f Hge.
    rewrite filter_result.
    apply ltb_ge in Hge. rewrite Hge.
    assert (H1 : exists d s1, ConfidenceFilter.history f = d ++ [(p, s1)]).
    { unfold f. rewrite filter_history.
      destruct (deque_append_last 5 (ConfidenceFilter.history self)
                  (p, ConfidenceFilter._smooth_confidence self p c1))
        as [d Hd]; [lia|].
      eauto. }
    destruct H1 as (d & s1 & Hd). rewrite Hd.
    rewrite deque_append_tail by (cbn; lia).
    destruct (length _ <? 3)%nat eqn:El; [reflexivity|].
    apply Nat.ltb_ge in El. rewrite !length_app, length_skipn in El.
    cbn [length app] in El.
    destruct (rev (skipn (length d + length [(p, s1)] + 1 - 5) d))
      as [|x r] eqn:Er.
    { apply (f_equal (@length _)) in Er. rewrite length_rev, length_skipn in Er.
      cbn [length] in Er. lia. }
    assert (Hsk : skipn (length d + length [(p, s1)] + 1 - 5) d = rev r ++ [x]).
    { rewrite <- (rev_involutive (skipn _ d)), Er. reflexivity. }
    rewrite Hsk, <- app_assoc. cbn [app].
    match goal with
    | |- context [Py.last_n 3 (?a ++ ?b)] =>
        change (Py.last_n 3 (a ++ b)) with (Py.last_n (length b) (a ++ b))
    end.
    rewrite last_n_tail.
    unfold ConfidenceFilter.count_label. cbn [filter fst].
    rewrite String.eqb_refl.
    destruct (fst x =? p)%string; reflexivity.
Qed.

Lemma filter_blip_rejected_then_held_witness :
  let self := ConfidenceFilter.filter_calls
                (ConfidenceFilter.init (7 # 10) (3 # 10))
                [("yes"%string, 95 # 100); ("yes"%string, 95 # 100)] in
  snd (ConfidenceFilter.filter self "no" (99 # 100)) = None /\
  snd (ConfidenceFilter.filter
         (fst (ConfidenceFilter.filter self "no" (99 # 100)))
         "no" (99 # 100)) = Some "no"%string.
Proof.
  intro self. split.
  - eapply (proj1 filter_blip_rejected_then_held self "no"%string (99 # 100) []).
    + vm_compute. reflexivity.
    + cbn. discriminate.
    + cbn. discriminate.
  - apply (proj2 filter_blip_rejected_then_held self "no"%string
                 (99 # 100) (99 # 100)).
    vm_compute. discriminate.
Defined.

(** X7: after [reset], whatever the filter held, the next call is judged on
    its raw confidence alone: it returns its label exactly when the
    confidence reaches the threshold. *)
Theorem filter_after_reset (self : ConfidenceFilter.t) (p : string) (c : Q) :
  (ConfidenceFilter.threshold self <= c ->
   snd (ConfidenceFilter.filter (ConfidenceFilter.reset self) p c) = Some p) /\
  (c < ConfidenceFilter.threshold self ->
   snd (ConfidenceFilter.filter (ConfidenceFilter.reset self) p c) = None) /\
  ConfidenceFilter.history
    (fst (ConfidenceFilter.filter (ConfidenceFilter.reset self) p c)) = [(p, c)].
Proof.
  repeat split.
  - intro H. unfold ConfidenceFilter.filter, ConfidenceFilter.reset. cbn.
    apply ltb_ge in H. rewrite H. reflexivity.
  - intro H. unfold ConfidenceFilter.filter, ConfidenceFilter.reset. cbn.
    apply ltb_lt in H. rewrite H. reflexivity.
  - rewrite filter_history. reflexivity.
Qed.

Lemma filter_after_reset_witness :
  let self := ConfidenceFilter.filter_calls
                (ConfidenceFilter.init (7 # 10) (3 # 10))
                [("yes"%string, 95 # 100); ("yes"%string, 95 # 100)] in
  snd (ConfidenceFilter.filter (ConfidenceFilter.reset self) "no" (8 # 10)) =
    Some "no"%string /\
  snd (ConfidenceFilter.filter (ConfidenceFilter.reset self) "yes" (6 # 10)) = None.
Proof.
  intro self. split.
  - apply (proj1 (filter_after_reset self "no"%string (8 # 10))).
    cbn. discriminate.
  - apply (proj1 (proj2 (filter_after_reset self "yes"%string (6 # 10)))).
    reflexivity.
Defined.

(** ** [GestureSmoother]: holding one gesture, and the output history *)

(** X8: no call of [update] emits right after a call that emitted, whatever
    the cooldown; and the first call on a smoother without a current gesture,
    a fresh one or one just reset, emits nothing. *)
Theorem smoother_never_emits_twice_in_a_row :
  (forall (s : GestureSmoother.t) (c1 c2 : GestureSmoother.call) e,
      snd (GestureSmoother.step s c1) = Some e ->
      snd (GestureSmoother.step (fst (GestureSmoother.step s c1)) c2) = None) /\
  (forall (s : GestureSmoother.t) (c : GestureSmoother.call),
      snd (GestureSmoother.step (GestureSmoother.reset s) c) = None) /\
  (forall md cd (c : GestureSmoother.call),
      snd (GestureSmoother.step (GestureSmoother.init md cd) c) = None).
Proof.
  split; [|split].
  - intros s c1 c2 e He.
    apply step_emits in He.
    destruct He as (_ & _ & _ & _ & _ & _ & Hrep).
    assert (Hcur := step_current s c1).
    set (s1 := fst (GestureSmoother.step s c1)) in *.
    destruct (step_cases s1 c2) as [_ E|_ E|Hg _ _ Hl E]; rewrite E;
      [reflexivity|reflexivity|].
    exfalso.
    assert (GestureSmoother.label c2 = GestureSmoother.label c1) by congruence.
    congruence.
  - intros s c.
    destruct (step_cases (GestureSmoother.reset s) c) as [_ E|_ E|Hg _ _ _ E];
      rewrite E; [reflexivity|reflexivity|].
    cbn in Hg. discriminate.
  - intros md cd c.
    destruct (step_cases (GestureSmoother.init md cd) c) as [_ E|_ E|Hg _ _ _ E];
      rewrite E; [reflexivity|reflexivity|].
    cbn in Hg. discriminate.
Qed.

Lemma smoother_never_emits_twice_in_a_row_witness :
  let s := GestureSmoother.run (GestureSmoother.init 0 0)
             [GestureSmoother.Call "hello" (9 # 10) 1] in
  snd (GestureSmoother.step
         (fst (GestureSmoother.step s (GestureSmoother.Call "hello" (9 # 10) 2)))
         (GestureSmoother.Call "hello" (9 # 10) 3)) = None.
Proof.
  intro s.
  apply (proj1 smoother_never_emits_twice_in_a_row s
               (GestureSmoother.Call "hello" (9 # 10) 2)
               (GestureSmoother.Call "hello" (9 # 10) 3)
               ("hello"%string, 9 # 10)).
  reflexivity.
Defined.

Section SmootherHold.

Import GestureSmoother.

Variables md cd : Q.
Variable p : string.
Variable c0 : call.

(** The smoother after the first call [c0] of an episode of [p] on a fresh
    smoother. *)
Local Abbreviation opened := (mk md cd (Some p) (time c0) 0 []).

Lemma hold_waits (pre : list call) :
  Forall (fun x => label x = p) pre ->
  Forall (fun x => ~ (md <= time x - time c0 /\ cd <= time x)) pre ->
  outputs opened pre = repeat None (length pre) /\ run opened pre = opened.
Proof.
  induction pre as [|x pre IH]; intros Hl Hq; [split; reflexivity|].
  apply Forall_cons_iff in Hl. destruct Hl as [Hx Hl'].
  apply Forall_cons_iff in Hq. destruct Hq as [Hnq Hq'].
  cbn [outputs length repeat]. rewrite run_cons.
  destruct (step_cases opened x) as [Hn E|_ E|_ Hd Hc _ E].
  - cbn in Hn. congruence.
  - rewrite E. cbn [fst snd]. destruct (IH Hl' Hq') as [-> ->].
    split; reflexivity.
  - exfalso. apply Hnq. cbn in Hd, Hc. split; [exact Hd|lra].
Qed.

Lemma hold_emits (c : call) :
  label c = p -> md <= time c - time c0 -> cd <= time c ->
  snd (step opened c) = Some (p, conf c) /\
  last_output_is (output_history (fst (step opened c))) p = true.
Proof.
  intros Hl Hd Hc.
  destruct (step_cases opened c) as [Hn E|_ E|_ _ _ _ E].
  - cbn in Hn. congruence.
  - exfalso. unfold step, update in E. cbn in E.
    rewrite Hl, String.eqb_refl in E. cbn in E.
    replace (Py.ltb (time c - time c0) md) with false in E
      by (symmetry; apply ltb_ge; exact Hd).
    replace (Py.ltb (time c - 0) cd) with false in E
      by (symmetry; apply ltb_ge; lra).
    discriminate E.
  - rewrite E. cbn [fst snd output_history]. rewrite Hl. split; [reflexivity|].
    cbn. apply String.eqb_refl.
Qed.

Lemma hold_blocked (post : list call) (s : GestureSmoother.t) :
  last_output_is (output_history s) p = true ->
  Forall (fun x => label x = p) post ->
  outputs s post = repeat None (length post).
Proof.
  revert s. induction post as [|x post IH]; intros s Hrep Hl; [reflexivity|].
  apply Forall_cons_iff in Hl. destruct Hl as [Hx Hl'].
  cbn [outputs length repeat].
  rewrite <- Hx in Hrep.
  destruct (step_repeat_blocked s x Hrep) as [-> Hh].
  rewrite Hx in Hrep.
  rewrite IH; [reflexivity| rewrite Hh; exact Hrep | exact Hl'].
Qed.

End SmootherHold.

(** X9: a gesture held from the first call on a fresh smoother is emitted
    once, by the first call that comes at least [min_duration] after the
    first call and at a time of at least [cooldown] (the last output time of a
    fresh smoother is 0); no call before it and no call after it emits.  If
    no call is such, nothing is emitted. *)
Theorem smoother_hold_emits_once
        (md cd : Q) (p : string) (c0 : GestureSmoother.call)
        (pre : list GestureSmoother.call) :
  GestureSmoother.label c0 = p ->
  Forall (fun x => GestureSmoother.label x = p) pre ->
  Forall (fun x => ~ (md <= GestureSmoother.time x - GestureSmoother.time c0 /\
                      cd <= GestureSmoother.time x)) pre ->
  GestureSmoother.outputs (GestureSmoother.init md cd) (c0 :: pre) =
    repeat None (S (length pre)) /\
  (forall c post,
      GestureSmoother.label c = p ->
      Forall (fun x => GestureSmoother.label x = p) post ->
      md <= GestureSmoother.time c - GestureSmoother.time c0 ->
      cd <= GestureSmoother.time c ->
      GestureSmoother.outputs (GestureSmoother.init md cd)
                              (c0 :: pre ++ c :: post) =
      repeat None (S (length pre)) ++
      Some (p, GestureSmoother.conf c) :: repeat None (length post)).
Proof.
  intros H0 Hl Hq.
  assert (Hopen : GestureSmoother.step (GestureSmoother.init md cd) c0 =
                  (GestureSmoother.mk md cd (Some p) (GestureSmoother.time c0) 0 [],
                   None)).
  { destruct (step_cases (GestureSmoother.init md cd) c0) as [_ E|Hg _|Hg _ _ _ _];
      [|cbn in Hg; discriminate|cbn in Hg; discriminate].
    rewrite E, H0. reflexivity. }
  destruct (hold_waits md cd p c0 pre Hl Hq) as [Hout Hrun].
  split.
  - cbn [GestureSmoother.outputs repeat]. rewrite Hopen. cbn [fst snd].
    rewrite Hout. reflexivity.
  - intros c post Hc Hpost Hd Hcd.
    cbn [GestureSmoother.outputs repeat app]. rewrite Hopen. cbn [fst snd].
    f_equal.
    assert (Happ : forall a b s,
               GestureSmoother.outputs s (a ++ b) =
               GestureSmoother.outputs s a ++
               GestureSmoother.outputs (GestureSmoother.run s a) b).
    { induction a as [|x a IH]; intros b s; [reflexivity|].
      cbn [app GestureSmoother.outputs]. rewrite IH, run_cons. reflexivity. }
    rewrite Happ, Hout, Hrun. f_equal.
    cbn [GestureSmoother.outputs].
    destruct (hold_emits md cd p c0 c Hc Hd Hcd) as [-> Hrep].
    f_equal. apply (hold_blocked p); assumption.
Qed.

Lemma smoother_hold_emits_once_witness :
  let call t := GestureSmoother.Call "yes" (95 # 100) t in
  GestureSmoother.outputs
    (GestureSmoother.init (3 # 10) (5 # 10))
    (call 100 :: [call (10005 # 100); call (1001 # 10)] ++
     call (1003 # 10) :: [call (10035 # 100); call 200]) =
  [None; None; None; Some ("yes"%string, 95 # 100); None; None].
Proof.
  intro call.
  apply (proj2 (smoother_hold_emits_once
                  (3 # 10) (5 # 10) "yes"%string (call 100)
                  [call (10005 # 100); call (1001 # 10)]
                  eq_refl
                  ltac:(repeat constructor)
                  ltac:(repeat constructor; intros [H _]; vm_compute in H;
                        apply H; reflexivity))
               (call (1003 # 10)) [call (10035 # 100); call 200]).
  - reflexivity.
  - repeat constructor.
  - vm_compute. discriminate.
  - vm_compute. discriminate.
Defined.

(** The output history follows the emissions. *)
Lemma run_output_history (calls : list GestureSmoother.call)
      (s : GestureSmoother.t) (earlier : list GestureSmoother.entry) :
  GestureSmoother.output_history s = Py.last_n 10 earlier ->
  GestureSmoother.output_history (GestureSmoother.run s calls) =
  Py.last_n 10 (earlier ++ GestureSmoother.emissions s calls).
Proof.
  revert s earlier. induction calls as [|c rest IH]; intros s earlier Hs.
  - cbn. rewrite app_nil_r. exact Hs.
  - rewrite run_cons. cbn [GestureSmoother.emissions].
    destruct (step_cases s c) as [_ E|_ E|_ _ _ _ E]; rewrite E; cbn [fst snd].
    + apply IH. exact Hs.
    + apply IH. exact Hs.
    + rewrite (IH _ (earlier ++ [(GestureSmoother.label c, GestureSmoother.conf c,
                                  GestureSmoother.time c)])).
      * rewrite <- app_assoc. reflexivity.
      * cbn [GestureSmoother.output_history]. rewrite Hs.
        apply deque_append_last_n.
Qed.

(** X10: after any calls on a fresh smoother, [output_history] holds the
    last 10 emitted events, oldest first, each with the label, the confidence
    and the time of the call that emitted it. *)
Theorem smoother_history_is_last_ten
        (md cd : Q) (calls : list GestureSmoother.call) :
  let s := GestureSmoother.run (GestureSmoother.init md cd) calls in
  let emitted := GestureSmoother.emissions (GestureSmoother.init md cd) calls in
  GestureSmoother.output_history s =
    skipn (length emitted - 10) emitted /\
  (length (GestureSmoother.output_history s) <= 10)%nat /\
  length emitted =
    length (filter (fun o => match o with Some _ => true | None => false end)
                   (GestureSmoother.outputs (GestureSmoother.init md cd) calls)).
Proof.
  cbv zeta.
  rewrite (run_output_history calls (GestureSmoother.init md cd) [])
    by reflexivity.
  cbn [app]. split; [reflexivity|].
  split; [rewrite last_n_length; lia|].
  generalize (GestureSmoother.init md cd). induction calls as [|c rest IH]; intro s.
  - reflexivity.
  - cbn [GestureSmoother.emissions GestureSmoother.outputs filter].
    destruct (snd (GestureSmoother.step s c)); cbn [length]; rewrite IH; reflexivity.
Qed.

(** ** [CameraManager]: the measured rate and the capture loop *)

Lemma filter_filter_implied {A : Type} (f g : A -> bool) (l : list A) :
  (forall x, f x = true -> g x = true) ->
  filter f (filter g l) = filter f l.
Proof.
  intro H. induction l as [|x l IH]; [reflexivity|]. cbn.
  destruct (g x) eqn:Eg; cbn.
  - rewrite IH. reflexivity.
  - destruct (f x) eqn:Ef; [|exact IH].
    apply H in Ef. congruence.
Qed.

Lemma sorted_snoc_inv (l : list Q) (x : Q) :
  StronglySorted Qle (l ++ [x]) ->
  StronglySorted Qle l /\ Forall (fun y => y <= x) l.
Proof.
  induction l as [|y l IH]; cbn; intro H; [split; constructor|].
  apply StronglySorted_inv in H. destruct H as [Hs Hy].
  destruct (IH Hs) as [Hl Hall].
  apply Forall_app in Hy. destruct Hy as [Hy1 Hy2].
  split; constructor; try assumption.
  inversion Hy2; assumption.
Qed.

Lemma update_fps_many_snoc (self : CameraManager.t) (times clock : list Q) (now : Q) :
  CameraManager.update_fps_many self times (clock ++ [now]) =
  CameraManager._update_fps
    (fst (CameraManager.update_fps_many self times clock))
    (snd (CameraManager.update_fps_many self times clock)) now.
Proof.
  unfold CameraManager.update_fps_many. rewrite fold_left_app. reflexivity.
Qed.

(** X11: with a clock that never goes back, after any captures the list of
    frame times holds the capture times of the last second before the latest
    capture, that one included, and [current_fps] is their number, at least
    1. *)
Theorem update_fps_counts_last_second
        (self : CameraManager.t) (clock : list Q) (now : Q) :
  StronglySorted Qle (clock ++ [now]) ->
  let after := CameraManager.update_fps_many self [] (clock ++ [now]) in
  snd after = filter (fun t0 => Py.ltb (now - 1) t0) (clock ++ [now]) /\
  CameraManager.current_fps (fst after) =
    inject_Z (Z.of_nat (length (snd after))) /\
  (1 <= length (snd after))%nat /\
  Forall (fun t0 => now - 1 < t0 /\ t0 <= now) (snd after).
Proof.
  intros Hsorted after.
  assert (Hkept : snd after =
                  filter (fun t0 => Py.ltb (now - 1) t0) (clock ++ [now])).
  { unfold after. clear after. revert now Hsorted.
    induction clock as [|prev clock IH] using rev_ind; intros now Hsorted.
    - reflexivity.
    - rewrite update_fps_many_snoc.
      destruct (sorted_snoc_inv _ _ Hsorted) as [Hprev Hall].
      assert (Hle : prev <= now).
      { rewrite Forall_forall in Hall. apply Hall.
        apply in_or_app. right. left. reflexivity. }
      unfold CameraManager._update_fps. cbn [snd].
      rewrite (IH prev Hprev).
      rewrite (filter_app _ (filter _ _) [now]).
      rewrite (filter_app _ (clock ++ [prev]) [now]).
      rewrite filter_filter_implied; [reflexivity|].
      intros x Hx. apply ltb_lt in Hx. apply ltb_lt. lra. }
  split; [exact Hkept|].
  assert (Hfps : CameraManager.current_fps (fst after) =
                 inject_Z (Z.of_nat (length (snd after)))).
  { unfold after. rewrite update_fps_many_snoc. reflexivity. }
  split; [exact Hfps|].
  rewrite Hkept. split.
  - rewrite filter_app, length_app. cbn [filter].
    replace (Py.ltb (now - 1) now) with true; [cbn; lia|].
    symmetry. apply ltb_lt. lra.
  - apply Forall_forall. intros t0 Ht. apply filter_In in Ht.
    destruct Ht as [Hin Hlt]. apply ltb_lt in Hlt. split; [exact Hlt|].
    apply in_app_or in Hin. destruct Hin as [Hin|[<-|[]]]; [|lra].
    destruct (sorted_snoc_inv _ _ Hsorted) as [_ Hall].
    rewrite Forall_forall in Hall. apply Hall, Hin.
Qed.

Lemma update_fps_counts_last_second_witness :
  let cam := CameraManager.mk 30 true 15 0 in
  let after := CameraManager.update_fps_many cam [] ([0; 1 # 2; 1] ++ [14 # 10]) in
  snd after = [1 # 2; 1; 14 # 10] /\
  CameraManager.current_fps (fst after) = 3.
Proof.
  intros cam after.
  destruct (update_fps_counts_last_second cam [0; 1 # 2; 1] (14 # 10))
    as (Hk & Hf & _).
  - repeat constructor; vm_compute; discriminate.
  - fold after in Hk, Hf. split; [exact Hk|].
    rewrite Hf, Hk. reflexivity.
Defined.

Lemma inverse_antitone (a b : Q) : 0 < a -> a <= b -> 1 / b <= 1 / a.
Proof.
  intros Ha Hab.
  apply Qle_shift_div_l; [exact Ha|].
  setoid_replace (1 / b * a) with (a / b) by (field; intro; lra).
  apply Qle_shift_div_r; lra.
Qed.

(** A step of the adaptive rate keeps the interval between the two bounds. *)
Lemma adapt_frame_rate_in_range (self : CameraManager.t) (interval : Q) :
  0 < CameraManager.min_fps self ->
  CameraManager.min_fps self <= CameraManager.target_fps self ->
  1 / CameraManager.target_fps self <= interval ->
  interval <= 1 / CameraManager.min_fps self ->
  exists interval',
    CameraManager._adapt_frame_rate self interval = Py.Returned interval' /\
    1 / CameraManager.target_fps self <= interval' /\
    interval' <= 1 / CameraManager.min_fps self.
Proof.
  intros Hm Hmt Hlo Hhi.
  assert (Ht : 0 < CameraManager.target_fps self) by lra.
  assert (Hpos := inverse_positive _ Ht).
  unfold CameraManager._adapt_frame_rate.
  set (lo := 1 / CameraManager.target_fps self) in *.
  set (hi := 1 / CameraManager.min_fps self) in *.
  destruct (Py.ltb (CameraManager.current_fps self) (CameraManager.min_fps self)).
  - rewrite (div_positive _ _ Hm). cbn [Py.bind]. fold hi.
    eexists. split; [reflexivity|].
    destruct (min_cases (interval * (11 # 10)) hi) as [[Hc ->]|[Hc ->]];
      split; lra.
  - destruct (Py.ltb _ _).
    + rewrite (div_positive _ _ Ht). cbn [Py.bind]. fold lo.
      eexists. split; [reflexivity|].
      destruct (max_cases (interval * (95 # 100)) lo) as [[Hc ->]|[Hc ->]];
        split; lra.
    + eexists. split; [reflexivity|]. split; lra.
Qed.

Lemma capture_turns_in_range (clock : list Q) (self : CameraManager.t)
      (times : list Q) (interval : Q) :
  0 < CameraManager.min_fps self ->
  CameraManager.min_fps self <= CameraManager.target_fps self ->
  1 / CameraManager.target_fps self <= interval ->
  interval <= 1 / CameraManager.min_fps self ->
  exists self' times' interval',
    CameraManager.capture_turns self times interval clock =
      Py.Returned (self', times', interval') /\
    CameraManager.target_fps self' = CameraManager.target_fps self /\
    CameraManager.min_fps self' = CameraManager.min_fps self /\
    1 / CameraManager.target_fps self <= interval' /\
    interval' <= 1 / CameraManager.min_fps self.
Proof.
  revert self times interval.
  induction clock as [|now rest IH]; intros self times interval Hm Hmt Hlo Hhi.
  - exists self, times, interval. repeat split; assumption.
  - cbn [CameraManager.capture_turns]. unfold CameraManager.capture_turn.
    cbn [CameraManager._update_fps CameraManager.adaptive_sampling].
    unfold CameraManager._update_fps. cbn [CameraManager.adaptive_sampling].
    set (self1 := CameraManager.mk _ _ _ _).
    set (times1 := filter _ _).
    destruct (CameraManager.adaptive_sampling self).
    + destruct (adapt_frame_rate_in_range self1 interval Hm Hmt Hlo Hhi)
        as (i1 & -> & Hlo1 & Hhi1).
      cbn [Py.bind fst snd].
      destruct (IH self1 times1 i1 Hm Hmt Hlo1 Hhi1)
        as (s' & t' & i' & -> & Ht & Hmin & Hl & Hh).
      exists s', t', i'. repeat split; assumption.
    + cbn [Py.bind fst snd].
      destruct (IH self1 times1 interval Hm Hmt Hlo Hhi)
        as (s' & t' & i' & -> & Ht & Hmin & Hl & Hh).
      exists s', t', i'. repeat split; assumption.
Qed.

(** X12: with [0 < min_fps <= target_fps], the capture loop never divides by
    zero and, whatever the times of the frames read and the frame times left
    by an earlier run, its frame interval is between [1/target_fps] and
    [1/min_fps] after every turn; the two rates are never changed. *)
Theorem capture_loop_interval_in_range
        (self : CameraManager.t) (times clock : list Q) :
  0 < CameraManager.min_fps self ->
  CameraManager.min_fps self <= CameraManager.target_fps self ->
  exists self' times' interval',
    CameraManager._capture_loop self times clock =
      Py.Returned (self', times', interval') /\
    CameraManager.target_fps self' = CameraManager.target_fps self /\
    CameraManager.min_fps self' = CameraManager.min_fps self /\
    1 / CameraManager.target_fps self <= interval' /\
    interval' <= 1 / CameraManager.min_fps self.
Proof.
  intros Hm Hmt. unfold CameraManager._capture_loop.
  rewrite div_positive by lra. cbn [Py.bind].
  apply capture_turns_in_range; try assumption.
  - lra.
  - apply inverse_antitone; assumption.
Qed.

Lemma capture_loop_interval_in_range_witness :
  exists self' times' interval',
    CameraManager._capture_loop (CameraManager.mk 30 true 15 0) []
                                [0; 1 # 10; 2 # 10] =
      Py.Returned (self', times', interval') /\
    1 # 30 <= interval' /\ interval' <= 1 # 15.
Proof.
  destruct (capture_loop_interval_in_range
              (CameraManager.mk 30 true 15 0) [] [0; 1 # 10; 2 # 10])
    as (s' & t' & i' & H & _ & _ & Hlo & Hhi).
  - reflexivity.
  - cbn. discriminate.
  - exists s', t', i'. split; [exact H|]. split; [exact Hlo|exact Hhi].
Defined.

(** ** [GestureClassifier]: [predict], its errors, and [predict_top_k] beside it *)

Lemma StronglySorted_snoc_inv {A : Type} (R : A -> A -> Prop) (l : list A) (x : A) :
  StronglySorted R (l ++ [x]) ->
  StronglySorted R l /\ Forall (fun y => R y x) l.
Proof.
  induction l as [|y l IH]; cbn; intro H; [split; constructor|].
  apply StronglySorted_inv in H. destruct H as [Hs Hy].
  destruct (IH Hs) as [Hl Hall].
  apply Forall_app in Hy. destruct Hy as [Hy1 Hy2].
  split; constructor; try assumption.
  inversion Hy2; assumption.
Qed.

(** [argmax_from] carries the first index of the greatest entry so far. *)
Lemma argmax_from_spec (rest pre : list Q) (best : nat) (best_value : Q) (x : list Q) :
  x = pre ++ rest ->
  (best < length pre)%nat ->
  nth best x 0 = best_value ->
  (forall j, (j < length pre)%nat -> nth j x 0 <= best_value) ->
  (forall j, (j < best)%nat -> nth j x 0 < best_value) ->
  let r := GestureClassifier.argmax_from (length pre) best best_value rest in
  (r < length x)%nat /\
  (forall j, (j < length x)%nat -> nth j x 0 <= nth r x 0) /\
  (forall j, (j < r)%nat -> nth j x 0 < nth r x 0).
Proof.
  revert pre best best_value.
  induction rest as [|v rest IH]; intros pre best best_value Hx Hb Hv Hle Hlt.
  - cbn. rewrite app_nil_r in Hx. subst x. rewrite Hv.
    split; [exact Hb|]. split; assumption.
  - assert (Hx' : x = (pre ++ [v]) ++ rest)
      by (rewrite <- app_assoc; exact Hx).
    assert (Hmid : nth (length pre) x 0 = v)
      by (rewrite Hx; apply nth_middle).
    assert (Hlen : length (pre ++ [v]) = S (length pre))
      by (rewrite length_app; cbn; lia).
    cbn [GestureClassifier.argmax_from].
    destruct (Py.ltb best_value v) eqn:E.
    + apply ltb_lt in E.
      specialize (IH (pre ++ [v]) (length pre) v Hx').
      rewrite Hlen in IH. apply IH.
      * lia.
      * exact Hmid.
      * intros j Hj. destruct (Nat.eq_dec j (length pre)) as [->|Hne].
        -- rewrite Hmid. lra.
        -- assert (Hj' : (j < length pre)%nat) by lia.
           specialize (Hle j Hj'). lra.
      * intros j Hj. specialize (Hle j Hj). lra.
    + apply ltb_ge in E.
      specialize (IH (pre ++ [v]) best best_value Hx').
      rewrite Hlen in IH. apply IH.
      * lia.
      * exact Hv.
      * intros j Hj. destruct (Nat.eq_dec j (length pre)) as [->|Hne].
        -- rewrite Hmid. exact E.
        -- apply Hle. lia.
      * exact Hlt.
Qed.

Lemma np_argmax_spec (x : list Q) :
  x <> [] ->
  exists r,
    GestureClassifier.np_argmax x = Py.Returned r /\
    (r < length x)%nat /\
    (forall j, (j < length x)%nat -> nth j x 0 <= nth r x 0) /\
    (forall j, (j < r)%nat -> nth j x 0 < nth r x 0).
Proof.
  destruct x as [|v rest]; [congruence|]. intros _.
  eexists. split; [reflexivity|].
  apply (argmax_from_spec rest [v] 0%nat v (v :: rest)).
  - reflexivity.
  - cbn. lia.
  - reflexivity.
  - intros j Hj. cbn in Hj. assert (j = 0%nat) by lia. subst j. cbn. lra.
  - intros j Hj. lia.
Qed.

(** What [predict] returns with a model, a non-empty output and enough
    labels. *)
Lemma predict_returns (_softmax : list Q -> list Q) (self : GestureClassifier.t)
      (run : GestureClassifier.session_t) (sequence : GestureClassifier.window) :
  GestureClassifier.session self = Some run ->
  let probs := GestureClassifier.probabilities _softmax run sequence in
  probs <> [] ->
  (length probs <= length (GestureClassifier.labels self))%nat ->
  exists r,
    GestureClassifier.predict _softmax self sequence =
      Py.Returned (nth r (GestureClassifier.labels self) ""%string, nth r probs 0) /\
    (r < length probs)%nat /\
    (forall j, (j < length probs)%nat -> nth j probs 0 <= nth r probs 0) /\
    (forall j, (j < r)%nat -> nth j probs 0 < nth r probs 0).
Proof.
  intros Hs probs Hne Hlab.
  destruct (np_argmax_spec probs Hne) as (r & Hr & Hlt & Hmax & Hfirst).
  exists r. split; [|repeat split; assumption].
  unfold GestureClassifier.predict. rewrite Hs. fold probs.
  clearbody probs. destruct probs as [|q probs']; [congruence|].
  rewrite Hr.
  cbn [Py.bind]. unfold GestureClassifier.label_at.
  rewrite (nth_error_nth' _ ""%string) by lia. reflexivity.
Qed.

(** X13: with a model loaded, a non-empty output vector and a label for
    every class, [predict] returns the label and the probability at the
    first index where the probability is greatest: no class has a greater
    probability, and every class before it has a smaller one. *)
Theorem predict_returns_first_maximum
        (_softmax : list Q -> list Q) (self : GestureClassifier.t)
        (run : GestureClassifier.session_t) (sequence : GestureClassifier.window) :
  GestureClassifier.session self = Some run ->
  let probs := GestureClassifier.probabilities _softmax run sequence in
  probs <> [] ->
  (length probs <= length (GestureClassifier.labels self))%nat ->
  exists r,
    GestureClassifier.predict _softmax self sequence =
      Py.Returned (nth r (GestureClassifier.labels self) ""%string, nth r probs 0) /\
    (r < length probs)%nat /\
    (forall j, (j < length probs)%nat -> nth j probs 0 <= nth r probs 0) /\
    (forall j, (j < r)%nat -> nth j probs 0 < nth r probs 0).
Proof. apply predict_returns. Qed.

Lemma predict_returns_first_maximum_witness :
  let clf := GestureClassifier.mk (Some (fun _ => [2 # 10; 4 # 10; 4 # 10]))
                                  ["a"; "b"; "c"]%string "asl_base" in
  exists r,
    GestureClassifier.predict (fun x => x) clf [] =
      Py.Returned (nth r ["a"; "b"; "c"]%string ""%string,
                   nth r [2 # 10; 4 # 10; 4 # 10] 0) /\
    (forall j, (j < r)%nat -> nth j [2 # 10; 4 # 10; 4 # 10] 0 <
                              nth r [2 # 10; 4 # 10; 4 # 10] 0).
Proof.
  intro clf.
  destruct (predict_returns_first_maximum
              (fun x => x) clf (fun _ => [2 # 10; 4 # 10; 4 # 10]) [])
    as (r & Hr & _ & _ & Hfirst).
  - reflexivity.
  - cbn. discriminate.
  - cbn. lia.
  - exists r. split; [exact Hr|exact Hfirst].
Defined.

(** X14: the errors of [predict] and [predict_top_k]: without a session
    both raise [RuntimeError("No model loaded")]; on an empty output vector
    both raise [ValueError] (its sum is not close to 1, and [np.max] in
    [_softmax] raises); and when the labels are fewer than the classes and
    the greatest probability is beyond them, [predict] raises
    [IndexError]. *)
Theorem predict_errors
        (_softmax : list Q -> list Q) (self : GestureClassifier.t)
        (sequence : GestureClassifier.window) :
  (GestureClassifier.session self = None ->
   forall k,
     GestureClassifier.predict _softmax self sequence =
       Py.Raised (Py.RuntimeError "No model loaded") /\
     GestureClassifier.predict_top_k _softmax self sequence k =
       Py.Raised (Py.RuntimeError "No model loaded")) /\
  (forall run,
      GestureClassifier.session self = Some run ->
      run sequence = [] ->
      forall k,
        GestureClassifier.predict _softmax self sequence =
          Py.Raised Py.ValueError /\
        GestureClassifier.predict_top_k _softmax self sequence k =
          Py.Raised Py.ValueError) /\
  (forall run r,
      GestureClassifier.session self = Some run ->
      GestureClassifier.np_argmax
        (GestureClassifier.probabilities _softmax run sequence) = Py.Returned r ->
      (length (GestureClassifier.labels self) <= r)%nat ->
      GestureClassifier.predict _softmax self sequence = Py.Raised Py.IndexError).
Proof.
  split; [|split].
  - intros Hs k. unfold GestureClassifier.predict, GestureClassifier.predict_top_k.
    rewrite Hs. split; reflexivity.
  - intros run Hs Hp k.
    unfold GestureClassifier.predict, GestureClassifier.predict_top_k,
      GestureClassifier.probabilities.
    rewrite Hs, Hp. split; reflexivity.
  - intros run r Hs Hr Hlen.
    unfold GestureClassifier.predict. rewrite Hs.
    destruct (GestureClassifier.probabilities _softmax run sequence)
      as [|q probs'] eqn:Ep; [discriminate Hr|].
    rewrite Hr. cbn [Py.bind].
    unfold GestureClassifier.label_at.
    replace (nth_error (GestureClassifier.labels self) r) with (@None string);
      [reflexivity|].
    symmetry. apply nth_error_None. exact Hlen.
Qed.

Lemma predict_errors_witness :
  GestureClassifier.predict
    (fun x => x) (GestureClassifier.mk None ["a"]%string "asl_base") [] =
    Py.Raised (Py.RuntimeError "No model loaded") /\
  GestureClassifier.predict_top_k
    (fun x => x)
    (GestureClassifier.mk (Some (fun _ => [])) ["a"]%string "asl_base") [] 5 =
    Py.Raised Py.ValueError /\
  GestureClassifier.predict
    (fun x => x)
    (GestureClassifier.mk (Some (fun _ => [1 # 4; 3 # 4])) ["a"]%string "asl_base")
    [] = Py.Raised Py.IndexError.
Proof.
  split; [|split].
  - apply (proj1 (predict_errors
                    (fun x => x)
                    (GestureClassifier.mk None ["a"]%string "asl_base") [])
                 eq_refl 5%Z).
  - apply (proj1 (proj2 (predict_errors
                           (fun x => x)
                           (GestureClassifier.mk (Some (fun _ => []))
                                                 ["a"]%string "asl_base") []))
                 (fun _ => []) eq_refl eq_refl 5%Z).
  - apply (proj2 (proj2 (predict_errors
                           (fun x => x)
                           (GestureClassifier.mk (Some (fun _ => [1 # 4; 3 # 4]))
                                                 ["a"]%string "asl_base") []))
                 (fun _ => [1 # 4; 3 # 4]) 1%nat).
    + reflexivity.
    + reflexivity.
    + cbn. lia.
Defined.

(** The single index [predict_top_k] keeps for [k = 1]: the last index where
    the probability is greatest. *)
Lemma top_index_is_last_maximum (probs : list Q) :
  probs <> [] ->
  exists m,
    GestureClassifier.top_indices probs 1 = [m] /\
    (m < length probs)%nat /\
    (forall j, (j < length probs)%nat -> nth j probs 0 <= nth m probs 0) /\
    (forall j, (j < length probs)%nat -> nth j probs 0 == nth m probs 0 ->
               (j <= m)%nat).
Proof.
  intro Hne.
  assert (Hperm := argsort_perm probs).
  assert (Hsorted := argsort_sorted probs).
  destruct (rev (GestureClassifier.np_argsort probs)) as [|m r] eqn:Er.
  { apply (f_equal (@length nat)) in Er.
    rewrite length_rev, (Permutation_length Hperm), length_seq in Er.
    destruct probs; [congruence|discriminate]. }
  assert (Hs : GestureClassifier.np_argsort probs = rev r ++ [m]).
  { rewrite <- (rev_involutive (GestureClassifier.np_argsort probs)), Er.
    reflexivity. }
  rewrite Hs in Hperm, Hsorted.
  apply StronglySorted_snoc_inv in Hsorted. destruct Hsorted as [_ Hall].
  assert (Hin : forall j, (j < length probs)%nat -> j = m \/ In j (rev r)).
  { intros j Hj.
    assert (In j (rev r ++ [m])).
    { eapply Permutation_in; [symmetry; exact Hperm|]. apply in_seq. lia. }
    apply in_app_or in H. destruct H as [H|[H|[]]]; auto. }
  exists m. split.
  { unfold GestureClassifier.top_indices, Py.slice_from_neg.
    change (0 <? 1)%Z with true. cbv iota.
    rewrite Hs.
    change (Z.to_nat 1) with (length [m]).
    rewrite last_n_tail. reflexivity. }
  split.
  { assert (In m (seq 0 (length probs))).
    { eapply Permutation_in; [exact Hperm|]. apply in_or_app. right. left.
      reflexivity. }
    apply in_seq in H. lia. }
  rewrite Forall_forall in Hall.
  split; intros j Hj.
  - destruct (Hin j Hj) as [->|Hr]; [lra|].
    destruct (Hall j Hr) as [H|[H _]]; lra.
  - intro Heq. destruct (Hin j Hj) as [->|Hr]; [lia|].
    destruct (Hall j Hr) as [H|[_ H]]; [lra|lia].
Qed.

(** X15: with a model loaded, a non-empty output vector and a label for
    every class, [predict] and [predict_top_k] with [k = 1] agree on the
    probability; [predict] takes the first class of that probability and
    [predict_top_k] the last, so the two labels are those of one class when
    no other class reaches the greatest probability. *)
Theorem predict_agrees_with_top_1
        (_softmax : list Q -> list Q) (self : GestureClassifier.t)
        (run : GestureClassifier.session_t) (sequence : GestureClassifier.window) :
  GestureClassifier.session self = Some run ->
  let probs := GestureClassifier.probabilities _softmax run sequence in
  let labels := GestureClassifier.labels self in
  probs <> [] ->
  (length probs <= length labels)%nat ->
  exists r m,
    GestureClassifier.predict _softmax self sequence =
      Py.Returned (nth r labels ""%string, nth r probs 0) /\
    GestureClassifier.predict_top_k _softmax self sequence 1 =
      Py.Returned [(nth m labels ""%string, nth m probs 0)] /\
    nth r probs 0 == nth m probs 0 /\
    (r <= m)%nat /\
    ((forall j, (j < length probs)%nat -> j <> r ->
                nth j probs 0 < nth r probs 0) -> r = m).
Proof.
  intros Hs probs labels Hne Hlab.
  destruct (predict_returns _softmax self run sequence Hs Hne Hlab)
    as (r & Hr & Hrlt & Hrmax & Hrfirst).
  destruct (top_index_is_last_maximum probs Hne)
    as (m & Hm & Hmlt & Hmmax & Hmlast).
  fold probs in Hr, Hrlt, Hrmax, Hrfirst.
  assert (Heq : nth r probs 0 == nth m probs 0).
  { specialize (Hrmax m Hmlt). specialize (Hmmax r Hrlt). lra. }
  exists r, m. split; [exact Hr|]. split.
  { rewrite (predict_top_k_nonempty _ _ run) by assumption. fold probs.
    rewrite Hm.
    cbn [GestureClassifier.label_all]. unfold GestureClassifier.label_at.
    rewrite (nth_error_nth' _ ""%string) by (fold labels; lia).
    reflexivity. }
  split; [exact Heq|]. split.
  - apply Hmlast; assumption.
  - intro Huniq. destruct (Nat.eq_dec r m) as [E|E]; [exact E|].
    specialize (Huniq m Hmlt (fun H => E (eq_sym H))). lra.
Qed.

Lemma predict_agrees_with_top_1_witness :
  let probs := [2 # 10; 4 # 10; 4 # 10] in
  let clf := GestureClassifier.mk (Some (fun _ => probs))
                                  ["a"; "b"; "c"]%string "asl_base" in
  exists r m,
    GestureClassifier.predict (fun x => x) clf [] =
      Py.Returned (nth r ["a"; "b"; "c"]%string ""%string, nth r probs 0) /\
    GestureClassifier.predict_top_k (fun x => x) clf [] 1 =
      Py.Returned [(nth m ["a"; "b"; "c"]%string ""%string, nth m probs 0)] /\
    (r <= m)%nat.
Proof.
  intros probs clf.
  destruct (predict_agrees_with_top_1 (fun x => x) clf (fun _ => probs) [])
    as (r & m & Hr & Hm & _ & Hle & _).
  - reflexivity.
  - cbn. discriminate.
  - cbn. lia.
  - exists r, m. split; [exact Hr|]. split; [exact Hm|exact Hle].
Defined.

Lemma map_nth_pairs (labels : list string) (probs : list Q) :
  (length probs <= length labels)%nat ->
  map (fun i => (nth i labels ""%string, nth i probs 0)) (seq 0 (length probs)) =
  combine labels probs.
Proof.
  revert labels. induction probs as [|q probs IH]; intros labels Hlen.
  - destruct labels; reflexivity.
  - destruct labels as [|l labels]; [cbn in Hlen; lia|].
    cbn [length seq map combine nth]. f_equal.
    rewrite <- seq_shift, map_map. cbn [nth].
    apply IH. cbn in Hlen. lia.
Qed.

(** X16: with a model loaded whose output vector is not empty and a label
    for every class, asking for at least as many results as there are
    classes returns every class once, with its own probability: the result
    is a rearrangement of the labels paired with the probabilities. *)
Theorem predict_top_k_all_classes
        (_softmax : list Q -> list Q) (self : GestureClassifier.t)
        (run : GestureClassifier.session_t)
        (sequence : GestureClassifier.window) (k : Z) :
  GestureClassifier.session self = Some run ->
  let probs := GestureClassifier.probabilities _softmax run sequence in
  probs <> [] ->
  (Z.of_nat (length probs) <= k)%Z ->
  (length probs <= length (GestureClassifier.labels self))%nat ->
  exists result,
    GestureClassifier.predict_top_k _softmax self sequence k = Py.Returned result /\
    Permutation result (combine (GestureClassifier.labels self) probs) /\
    length result = length probs.
Proof.
  intros Hs probs Hne Hall Hlab.
  assert (Hk : (1 <= k)%Z).
  { destruct probs; [congruence|]. cbn [length] in Hall. lia. }
  assert (Htop : GestureClassifier.top_indices probs k =
                 rev (GestureClassifier.np_argsort probs)).
  { unfold GestureClassifier.top_indices, Py.slice_from_neg.
    replace (0 <? k)%Z with true by (symmetry; apply Z.ltb_lt; lia).
    rewrite last_n_all; [reflexivity|].
    rewrite (Permutation_length (argsort_perm probs)), length_seq. lia. }
  assert (Hperm : Permutation (GestureClassifier.top_indices probs k)
                              (seq 0 (length probs))).
  { rewrite Htop, <- Permutation_rev. apply argsort_perm. }
  eexists. split.
  { rewrite (predict_top_k_nonempty _ _ run) by assumption. fold probs.
    apply label_all_in_range.
    eapply Permutation_Forall; [symmetry; exact Hperm|].
    apply Forall_forall. intros i Hi. apply in_seq in Hi. lia. }
  split.
  - rewrite <- (map_nth_pairs _ _ Hlab). apply Permutation_map. exact Hperm.
  - rewrite length_map, (Permutation_length Hperm), length_seq. reflexivity.
Qed.

Lemma predict_top_k_all_classes_witness :
  let probs := [2 # 10; 5 # 10; 3 # 10] in
  let clf := GestureClassifier.mk (Some (fun _ => probs))
                                  ["a"; "b"; "c"]%string "asl_base" in
  exists result,
    GestureClassifier.predict_top_k (fun x => x) clf [] 5 = Py.Returned result /\
    Permutation result [("a"%string, 2 # 10); ("b"%string, 5 # 10);
                        ("c"%string, 3 # 10)].
Proof.
  intros probs clf.
  destruct (predict_top_k_all_classes (fun x => x) clf (fun _ => probs) [] 5)
    as (result & Hr & Hperm & _).
  - reflexivity.
  - cbn. discriminate.
  - cbn. lia.
  - cbn. lia.
  - exists result. split; [exact Hr|exact Hperm].
Defined.



(** ** [process_frame]: what a frame changes, and [ConnectionManager] *)

Section ProcessFrameFacts.

Variable frame_t : Type.
Variable imdecode : string -> option frame_t.
Variable extract : frame_t -> option TemporalBuffer.landmarks.
Variable _softmax : list Q -> list Q.

Local Abbreviation process_frame :=
  (Server.process_frame frame_t imdecode extract _softmax).
Local Abbreviation serve := (Server.serve frame_t imdecode extract _softmax).
Local Abbreviation detected := (Server.detected frame_t imdecode extract).

(** A frame that does not reach the buffer changes nothing and is no
    recognition. *)
Lemma process_frame_undetected (app : Server.app_state) (frame_data : string) :
  detected frame_data = false ->
  process_frame app frame_data = (app, Py.Returned None) \/
  process_frame app frame_data = (app, Py.Returned (Some Server.no_detection)).
Proof.
  unfold Server.detected, Server.process_frame.
  destruct (imdecode frame_data) as [frame|]; [|left; reflexivity].
  destruct (extract frame); [discriminate|right; reflexivity].
Qed.

End ProcessFrameFacts.

(** X18: whatever the frame and however the call ends, [process_frame]
    leaves the classifier, the window size of the buffer and the threshold and
    smoothing factor of the filter as they were. *)
Theorem process_frame_keeps_settings
        (frame_t : Type) (imdecode : string -> option frame_t)
        (extract : frame_t -> option TemporalBuffer.landmarks)
        (_softmax : list Q -> list Q)
        (app : Server.app_state) (frame_data : string) :
  let app' := fst (Server.process_frame frame_t imdecode extract _softmax
                                        app frame_data) in
  Server.classifier app' = Server.classifier app /\
  TemporalBuffer.window_size (Server.temporal_buffer app') =
    TemporalBuffer.window_size (Server.temporal_buffer app) /\
  ConfidenceFilter.threshold (Server.confidence_filter app') =
    ConfidenceFilter.threshold (Server.confidence_filter app) /\
  ConfidenceFilter.smoothing (Server.confidence_filter app') =
    ConfidenceFilter.smoothing (Server.confidence_filter app).
Proof.
  cbv zeta. unfold Server.process_frame.
  destruct (imdecode frame_data) as [frame|]; [|repeat split].
  destruct (extract frame) as [lm|]; [|repeat split].
  rewrite add_returns.
  match goal with
  | |- context [TemporalBuffer.get_sequence ?b] =>
      assert (Hpure := get_sequence_pure b);
      destruct (TemporalBuffer.get_sequence b) as [buf2 got]
  end.
  cbn [fst] in Hpure. subst buf2.
  destruct got as [[sequence|]|e]; [|repeat split|repeat split].
  cbn [Server.classifier Server.confidence_filter Server.temporal_buffer].
  destruct (GestureClassifier.predict _softmax (Server.classifier app) sequence)
    as [[prediction c]|e]; [|repeat split].
  destruct (filter_settings (Server.confidence_filter app) prediction c)
    as [Ht Hs].
  destruct (ConfidenceFilter.filter (Server.confidence_filter app) prediction c)
    as [filter1 [s|]]; cbn [fst] in Ht, Hs; repeat split; assumption.
Qed.

(** X19: [process_frame] answers [buffering] exactly when the frame decodes,
    landmarks are found, and the buffer, these landmarks counted, holds fewer
    vectors than the window; the landmarks are then in the buffer, and the
    classifier and the filter have not been called: the filter is as it
    was. *)
Theorem process_frame_buffering
        (frame_t : Type) (imdecode : string -> option frame_t)
        (extract : frame_t -> option TemporalBuffer.landmarks)
        (_softmax : list Q -> list Q)
        (app app' : Server.app_state) (frame_data : string) :
  Server.process_frame frame_t imdecode extract _softmax app frame_data =
    (app', Py.Returned (Some Server.buffering))
  <->
  exists frame landmarks,
    imdecode frame_data = Some frame /\
    extract frame = Some landmarks /\
    (S (length (TemporalBuffer.buffer (Server.temporal_buffer app))) <
     TemporalBuffer.window_size (Server.temporal_buffer app))%nat /\
    app' =
      Server.mk
        (TemporalBuffer.mk
           (TemporalBuffer.window_size (Server.temporal_buffer app))
           (TemporalBuffer.buffer (Server.temporal_buffer app) ++ [landmarks])
           (match TemporalBuffer.feature_size (Server.temporal_buffer app) with
            | None => Some (length landmarks)
            | Some n => Some n
            end))
        (Server.classifier app) (Server.confidence_filter app).
Proof.
  unfold Server.process_frame. split.
  - destruct (imdecode frame_data) as [frame|] eqn:Edec; [|discriminate].
    destruct (extract frame) as [lm|] eqn:Eext; [|discriminate].
    rewrite add_returns. unfold TemporalBuffer.get_sequence.
    cbn [TemporalBuffer.buffer TemporalBuffer.window_size].
    rewrite deque_append_length.
    destruct (_ <? _)%nat eqn:Elt.
    + intro H. injection H as <-. apply Nat.ltb_lt in Elt.
      exists frame, lm. split; [reflexivity|]. split; [exact Eext|].
      split; [lia|].
      rewrite deque_append_room by lia. reflexivity.
    + destruct (TemporalBuffer.np_array _) as [sequence|e]; cbn [Py.bind];
        [|discriminate].
      cbn [Server.classifier Server.confidence_filter Server.temporal_buffer].
      destruct (GestureClassifier.predict _ _ _) as [[prediction c]|e];
        [|discriminate].
      destruct (ConfidenceFilter.filter _ _ _) as [filter1 [s|]]; discriminate.
  - intros (frame & lm & Hdec & Hext & Hlt & ->).
    rewrite Hdec, Hext, add_returns. unfold TemporalBuffer.get_sequence.
    cbn [TemporalBuffer.buffer TemporalBuffer.window_size].
    rewrite deque_append_length.
    replace (_ <? _)%nat with true by (symmetry; apply Nat.ltb_lt; lia).
    rewrite deque_append_room by lia. reflexivity.
Qed.


Section ConnectionFacts.

Import ConnectionManager.

Lemma list_remove_absent (x : websocket) (l : list websocket) :
  ~ In x l -> list_remove x l = Py.Raised Py.ValueError.
Proof.
  induction l as [|y l IH]; intro H; [reflexivity|]. cbn.
  destruct (Nat.eqb_spec y x) as [->|Hne].
  - exfalso. apply H. left. reflexivity.
  - rewrite IH; [reflexivity|]. intro Hin. apply H. right. exact Hin.
Qed.

Lemma list_remove_present (x : websocket) (l : list websocket) :
  In x l ->
  exists before after,
    l = before ++ x :: after /\ ~ In x before /\
    list_remove x l = Py.Returned (before ++ after).
Proof.
  induction l as [|y l IH]; intro H; [destruct H|]. cbn.
  destruct (Nat.eqb_spec y x) as [->|Hne].
  - exists [], l. repeat split. intros [].
  - destruct H as [H|H]; [congruence|].
    destruct (IH H) as (before & after & -> & Hnot & ->).
    exists (y :: before), after. repeat split.
    intros [E|Hin]; [congruence|exact (Hnot Hin)].
Qed.

Lemma list_remove_appended (x : websocket) (l : list websocket) :
  ~ In x l -> list_remove x (l ++ [x]) = Py.Returned l.
Proof.
  induction l as [|y l IH]; intro H; cbn.
  - rewrite Nat.eqb_refl. reflexivity.
  - destruct (Nat.eqb_spec y x) as [->|Hne].
    + exfalso. apply H. left. reflexivity.
    + rewrite IH; [reflexivity|]. intro Hin. apply H. right. exact Hin.
Qed.

End ConnectionFacts.

(** X21: [disconnect] raises [ValueError] for a socket that is not
    connected and otherwise removes its first entry, the other connections
    keeping their order; a [connect] followed by the [disconnect] of the
    same socket gives the connections back when the socket was not among
    them; and [broadcast] reaches every connection on which the send does
    not fail. *)
Theorem connection_manager_round_trip
        (self : ConnectionManager.t) (ws : ConnectionManager.websocket) :
  (~ In ws (ConnectionManager.active_connections self) ->
   ConnectionManager.disconnect self ws = Py.Raised Py.ValueError /\
   ConnectionManager.disconnect (ConnectionManager.connect self ws) ws =
     Py.Returned self) /\
  (In ws (ConnectionManager.active_connections self) ->
   exists before after,
     ConnectionManager.active_connections self = before ++ ws :: after /\
     ~ In ws before /\
     ConnectionManager.disconnect self ws =
       Py.Returned (ConnectionManager.mk (before ++ after))) /\
  (forall send_fails c,
      In c (ConnectionManager.broadcast self send_fails) <->
      In c (ConnectionManager.active_connections self) /\ send_fails c = false).
Proof.
  split; [|split].
  - intro H. unfold ConnectionManager.disconnect, ConnectionManager.connect.
    cbn [ConnectionManager.active_connections].
    rewrite list_remove_absent, list_remove_appended by exact H.
    split; [reflexivity|]. destruct self; reflexivity.
  - intro H. unfold ConnectionManager.disconnect.
    destruct (list_remove_present _ _ H) as (before & after & Hl & Hnot & ->).
    exists before, after. repeat split; assumption.
  - intros send_fails c. unfold ConnectionManager.broadcast.
    rewrite filter_In, negb_true_iff. reflexivity.
Qed.

Lemma connection_manager_round_trip_witness :
  let self := ConnectionManager.mk [1; 2]%nat in
  ConnectionManager.disconnect self 3%nat = Py.Raised Py.ValueError /\
  ConnectionManager.disconnect (ConnectionManager.connect self 3%nat) 3%nat =
    Py.Returned self /\
  exists before after,
    ConnectionManager.disconnect self 1%nat =
      Py.Returned (ConnectionManager.mk (before ++ after)).
Proof.
  intro self.
  destruct (connection_manager_round_trip self 3%nat) as (Habsent & _ & _).
  destruct (connection_manager_round_trip self 1%nat) as (_ & Hpresent & _).
  destruct Habsent as [H1 H2].
  - cbn. intros [H|[H|[]]]; discriminate.
  - split; [exact H1|]. split; [exact H2|].
    destruct Hpresent as (before & after & _ & _ & H).
    + cbn. left. reflexivity.
    + exists before, after. exact H.
Defined.

(** ** [LandmarkExtractor]: the length of the feature vector *)

Lemma flat_map_length_const {A B : Type} (f : A -> list B) (k : nat) (l : list A) :
  Forall (fun a => length (f a) = k) l ->
  length (flat_map f l) = (k * length l)%nat.
Proof.
  induction 1 as [|a l Ha _ IH]; cbn; [lia|].
  rewrite length_app, Ha, IH. lia.
Qed.

Section ExtractorFacts.

Import LandmarkExtractor.

Lemma hand_values_length (hand : list landmark) :
  length (flat_map (fun l => [x l; y l; z l]) hand) = (3 * length hand)%nat.
Proof.
  apply flat_map_length_const. apply Forall_forall. intros; reflexivity.
Qed.

Lemma extract_hands_length (result : detections) :
  well_formed result -> length (_extract_hands result) = 126%nat.
Proof.
  intros (Hh & _ & _). unfold _extract_hands.
  rewrite (flat_map_length_const _ 63); [reflexivity|].
  apply Forall_forall. intros i _.
  destruct (multi_hand_landmarks result) as [hands|] eqn:E;
    [|apply repeat_length].
  destruct (nth_error hands i) as [hand|] eqn:En; [|apply repeat_length].
  rewrite hand_values_length.
  specialize (Hh hands eq_refl). rewrite Forall_forall in Hh.
  rewrite (Hh hand (nth_error_In _ _ En)). reflexivity.
Qed.

Lemma extract_pose_length (result : detections) :
  well_formed result -> length (_extract_pose result) = 100%nat.
Proof.
  intros (_ & Hp & _). unfold _extract_pose.
  destruct (pose_landmarks result) as [pose|] eqn:E; [|apply repeat_length].
  rewrite (flat_map_length_const _ 4);
    [|apply Forall_forall; intros; reflexivity].
  rewrite length_firstn, (Hp pose eq_refl). reflexivity.
Qed.

Lemma face_points_length (face : list landmark) (idxs : list nat) :
  Forall (fun idx => (idx < length face)%nat) idxs ->
  exists values,
    face_points face idxs = Py.Returned values /\
    length values = (3 * length idxs)%nat.
Proof.
  induction 1 as [|idx idxs Hidx _ IH]; cbn [face_points].
  - exists []. split; reflexivity.
  - destruct (nth_error face idx) as [l|] eqn:E.
    + destruct IH as (values & -> & Hlen). cbn [Py.bind].
      eexists. split; [reflexivity|]. cbn [length app]. lia.
    + apply nth_error_None in E. lia.
Qed.

Lemma extract_face_length (result : detections) :
  well_formed result ->
  exists values,
    _extract_face result = Py.Returned values /\ length values = 24%nat.
Proof.
  intros (_ & _ & Hf). unfold _extract_face.
  destruct (multi_face_landmarks result) as [[|face faces]|] eqn:E.
  - eexists. split; [reflexivity|]. apply repeat_length.
  - specialize (Hf _ eq_refl). inversion Hf as [|? ? Hface _]; subst.
    destruct (face_points_length face KEY_POINTS) as (values & Hv & Hlen).
    + rewrite Hface. unfold KEY_POINTS, FACE_LANDMARKS.
      repeat constructor; lia.
    + exists values. split; [exact Hv|]. rewrite Hlen. reflexivity.
  - eexists. split; [reflexivity|]. apply repeat_length.
Qed.

End ExtractorFacts.



(** ** Dictionaries: lookup after an assignment and after a deletion *)

Section DictFacts.

Context {V : Type}.

Lemma dict_get_set_same (d : PyDict.t V) (k : string) (v : V) :
  PyDict.get (PyDict.set d k v) k = Some v.
Proof.
  induction d as [|[k' v'] d IH]; cbn.
  - rewrite String.eqb_refl. reflexivity.
  - destruct (String.eqb k' k) eqn:E; cbn.
    + rewrite String.eqb_refl. reflexivity.
    + rewrite E. exact IH.
Qed.

Lemma dict_get_set_other (d : PyDict.t V) (k k' : string) (v : V) :
  k' <> k -> PyDict.get (PyDict.set d k v) k' = PyDict.get d k'.
Proof.
  intro Hne. induction d as [|[k0 v0] d IH]; cbn.
  - destruct (String.eqb_spec k k'); [congruence|reflexivity].
  - destruct (String.eqb_spec k0 k) as [->|H0]; cbn.
    + destruct (String.eqb_spec k k'); [congruence|].
      reflexivity.
    + destruct (String.eqb k0 k'); [reflexivity|exact IH].
Qed.

Lemma dict_get_del_same (d : PyDict.t V) (k : string) :
  PyDict.get (PyDict.del d k) k = None.
Proof.
  induction d as [|[k' v'] d IH]; cbn; [reflexivity|].
  destruct (String.eqb k' k) eqn:E; cbn; [exact IH|].
  rewrite E. exact IH.
Qed.

Lemma dict_get_del_other (d : PyDict.t V) (k k' : string) :
  k' <> k -> PyDict.get (PyDict.del d k) k' = PyDict.get d k'.
Proof.
  intro Hne. induction d as [|[k0 v0] d IH]; cbn; [reflexivity|].
  destruct (String.eqb_spec k0 k) as [->|H0]; cbn.
  - destruct (String.eqb_spec k k'); [congruence|exact IH].
  - destruct (String.eqb k0 k'); [reflexivity|exact IH].
Qed.

Lemma dict_set_Forall (P : string * V -> Prop) (d : PyDict.t V) (k : string) (v : V) :
  Forall P d -> P (k, v) -> Forall P (PyDict.set d k v).
Proof.
  intros Hd Hv. induction Hd as [|[k' v'] d Hx Hd IH]; cbn.
  - constructor; [exact Hv|constructor].
  - destruct (String.eqb k' k); constructor; assumption.
Qed.

Lemma dict_get_In (d : PyDict.t V) (k : string) (v : V) :
  PyDict.get d k = Some v -> In (k, v) d.
Proof.
  induction d as [|[k' v'] d IH]; cbn; [discriminate|].
  destruct (String.eqb_spec k' k) as [->|Hne].
  - intro H. injection H as ->. left. reflexivity.
  - intro H. right. apply IH, H.
Qed.

Lemma dict_contains_set (d : PyDict.t V) (k k' : string) (v : V) :
  PyDict.contains (PyDict.set d k v) k' =
  (String.eqb k k' || PyDict.contains d k')%bool.
Proof.
  unfold PyDict.contains.
  destruct (String.eqb_spec k k') as [->|Hne].
  - rewrite dict_get_set_same. reflexivity.
  - rewrite dict_get_set_other by congruence. reflexivity.
Qed.

Lemma dict_contains_del (d : PyDict.t V) (k k' : string) :
  PyDict.contains (PyDict.del d k) k' =
  (negb (String.eqb k k') && PyDict.contains d k')%bool.
Proof.
  unfold PyDict.contains.
  destruct (String.eqb_spec k k') as [->|Hne].
  - rewrite dict_get_del_same. reflexivity.
  - rewrite dict_get_del_other by congruence. reflexivity.
Qed.

End DictFacts.

(** ** [PerformanceMonitor]: timers and counters *)

(** The deque of a metric after a duration is recorded. *)
Lemma stop_timer_started (self : PerformanceMonitor.t) (name : string)
      (started now : Q) :
  PyDict.get (PerformanceMonitor._start_times self) name = Some started ->
  let earlier :=
    match PyDict.get (PerformanceMonitor._timings self) name with
    | Some deque => deque
    | None => []
    end in
  let self' := fst (PerformanceMonitor.stop_timer self name now) in
  snd (PerformanceMonitor.stop_timer self name now) = Some (now - started) /\
  PyDict.get (PerformanceMonitor._timings self') name =
    Some (Py.deque_append (PerformanceMonitor.window_size self) earlier
                          (now - started)) /\
  (forall other, other <> name ->
     PyDict.get (PerformanceMonitor._timings self') other =
     PyDict.get (PerformanceMonitor._timings self) other) /\
  PyDict.get (PerformanceMonitor._start_times self') name = None /\
  (forall other, other <> name ->
     PyDict.get (PerformanceMonitor._start_times self') other =
     PyDict.get (PerformanceMonitor._start_times self) other) /\
  PerformanceMonitor._counters self' = PerformanceMonitor._counters self /\
  PerformanceMonitor.window_size self' = PerformanceMonitor.window_size self.
Proof.
  intros Hs earlier self'. unfold self', earlier, PerformanceMonitor.stop_timer.
  rewrite Hs. cbn [fst snd]. unfold PyDict.contains.
  destruct (PyDict.get (PerformanceMonitor._timings self) name) as [deque|] eqn:E;
    cbn [negb].
  - rewrite E. cbn.
    repeat split.
    + apply dict_get_set_same.
    + intros other Hne. apply dict_get_set_other. exact Hne.
    + apply dict_get_del_same.
    + intros other Hne. apply dict_get_del_other. exact Hne.
  - rewrite dict_get_set_same. cbn.
    repeat split.
    + apply dict_get_set_same.
    + intros other Hne. rewrite !dict_get_set_other by exact Hne. reflexivity.
    + apply dict_get_del_same.
    + intros other Hne. apply dict_get_del_other. exact Hne.
Qed.

(** X23: a timer started at [t0] (the latest start counts) and stopped at
    [t1] returns [t1 - t0], appends it to the timings of its name, leaves the
    other timings, the other running timers and the counters alone and is no
    longer running: stopping it again returns [None] and changes nothing, as
    does stopping a timer that was never started. *)
Theorem timer_start_stop
        (self : PerformanceMonitor.t) (name : string) (t0 t1 t2 : Q) :
  let started := PerformanceMonitor.start_timer self name t0 in
  let stopped := fst (PerformanceMonitor.stop_timer started name t1) in
  snd (PerformanceMonitor.stop_timer started name t1) = Some (t1 - t0) /\
  PyDict.get (PerformanceMonitor._timings stopped) name =
    Some (Py.deque_append
            (PerformanceMonitor.window_size self)
            (match PyDict.get (PerformanceMonitor._timings self) name with
             | Some deque => deque
             | None => []
             end)
            (t1 - t0)) /\
  (forall other, other <> name ->
     PyDict.get (PerformanceMonitor._timings stopped) other =
       PyDict.get (PerformanceMonitor._timings self) other /\
     PyDict.get (PerformanceMonitor._start_times stopped) other =
       PyDict.get (PerformanceMonitor._start_times self) other) /\
  PerformanceMonitor._counters stopped = PerformanceMonitor._counters self /\
  PerformanceMonitor.stop_timer stopped name t2 = (stopped, None) /\
  (PyDict.get (PerformanceMonitor._start_times self) name = None ->
   PerformanceMonitor.stop_timer self name t2 = (self, None)).
Proof.
  intros started stopped.
  assert (Hs : PyDict.get (PerformanceMonitor._start_times started) name = Some t0)
    by apply dict_get_set_same.
  destruct (stop_timer_started started name t0 t1 Hs)
    as (Hr & Ht & Hto & Hgone & Hso & Hc & _).
  fold stopped in Ht, Hto, Hgone, Hso, Hc.
  split; [exact Hr|]. split; [exact Ht|]. split; [|split; [exact Hc|split]].
  - intros other Hne. split; [apply Hto; exact Hne|].
    rewrite (Hso other Hne). apply dict_get_set_other. exact Hne.
  - unfold PerformanceMonitor.stop_timer. rewrite Hgone. reflexivity.
  - intro Hnone. unfold PerformanceMonitor.stop_timer. rewrite Hnone. reflexivity.
Qed.

Lemma timer_start_stop_witness :
  PerformanceMonitor.stop_timer
    (PerformanceMonitor.init 100) "frame" 5 =
  (PerformanceMonitor.init 100, None).
Proof.
  apply (proj2 (proj2 (proj2 (proj2 (proj2
           (timer_start_stop (PerformanceMonitor.init 100) "frame" 0 1 5)))))).
  reflexivity.
Defined.

Lemma step_keeps_timings_bounded (self : PerformanceMonitor.t)
      (c : PerformanceMonitor.call) :
  Forall (fun item => (length (snd item) <= PerformanceMonitor.window_size self)%nat)
         (PerformanceMonitor._timings self) ->
  PerformanceMonitor.window_size (PerformanceMonitor.step self c) =
    PerformanceMonitor.window_size self /\
  Forall (fun item => (length (snd item) <= PerformanceMonitor.window_size self)%nat)
         (PerformanceMonitor._timings (PerformanceMonitor.step self c)).
Proof.
  intro H. destruct c as [name now|name now|name amount|]; cbn.
  - split; [reflexivity|exact H].
  - unfold PerformanceMonitor.stop_timer.
    destruct (PyDict.get (PerformanceMonitor._start_times self) name);
      [|split; [reflexivity|exact H]].
    cbn [fst PerformanceMonitor.window_size PerformanceMonitor._timings].
    split; [reflexivity|].
    set (timings1 := if negb _ then _ else _).
    assert (H1 : Forall (fun item =>
                           (length (snd item) <=
                            PerformanceMonitor.window_size self)%nat) timings1).
    { unfold timings1. destruct (negb _); [|exact H].
      apply dict_set_Forall; [exact H|cbn; lia]. }
    destruct (PyDict.get timings1 name); [|exact H1].
    apply dict_set_Forall; [exact H1|]. cbn. apply deque_append_bounded.
  - split; [reflexivity|exact H].
  - split; [reflexivity|constructor].
Qed.

(** X24: whatever calls a monitor created with [window_size] has seen, each
    metric holds at most [window_size] timings. *)
Theorem monitor_timings_bounded
        (w : nat) (calls : list PerformanceMonitor.call)
        (name : string) (timings : list Q) :
  PyDict.get
    (PerformanceMonitor._timings
       (PerformanceMonitor.run (PerformanceMonitor.init w) calls)) name =
    Some timings ->
  (length timings <= w)%nat.
Proof.
  intro Hget.
  assert (Hinv : forall calls self,
             PerformanceMonitor.window_size self = w ->
             Forall (fun item => (length (snd item) <= w)%nat)
                    (PerformanceMonitor._timings self) ->
             Forall (fun item => (length (snd item) <= w)%nat)
                    (PerformanceMonitor._timings
                       (PerformanceMonitor.run self calls))).
  { clear. induction calls as [|c rest IH]; intros self Hw H; [exact H|].
    cbn [PerformanceMonitor.run fold_left].
    rewrite <- Hw in H.
    destruct (step_keeps_timings_bounded self c H) as [Hw' H'].
    apply IH; [congruence|]. rewrite <- Hw. exact H'. }
  specialize (Hinv calls (PerformanceMonitor.init w) eq_refl (Forall_nil _)).
  rewrite Forall_forall in Hinv.
  apply (Hinv (name, timings)). apply dict_get_In. exact Hget.
Qed.

Lemma monitor_timings_bounded_witness :
  (length [3 # 1; 4 # 1] <= 2)%nat.
Proof.
  apply (monitor_timings_bounded
           2
           [PerformanceMonitor.StartTimer "f" 0; PerformanceMonitor.StopTimer "f" 2;
            PerformanceMonitor.StartTimer "f" 2; PerformanceMonitor.StopTimer "f" 5;
            PerformanceMonitor.StartTimer "f" 5; PerformanceMonitor.StopTimer "f" 9]
           "f"%string [3 # 1; 4 # 1]).
  reflexivity.
Defined.

Lemma increment_counter_get (self : PerformanceMonitor.t) (name other : string)
      (amount : Z) :
  PerformanceMonitor.get_counter
    (PerformanceMonitor.increment_counter self name amount) other =
  if String.eqb name other
  then (PerformanceMonitor.get_counter self other + amount)%Z
  else PerformanceMonitor.get_counter self other.
Proof.
  unfold PerformanceMonitor.get_counter, PerformanceMonitor.increment_counter.
  cbn [PerformanceMonitor._counters]. unfold PyDict.contains.
  destruct (String.eqb_spec name other) as [->|Hne].
  - destruct (PyDict.get (PerformanceMonitor._counters self) other) as [c|] eqn:E;
      cbn [negb].
    + rewrite E, dict_get_set_same. reflexivity.
    + rewrite dict_get_set_same, dict_get_set_same. reflexivity.
  - destruct (PyDict.get (PerformanceMonitor._counters self) name) as [c|] eqn:E;
      cbn [negb].
    + rewrite E, dict_get_set_other by congruence. reflexivity.
    + rewrite dict_get_set_same, !dict_get_set_other by congruence.
      reflexivity.
Qed.

(** X25: a counter that was never incremented reads 0, and after any calls
    the counter [name] is the sum of the amounts it was incremented by since
    the last [reset]: the increments of other counters and the timers do not
    touch it. *)
Theorem counter_sums_increments
        (self : PerformanceMonitor.t) (calls : list PerformanceMonitor.call)
        (name : string) :
  (forall w, PerformanceMonitor.get_counter (PerformanceMonitor.init w) name = 0%Z) /\
  PerformanceMonitor.get_counter (PerformanceMonitor.run self calls) name =
  PerformanceMonitor.counted name calls
                             (PerformanceMonitor.get_counter self name).
Proof.
  split; [reflexivity|].
  revert self. induction calls as [|c rest IH]; intro self; [reflexivity|].
  cbn [PerformanceMonitor.run fold_left].
  change (fold_left PerformanceMonitor.step rest (PerformanceMonitor.step self c))
    with (PerformanceMonitor.run (PerformanceMonitor.step self c) rest).
  rewrite IH.
  destruct c as [n now|n now|n amount|]; cbn [PerformanceMonitor.counted PerformanceMonitor.step].
  - reflexivity.
  - f_equal. unfold PerformanceMonitor.get_counter, PerformanceMonitor.stop_timer.
    destruct (PyDict.get (PerformanceMonitor._start_times self) n); reflexivity.
  - rewrite increment_counter_get. reflexivity.
  - reflexivity.
Qed.

(** X26: [get_average] and [get_fps] never raise: the average is [None]
    exactly for a metric without timings, and otherwise the sum of the
    timings over their number; the rate is [None] when there is no average
    or when it is zero, and otherwise its inverse. *)
Theorem average_and_fps_never_raise (self : PerformanceMonitor.t) (name : string) :
  let timings :=
    match PyDict.get (PerformanceMonitor._timings self) name with
    | Some deque => deque
    | None => []
    end in
  let avg := PerformanceMonitor.sum timings / inject_Z (Z.of_nat (length timings)) in
  PerformanceMonitor.get_average self name =
    Py.Returned (if (length timings =? 0)%nat then None else Some avg) /\
  PerformanceMonitor.get_fps self name =
    Py.Returned (if (length timings =? 0)%nat then None
                 else if Qeq_bool avg 0 then None else Some (1 / avg)).
Proof.
  intros timings avg.
  assert (Havg : PerformanceMonitor.get_average self name =
                 Py.Returned (if (length timings =? 0)%nat then None else Some avg)).
  { unfold PerformanceMonitor.get_average, timings, avg.
    destruct (PyDict.get (PerformanceMonitor._timings self) name) as [deque|];
      [|reflexivity].
    destruct (length deque =? 0)%nat eqn:E; [reflexivity|].
    apply Nat.eqb_neq in E.
    rewrite div_positive; [reflexivity|].
    change 0 with (inject_Z 0). rewrite <- Zlt_Qlt. lia. }
  split; [exact Havg|].
  unfold PerformanceMonitor.get_fps. rewrite Havg. cbn [Py.bind].
  destruct (length timings =? 0)%nat; [reflexivity|].
  unfold Py.div.
  destruct (Qeq_bool avg 0); reflexivity.
Qed.

(** ** [CaptureManager]: adding and clearing samples *)

(** X27: [add_sample] appends the sample to the samples of its sign, so the
    count of that sign grows by one, and leaves the samples of every other
    sign as they were; a sign without samples reads as the empty list. *)
Theorem add_sample_appends
        (self : CaptureManager.t) (sign_name : string)
        (landmarks : TemporalBuffer.landmarks) (now : Q) :
  let self' := CaptureManager.add_sample self sign_name landmarks now in
  CaptureManager.get_samples self' sign_name =
    CaptureManager.get_samples self sign_name ++ [landmarks] /\
  CaptureManager.get_sample_count self' sign_name =
    S (CaptureManager.get_sample_count self sign_name) /\
  (forall other, other <> sign_name ->
     CaptureManager.get_samples self' other =
     CaptureManager.get_samples self other) /\
  (PyDict.contains (CaptureManager.samples self) sign_name = false ->
   CaptureManager.get_samples self sign_name = [] /\
   PyDict.get (CaptureManager.metadata self') sign_name =
     Some (now, "custom"%string)).
Proof.
  intro self'.
  assert (Hsame : CaptureManager.get_samples self' sign_name =
                  CaptureManager.get_samples self sign_name ++ [landmarks]).
  { unfold self', CaptureManager.get_samples, CaptureManager.add_sample,
      PyDict.contains.
    destruct (PyDict.get (CaptureManager.samples self) sign_name) as [l|] eqn:E;
      cbn [negb].
    - rewrite E. cbn [CaptureManager.samples]. rewrite dict_get_set_same.
      reflexivity.
    - cbn [CaptureManager.samples]. rewrite dict_get_set_same.
      cbn [CaptureManager.samples]. rewrite dict_get_set_same. reflexivity. }
  split; [exact Hsame|]. split; [|split].
  - unfold CaptureManager.get_sample_count. rewrite Hsame, length_app.
    cbn [length]. lia.
  - intros other Hne.
    unfold self', CaptureManager.get_samples, CaptureManager.add_sample,
      PyDict.contains.
    destruct (PyDict.get (CaptureManager.samples self) sign_name) as [l|] eqn:E;
      cbn [negb].
    + rewrite E. cbn [CaptureManager.samples].
      rewrite dict_get_set_other by exact Hne. reflexivity.
    + cbn [CaptureManager.samples]. rewrite dict_get_set_same.
      cbn [CaptureManager.samples].
      rewrite !dict_get_set_other by exact Hne. reflexivity.
  - unfold PyDict.contains. intro Hc.
    destruct (PyDict.get (CaptureManager.samples self) sign_name) as [l|] eqn:E;
      [discriminate|].
    split.
    + unfold CaptureManager.get_samples. rewrite E. reflexivity.
    + unfold self', CaptureManager.add_sample, PyDict.contains. rewrite E.
      cbn [negb CaptureManager.samples]. rewrite dict_get_set_same.
      cbn [CaptureManager.metadata]. apply dict_get_set_same.
Qed.

Lemma add_sample_appends_witness :
  let self := CaptureManager.add_sample CaptureManager.init "hello" [1 # 2] 10 in
  CaptureManager.get_samples self "thanks" = [] /\
  CaptureManager.get_samples
    (CaptureManager.add_sample self "hello" [1 # 3] 11) "thanks" = [].
Proof.
  intro self.
  destruct (add_sample_appends self "thanks" [1 # 4] 12) as (_ & _ & _ & Hnew).
  destruct (add_sample_appends self "hello" [1 # 3] 11) as (_ & _ & Hother & _).
  split.
  - apply Hnew. reflexivity.
  - rewrite Hother by discriminate. apply Hnew. reflexivity.
Defined.

(** The signs with samples are the signs with metadata. *)
Lemma capture_step_keeps_keys (self : CaptureManager.t)
      (c : CaptureManager.call) :
  (forall k, PyDict.contains (CaptureManager.samples self) k =
             PyDict.contains (CaptureManager.metadata self) k) ->
  exists self',
    CaptureManager.step self c = Some self' /\
    (forall k, PyDict.contains (CaptureManager.samples self') k =
               PyDict.contains (CaptureManager.metadata self') k).
Proof.
  intro Hk. destruct c as [sign_name landmarks now|sign_name]; cbn.
  - eexists. split; [reflexivity|]. intro k.
    unfold CaptureManager.add_sample.
    destruct (PyDict.contains (CaptureManager.samples self) sign_name) eqn:Ec;
      cbn [negb CaptureManager.samples CaptureManager.metadata].
    + unfold PyDict.contains in Ec.
      destruct (PyDict.get (CaptureManager.samples self) sign_name) eqn:E;
        [|discriminate].
      cbn [CaptureManager.samples CaptureManager.metadata].
      rewrite dict_contains_set, <- Hk.
      destruct (String.eqb_spec sign_name k) as [<-|Hne]; [|reflexivity].
      unfold PyDict.contains. rewrite E. reflexivity.
    + rewrite dict_get_set_same.
      cbn [CaptureManager.samples CaptureManager.metadata].
      rewrite !dict_contains_set, Hk.
      destruct (String.eqb sign_name k); reflexivity.
  - unfold CaptureManager.clear_samples.
    destruct (PyDict.contains (CaptureManager.samples self) sign_name) eqn:Ec.
    + rewrite <- Hk, Ec. eexists. split; [reflexivity|]. intro k.
      cbn [CaptureManager.samples CaptureManager.metadata].
      rewrite !dict_contains_del, Hk. reflexivity.
    + exists self. split; [reflexivity|exact Hk].
Qed.

(** X28: from an empty manager, no sequence of [add_sample] and
    [clear_samples] calls raises: the signs with samples are always the
    signs with metadata, so [del self.metadata[sign_name]] finds its key; and
    [clear_samples] brings the count of its sign to 0 and leaves the samples
    of the other signs. *)
Theorem clear_samples_never_fails (calls : list CaptureManager.call) :
  exists self,
    CaptureManager.run CaptureManager.init calls = Some self /\
    forall sign_name,
    exists self',
      CaptureManager.clear_samples self sign_name = Some self' /\
      CaptureManager.get_sample_count self' sign_name = 0%nat /\
      PyDict.get (CaptureManager.metadata self') sign_name = None /\
      (forall other, other <> sign_name ->
         CaptureManager.get_samples self' other =
         CaptureManager.get_samples self other).
Proof.
  assert (Hrun : forall calls self,
             (forall k, PyDict.contains (CaptureManager.samples self) k =
                        PyDict.contains (CaptureManager.metadata self) k) ->
             exists self',
               CaptureManager.run self calls = Some self' /\
               (forall k, PyDict.contains (CaptureManager.samples self') k =
                          PyDict.contains (CaptureManager.metadata self') k)).
  { clear. induction calls as [|c rest IH]; intros self Hk.
    - exists self. split; [reflexivity|exact Hk].
    - cbn [CaptureManager.run].
      destruct (capture_step_keeps_keys self c Hk) as (self1 & -> & Hk1).
      apply IH. exact Hk1. }
  destruct (Hrun calls CaptureManager.init (fun _ => eq_refl))
    as (self & Hself & Hk).
  exists self. split; [exact Hself|]. intro sign_name.
  unfold CaptureManager.clear_samples, CaptureManager.get_sample_count,
    CaptureManager.get_samples.
  rewrite <- Hk.
  destruct (PyDict.contains (CaptureManager.samples self) sign_name) eqn:Ec.
  - eexists. split; [reflexivity|].
    cbn [CaptureManager.samples CaptureManager.metadata].
    rewrite !dict_get_del_same. split; [reflexivity|]. split; [reflexivity|].
    intros other Hne. rewrite dict_get_del_other by exact Hne. reflexivity.
  - exists self. split; [reflexivity|].
    unfold PyDict.contains in Ec.
    destruct (PyDict.get (CaptureManager.samples self) sign_name) eqn:E;
      [discriminate|].
    split; [reflexivity|]. split; [|reflexivity].
    specialize (Hk sign_name). unfold PyDict.contains in Hk. rewrite E in Hk.
    destruct (PyDict.get (CaptureManager.metadata self) sign_name);
      [discriminate|reflexivity].
Qed.

(** ** [_deep_merge]: what a key holds after the merge *)

(** The merge of two dictionaries is [_deep_merge] of their items. *)
Lemma merge_value_dicts (override base : list (string * Config.value)) :
  Config.merge_value (Config.VDict override) (Config.VDict base) =
  Config.VDict (Config._deep_merge base override).
Proof.
  cbn [Config.merge_value]. f_equal. unfold Config._deep_merge.
  revert base. induction override as [|[key v] rest IH]; intro base.
  - reflexivity.
  - cbn [fold_left fst snd]. rewrite <- IH. reflexivity.
Qed.

Lemma dict_get_absent {V : Type} (d : PyDict.t V) (k : string) :
  ~ In k (map fst d) -> PyDict.get d k = None.
Proof.
  induction d as [|[k' v] d IH]; cbn; intro H; [reflexivity|].
  destruct (String.eqb_spec k' k) as [->|Hne].
  - exfalso. apply H. left. reflexivity.
  - apply IH. intro Hin. apply H. right. exact Hin.
Qed.

(** X29: after [_deep_merge(base, override)], a key the override does not
    have keeps the value of the base; a key the override has holds the
    override's value, unless both values are dictionaries, in which case it
    holds their deep merge.  The keys of the override are distinct, as the
    keys of a dictionary are. *)
Theorem deep_merge_lookup
        (base override : list (string * Config.value)) (key : string) :
  NoDup (map fst override) ->
  PyDict.get (Config._deep_merge base override) key =
  match PyDict.get override key with
  | None => PyDict.get base key
  | Some v =>
      match v, PyDict.get base key with
      | Config.VDict o, Some (Config.VDict b) =>
          Some (Config.VDict (Config._deep_merge b o))
      | _, _ => Some v
      end
  end.
Proof.
  revert base. induction override as [|[k0 v0] rest IH]; intros base Hnd.
  - reflexivity.
  - inversion Hnd as [|? ? Hnotin Hnd']; subst.
    unfold Config._deep_merge. cbn [fold_left fst snd].
    change (fold_left _ rest ?b) with (Config._deep_merge b rest).
    rewrite (IH _ Hnd'). cbn [PyDict.get].
    destruct (String.eqb_spec k0 key) as [->|Hne].
    + rewrite (dict_get_absent rest key Hnotin), dict_get_set_same.
      destruct (PyDict.get base key) as [[b|r]|]; destruct v0 as [o|r'];
        try reflexivity.
      rewrite merge_value_dicts. reflexivity.
    + rewrite dict_get_set_other by congruence. reflexivity.
Qed.

Lemma deep_merge_lookup_witness :
  let base :=
    [("recognition"%string,
      Config.VDict [("model"%string, Config.VOther "asl_base");
                    ("temporal_window"%string, Config.VOther "15")]);
     ("data_dir"%string, Config.VOther "data")] in
  let override :=
    [("recognition"%string,
      Config.VDict [("temporal_window"%string, Config.VOther "20")])] in
  PyDict.get (Config._deep_merge base override) "recognition" =
    Some (Config.VDict [("model"%string, Config.VOther "asl_base");
                        ("temporal_window"%string, Config.VOther "20")]) /\
  PyDict.get (Config._deep_merge base override) "data_dir" =
    Some (Config.VOther "data").
Proof.
  intros base override. split.
  - rewrite (deep_merge_lookup base override "recognition"%string).
    + reflexivity.
    + repeat constructor. intros [].
  - rewrite (deep_merge_lookup base override "data_dir"%string).
    + reflexivity.
    + repeat constructor. intros [].
Defined.

(** ** [update_config]: reconfiguring a running pipeline *)

(** X30: [update_config] with the key ["temporal_window"] and a value from
    0 to below [2**63] resizes the buffer to the whole part of the value, the
    buffer keeping its most recent vectors, and leaves the classifier and the
    filter alone; with a value from [-2**63] to -1 it raises [ValueError], and
    with a value of [2**63] or more, or of [-2**63 - 1] or less,
    [OverflowError]; with a key it does not know it changes nothing; with the
    threshold or the smoothing key it raises what [float(value)] raises, and
    else replaces that setting only by the float, the history and the last
    accepted prediction of the filter staying. *)
Theorem update_config_effects
        (py_float : Q -> Py.outcome Q) (app : Server.app_state) (value : Q) :
  (0 <= value -> value < inject_Z (2 ^ 63) ->
   Server.update_config py_float app "temporal_window" value =
   Py.Returned
     (Server.mk
        (TemporalBuffer.mk
           (Z.to_nat (Qfloor value))
           (Py.last_n (Z.to_nat (Qfloor value))
                      (TemporalBuffer.buffer (Server.temporal_buffer app)))
           (TemporalBuffer.feature_size (Server.temporal_buffer app)))
        (Server.classifier app) (Server.confidence_filter app))) /\
  (value <= -1 -> inject_Z (- 2 ^ 63) <= value ->
   Server.update_config py_float app "temporal_window" value =
   Py.Raised Py.ValueError) /\
  (inject_Z (2 ^ 63) <= value \/ value <= inject_Z (- 2 ^ 63 - 1) ->
   Server.update_config py_float app "temporal_window" value =
   Py.Raised Py.OverflowError) /\
  (forall key,
      key <> "confidence_threshold"%string ->
      key <> "smoothing_factor"%string ->
      key <> "temporal_window"%string ->
      Server.update_config py_float app key value = Py.Returned app) /\
  (forall e,
      py_float value = Py.Raised e ->
      Server.update_config py_float app "confidence_threshold" value = Py.Raised e /\
      Server.update_config py_float app "smoothing_factor" value = Py.Raised e) /\
  (forall x,
      py_float value = Py.Returned x ->
      exists app1 app2,
        Server.update_config py_float app "confidence_threshold" value =
          Py.Returned app1 /\
        Server.update_config py_float app "smoothing_factor" value =
          Py.Returned app2 /\
        ConfidenceFilter.threshold (Server.confidence_filter app1) = x /\
        ConfidenceFilter.smoothing (Server.confidence_filter app2) = x /\
        ConfidenceFilter.smoothing (Server.confidence_filter app1) =
          ConfidenceFilter.smoothing (Server.confidence_filter app) /\
        ConfidenceFilter.threshold (Server.confidence_filter app2) =
          ConfidenceFilter.threshold (Server.confidence_filter app) /\
        (forall a, a = app1 \/ a = app2 ->
           Server.temporal_buffer a = Server.temporal_buffer app /\
           Server.classifier a = Server.classifier app /\
           ConfidenceFilter.history (Server.confidence_filter a) =
             ConfidenceFilter.history (Server.confidence_filter app) /\
           ConfidenceFilter.last_prediction (Server.confidence_filter a) =
             ConfidenceFilter.last_prediction (Server.confidence_filter app) /\
           ConfidenceFilter.last_confidence (Server.confidence_filter a) =
             ConfidenceFilter.last_confidence (Server.confidence_filter app))).
Proof.
  assert (Hfloor : forall z : Z, (z <= Qfloor value)%Z <-> inject_Z z <= value).
  { intro z. split; intro H.
    - apply Qle_trans with (inject_Z (Qfloor value)); [|apply Qfloor_le].
      rewrite <- Zle_Qle. exact H.
    - rewrite <- (Qfloor_Z z). apply Qfloor_resp_le. exact H. }
  assert (Hceil : forall z : Z, (Qceiling value <= z)%Z <-> value <= inject_Z z).
  { intro z. split; intro H.
    - apply Qle_trans with (inject_Z (Qceiling value)); [apply Qle_ceiling|].
      rewrite <- Zle_Qle. exact H.
    - rewrite <- (Qceiling_Z z). apply Qceiling_resp_le. exact H. }
  split; [|split; [|split; [|split; [|split]]]].
  - intros Hpos Hmax.
    unfold Server.update_config, Server.py_int. cbn [String.eqb Ascii.eqb Bool.eqb].
    replace (Qle_bool 0 value) with true by (symmetry; apply Qle_bool_iff; exact Hpos).
    assert (H0 : (0 <= Qfloor value)%Z) by (apply Hfloor; exact Hpos).
    assert (H1 : (Qfloor value <= 2 ^ 63 - 1)%Z).
    { destruct (Z_le_gt_dec (2 ^ 63) (Qfloor value)) as [Hge|Hlt]; [|lia].
      apply Hfloor in Hge. apply Qle_not_lt in Hge. contradiction. }
    replace (Qfloor value <? - 2 ^ 63)%Z with false by (symmetry; apply Z.ltb_ge; lia).
    replace (2 ^ 63 - 1 <? Qfloor value)%Z with false
      by (symmetry; apply Z.ltb_ge; exact H1).
    replace (Qfloor value <? 0)%Z with false by (symmetry; apply Z.ltb_ge; exact H0).
    cbn [orb]. f_equal. f_equal.
    rewrite <- resize_buffer. reflexivity.
  - intros Hneg Hmin.
    unfold Server.update_config, Server.py_int. cbn [String.eqb Ascii.eqb Bool.eqb].
    replace (Qle_bool 0 value) with false.
    2:{ symmetry. destruct (Qle_bool 0 value) eqn:E; [|reflexivity].
        apply Qle_bool_iff in E. lra. }
    assert (H0 : (Qceiling value <= -1)%Z) by (apply Hceil; exact Hneg).
    assert (H1 : (- 2 ^ 63 <= Qceiling value)%Z).
    { rewrite <- (Qceiling_Z (- 2 ^ 63)). apply Qceiling_resp_le. exact Hmin. }
    replace (Qceiling value <? - 2 ^ 63)%Z with false
      by (symmetry; apply Z.ltb_ge; exact H1).
    replace (2 ^ 63 - 1 <? Qceiling value)%Z with false by (symmetry; apply Z.ltb_ge; lia).
    replace (Qceiling value <? 0)%Z with true by (symmetry; apply Z.ltb_lt; lia).
    reflexivity.
  - intros [Hbig|Hsmall];
      unfold Server.update_config, Server.py_int; cbn [String.eqb Ascii.eqb Bool.eqb].
    + assert (Hpos : 0 <= value).
      { apply Qle_trans with (inject_Z (2 ^ 63)); [|exact Hbig].
        change 0 with (inject_Z 0). rewrite <- Zle_Qle. lia. }
      replace (Qle_bool 0 value) with true by (symmetry; apply Qle_bool_iff; exact Hpos).
      apply Hfloor in Hbig.
      replace (2 ^ 63 - 1 <? Qfloor value)%Z with true by (symmetry; apply Z.ltb_lt; lia).
      rewrite orb_true_r. reflexivity.
    + assert (Hneg : value < 0).
      { apply Qle_lt_trans with (inject_Z (- 2 ^ 63 - 1)); [exact Hsmall|].
        change 0 with (inject_Z 0). rewrite <- Zlt_Qlt. lia. }
      replace (Qle_bool 0 value) with false.
      2:{ symmetry. destruct (Qle_bool 0 value) eqn:E; [|reflexivity].
          apply Qle_bool_iff in E. apply Qle_not_lt in E. contradiction. }
      apply Hceil in Hsmall.
      replace (Qceiling value <? - 2 ^ 63)%Z with true by (symmetry; apply Z.ltb_lt; lia).
      reflexivity.
  - intros key H1 H2 H3. unfold Server.update_config.
    apply String.eqb_neq in H1, H2, H3. rewrite H1, H2, H3. reflexivity.
  - intros e He. unfold Server.update_config. cbn [String.eqb Ascii.eqb Bool.eqb].
    rewrite He. split; reflexivity.
  - intros x Hx. unfold Server.update_config. cbn [String.eqb Ascii.eqb Bool.eqb].
    rewrite Hx.
    eexists. eexists. split; [reflexivity|]. split; [reflexivity|].
    cbn. repeat split; destruct H as [-> | ->]; reflexivity.
Qed.

Lemma update_config_effects_witness :
  let v : TemporalBuffer.landmarks := [1 # 2] in
  let w : TemporalBuffer.landmarks := [1 # 3] in
  let py_float : Q -> Py.outcome Q :=
      fun q => if Qle_bool (inject_Z (2 ^ 1024)) (Qabs q)
               then Py.Raised Py.OverflowError else Py.Returned q in
  let app := Server.mk (TemporalBuffer.mk 3 [v; w; w] (Some 1%nat))
                       (GestureClassifier.mk None [] "asl_base")
                       (ConfidenceFilter.init (7 # 10) (3 # 10)) in
  Server.update_config py_float app "temporal_window" (5 # 2) =
    Py.Returned (Server.mk (TemporalBuffer.mk 2 [w; w] (Some 1%nat))
                           (GestureClassifier.mk None [] "asl_base")
                           (ConfidenceFilter.init (7 # 10) (3 # 10))) /\
  Server.update_config py_float app "temporal_window" (- (3 # 2)) =
    Py.Raised Py.ValueError /\
  Server.update_config py_float app "temporal_window" (inject_Z (2 ^ 63)) =
    Py.Raised Py.OverflowError /\
  Server.update_config py_float app "theme" 1 = Py.Returned app /\
  Server.update_config py_float app "confidence_threshold" (inject_Z (2 ^ 1024)) =
    Py.Raised Py.OverflowError /\
  (exists app1,
      Server.update_config py_float app "confidence_threshold" (1 # 2) =
        Py.Returned app1 /\
      ConfidenceFilter.threshold (Server.confidence_filter app1) = 1 # 2).
Proof.
  intros v w py_float app.
  destruct (update_config_effects py_float app (5 # 2)) as (Hpos & _).
  destruct (update_config_effects py_float app (- (3 # 2))) as (_ & Hneg & _).
  destruct (update_config_effects py_float app (inject_Z (2 ^ 63)))
    as (_ & _ & Hover & _).
  destruct (update_config_effects py_float app 1) as (_ & _ & _ & Hkey & _).
  destruct (update_config_effects py_float app (inject_Z (2 ^ 1024)))
    as (_ & _ & _ & _ & Hraise & _).
  destruct (update_config_effects py_float app (1 # 2))
    as (_ & _ & _ & _ & _ & Hset).
  split; [|split; [|split; [|split; [|split]]]].
  - apply Hpos; [cbn; discriminate|reflexivity].
  - apply Hneg; cbn; discriminate.
  - apply Hover. left. apply Qle_refl.
  - apply Hkey; discriminate.
  - apply (Hraise Py.OverflowError). vm_compute. reflexivity.
  - destruct (Hset (1 # 2) eq_refl) as (app1 & _ & H1 & _ & Ht & _).
    exists app1. split; [exact H1|exact Ht].
Defined.
